(** * pmatic manager: schedules, conditions, event log

    A shallow embedding of the scheduling core of [pmatic/manager.py]
    (classes [Events], [ScriptRunner], [Schedule], [Condition] and its
    subclasses, [Scheduler], and [Manager._on_value_updated]), of the
    request handling of its pages ([Html.escape], [PageHandler],
    [StaticFile], and the actions of the script, run, login, configuration,
    schedule and edit pages), and of the address and session handling of
    [RemoteAPI] in [pmatic/api/remote.py].

    Python objects are records; a method that mutates [self] takes the
    object and returns the new one; an exception is the [Raise] branch of
    [result]; [sys.exit] is the [Exit] branch of [outcome].  Values read from
    the JSON store are terms of [value]. *)

From Stdlib Require Import ZArith Lia Bool Ascii DecimalString.
From stdpp Require Import base list strings.

Set Warnings "-register-all".
Local Open Scope string_scope.
Local Open Scope Z_scope.
Local Open Scope list_scope.

(** ** Python values and exceptions *)

(** What [json.load] returns (floats are left out: the code under study only
    stores and forwards them). *)
Inductive value : Type :=
  | VNone
  | VBool (b : bool)
  | VInt (z : Z)
  | VStr (s : string)
  | VList (l : list value)
  | VDict (d : list (string * value)).

(** The exceptions the modelled code raises or catches. *)
Inductive exn : Type :=
  | KeyError
  | IndexError
  | AttributeError
  | TypeError
  | ValueError
  | IOError (errno : Z)
  | PMUserError (detail : value).

Inductive result (A : Type) : Type :=
  | Ok (a : A)
  | Raise (e : exn).
Arguments Ok {A} a.
Arguments Raise {A} e.

Definition bind {A B} (m : result A) (f : A -> result B) : result B :=
  match m with
  | Ok a => f a
  | Raise e => Raise e
  end.

Notation "'let*' x ':=' m 'in' k" := (bind m (fun x => k))
  (at level 10, x pattern, m at level 100, k at level 200).

(** [sys.exit(code)] ends the process; [Done] is a normal return. *)
Inductive outcome (A : Type) : Type :=
  | Done (a : A)
  | Exit (code : Z).
Arguments Done {A} a.
Arguments Exit {A} code.

(** Truth value of a Python object, as [if x:] and [x and y] test it. *)
Definition truthy (v : value) : bool :=
  match v with
  | VNone => false
  | VBool b => b
  | VInt z => negb (z =? 0)
  | VStr s => negb (String.eqb s "")
  | VList l => negb (Nat.eqb (length l) 0)
  | VDict d => negb (Nat.eqb (length d) 0)
  end.

(** A [dict] with string keys, in insertion order. *)
Fixpoint dict_get {A} (d : list (string * A)) (k : string) : option A :=
  match d with
  | [] => None
  | (k', v) :: d' => if String.eqb k' k then Some v else dict_get d' k
  end.

Fixpoint dict_set {A} (d : list (string * A)) (k : string) (v : A)
  : list (string * A) :=
  match d with
  | [] => [(k, v)]
  | (k', v') :: d' =>
      if String.eqb k' k then (k, v) :: d' else (k', v') :: dict_set d' k v
  end.

(** [cfg.items()] *)
Definition py_items (cfg : value) : result (list (string * value)) :=
  match cfg with
  | VDict d => Ok d
  | _ => Raise AttributeError
  end.

(** [cfg[key]] for a string key *)
Definition py_getitem (cfg : value) (key : string) : result value :=
  match cfg with
  | VDict d =>
      match dict_get d key with
      | Some v => Ok v
      | None => Raise KeyError
      end
  | _ => Raise TypeError
  end.

Fixpoint chars (s : string) : list value :=
  match s with
  | EmptyString => []
  | String c s' => VStr (String c EmptyString) :: chars s'
  end.

(** [for x in v]: the elements a [for] loop visits *)
Definition py_iter (v : value) : result (list value) :=
  match v with
  | VList l => Ok l
  | VDict d => Ok (map (fun kv => VStr (fst kv)) d)
  | VStr s => Ok (chars s)
  | _ => Raise TypeError
  end.

(** [l[i]] on a list: the position a Python index denotes, counting from the
    end when negative; [None] is an [IndexError]. *)
Definition py_index {A} (l : list A) (i : Z) : option nat :=
  let n := Z.of_nat (length l) in
  if (0 <=? i) && (i <? n) then Some (Z.to_nat i)
  else if (- n <=? i) && (i <? 0) then Some (Z.to_nat (n + i))
  else None.

(** Readings of [time.time()]; the code stores and compares them only. *)
Definition timestamp := Z.

(** ** Events *)

Module Events.

Section WithEvent.
Context {E : Type}.

Record t := mk { _events : list E; _num_events_total : nat }.

(** [Events.__init__] *)
Definition init : t := {| _events := []; _num_events_total := 0 |}.

(** [Events.add_event] *)
Definition add_event (self : t) (event_dict : E) : t :=
  let total := S (_num_events_total self) in
  let evs := _events self ++ [event_dict] in
  if (1000 <? length evs)%nat
  then {| _events := tail evs; _num_events_total := total |}
  else {| _events := evs; _num_events_total := total |}.

Definition events (self : t) : list E := _events self.
Definition num_events_total (self : t) : nat := _num_events_total self.

(** successive calls of [add_event], oldest first *)
Definition add_all (self : t) (l : list E) : t :=
  fold_left add_event l self.
End WithEvent.
Arguments t : clear implicits.

End Events.

(** ** The device catalog ([manager.ccu]) *)

(** Modelled from the spec: the classes behind [manager.ccu.devices]
    (pmatic's [CCU], [Devices], [Device], [Channel], [Parameter]) are not
    part of the sources at hand.  Section 6 of the specification describes
    the catalog as resolving (device address, channel address, parameter id)
    triples to live parameter objects; the calls the manager makes on it are
    [devices.query(device_address=a).get(a)], which yields a device or
    [None], [device.channel_by_address(a)], which raises [KeyError] for an
    unknown address, and [channel.values.get(id)], a dictionary lookup.
    Catalog objects are plain objects: they count as true in [if not x]. *)
Record ParameterObj := mkParameterObj {
  param_id : string;          (* [param.id] *)
  param_title : string;       (* [param.title] *)
  param_channel : string;     (* address of the owning channel *)
}.

Record Channel := mkChannel {
  channel_address : string;                 (* [channel.address] *)
  channel_name : string;                    (* [channel.name] *)
  channel_values : list (string * ParameterObj); (* [channel.values] *)
}.

Record Device := mkDevice {
  device_address : string;       (* [device.address] *)
  device_name : string;          (* [device.name] *)
  device_channels : list Channel; (* [device.channels] *)
}.

Definition Catalog := list Device.

(** [devices.query(device_address=a).get(a)] *)
Definition query_get (devices : Catalog) (a : value) : option Device :=
  match a with
  | VStr s => find (fun d => String.eqb (device_address d) s) devices
  | _ => None
  end.

(** [device.channel_by_address(a)] *)
Definition channel_by_address (device : Device) (a : value) : result Channel :=
  match a with
  | VStr s =>
      match find (fun c => String.eqb (channel_address c) s)
                 (device_channels device) with
      | Some c => Ok c
      | None => Raise KeyError
      end
  | _ => Raise KeyError
  end.

(** [channel.values.get(id)] *)
Definition values_get (channel : Channel) (id : value) : option ParameterObj :=
  match id with
  | VStr s => dict_get (channel_values channel) s
  | _ => None
  end.

(** What an attribute named [_manager] holds: the manager object handed to
    the constructor, or whatever [setattr] stored there since. *)
Inductive manager_attr : Type :=
  | ManagerObj
  | ManagerVal (v : value).

(** ** ScriptRunner *)

Module ScriptRunner.

Record t := mk {
  script : value;
  output : list string;
  exit_code : option Z;
  started : timestamp;
  finished : option timestamp;
  alive : bool;        (* [threading.Thread.is_alive()] *)
}.

(** [ScriptRunner.__init__], called at time [now] *)
Definition init (script : value) (now : timestamp) : t :=
  {| script := script; output := []; exit_code := None;
     started := now; finished := None; alive := false |}.

(** [threading.Thread.start]: the thread is alive from here on *)
Definition start (self : t) : t :=
  {| script := script self; output := output self;
     exit_code := exit_code self; started := started self;
     finished := finished self; alive := true |}.

(** The thread's [run] returns: the script ended with [code] at time [now],
    or could not be launched ([None]). *)
Definition terminated (self : t) (code : option Z) (now : timestamp) : t :=
  {| script := script self; output := output self;
     exit_code := code;
     started := started self;
     finished := match code with Some _ => Some now | None => finished self end;
     alive := false |}.

Definition is_alive (self : t) : bool := alive self.

End ScriptRunner.

(** ** Conditions *)

Module Condition.

(** The subclasses of [Condition], in the order they are defined. *)
Inductive cls : Type :=
  | ConditionOnStartup
  | ConditionOnCCUInitialized
  | ConditionOnDeviceEvent
  | ConditionOnTime.

Definition cls_eqb (a b : cls) : bool :=
  match a, b with
  | ConditionOnStartup, ConditionOnStartup
  | ConditionOnCCUInitialized, ConditionOnCCUInitialized
  | ConditionOnDeviceEvent, ConditionOnDeviceEvent
  | ConditionOnTime, ConditionOnTime => true
  | _, _ => false
  end.

Definition subclasses : list cls :=
  [ConditionOnStartup; ConditionOnCCUInitialized; ConditionOnDeviceEvent;
   ConditionOnTime].

(** the class attribute [type_name] *)
Definition class_type_name (c : cls) : string :=
  match c with
  | ConditionOnStartup => "on_startup"
  | ConditionOnCCUInitialized => "on_ccu_initialized"
  | ConditionOnDeviceEvent => "on_device_event"
  | ConditionOnTime => "on_time"
  end.

(** [Condition.get] *)
Definition get (type_name : value) : option cls :=
  match type_name with
  | VStr s => find (fun c => String.eqb (class_type_name c) s) subclasses
  | _ => None
  end.

(** A condition object.  [attrs] is the instance dictionary as far as
    [setattr] and [add_condition] fill it; the four attributes
    [ConditionOnDeviceEvent.__init__] creates are fields of their own and
    stay [None] in the other classes. *)
Record t := mk {
  class_of : cls;
  _manager : manager_attr;
  attrs : list (string * value);
  device : option Device;
  channel : option Channel;
  param : option ParameterObj;
  event_type : value;
}.

(** [cls(manager)] *)
Definition init (c : cls) (manager : manager_attr) : t :=
  {| class_of := c; _manager := manager; attrs := [];
     device := None; channel := None; param := None; event_type := VNone |}.

Definition set_attrs (self : t) (a : list (string * value)) : t :=
  {| class_of := class_of self; _manager := _manager self; attrs := a;
     device := device self; channel := channel self; param := param self;
     event_type := event_type self |}.

Definition set_manager (self : t) (m : manager_attr) : t :=
  {| class_of := class_of self; _manager := m; attrs := attrs self;
     device := device self; channel := channel self; param := param self;
     event_type := event_type self |}.

Definition set_device (self : t) (d : option Device) : t :=
  {| class_of := class_of self; _manager := _manager self; attrs := attrs self;
     device := d; channel := channel self; param := param self;
     event_type := event_type self |}.

Definition set_channel (self : t) (c : option Channel) : t :=
  {| class_of := class_of self; _manager := _manager self; attrs := attrs self;
     device := device self; channel := c; param := param self;
     event_type := event_type self |}.

Definition set_param (self : t) (p : option ParameterObj) : t :=
  {| class_of := class_of self; _manager := _manager self; attrs := attrs self;
     device := device self; channel := channel self; param := p;
     event_type := event_type self |}.

Definition set_event_type (self : t) (e : value) : t :=
  {| class_of := class_of self; _manager := _manager self; attrs := attrs self;
     device := device self; channel := channel self; param := param self;
     event_type := e |}.

(** [setattr(self, key, val)] as the base class's [from_config] calls it.
    (Names of special attributes such as [__dict__] and [__class__] are not
    modelled apart; the theorems that depend on it exclude them.) *)
Definition setattr (self : t) (key : string) (val : value) : t :=
  if String.eqb key "_manager" then set_manager self (ManagerVal val)
  else set_attrs self (dict_set (attrs self) key val).

(** [Condition.from_config], inherited by the three classes without
    parameters *)
Definition base_from_config (self : t) (cfg : value) : result t :=
  let* items := py_items cfg in
  Ok (fold_left (fun s kv => setattr s (fst kv) (snd kv)) items self).

(** [self._manager.ccu.devices] *)
Definition devices_of (self : t) (ccu : option Catalog) : result Catalog :=
  match _manager self with
  | ManagerVal _ => Raise AttributeError
  | ManagerObj =>
      match ccu with
      | Some devices => Ok devices
      | None => Raise AttributeError
      end
  end.

(** [ConditionOnDeviceEvent.from_config] *)
Definition device_event_from_config (ccu : option Catalog) (self : t)
    (cfg : value) : result t :=
  let* devices := devices_of self ccu in
  let* a := py_getitem cfg "device_address" in
  let self := set_device self (query_get devices a) in
  match device self with
  | None => Ok self
  | Some d =>
      match (let* ca := py_getitem cfg "channel_address" in
             channel_by_address d ca) with
      | Raise KeyError => Ok self
      | Raise e => Raise e
      | Ok c =>
          let self := set_channel self (Some c) in
          let* id := py_getitem cfg "param_id" in
          let self := set_param self (values_get c id) in
          match param self with
          | None => Ok self
          | Some _ =>
              let* e := py_getitem cfg "event_type" in
              Ok (set_event_type self e)
          end
      end
  end.

(** [condition.from_config(cfg)], by the class of the object *)
Definition from_config (ccu : option Catalog) (self : t) (cfg : value)
    : result t :=
  match class_of self with
  | ConditionOnDeviceEvent => device_event_from_config ccu self cfg
  | _ => base_from_config self cfg
  end.

(** [self.type_name]: the instance attribute when there is one, the class
    attribute otherwise *)
Definition type_name (self : t) : value :=
  match dict_get (attrs self) "type_name" with
  | Some v => v
  | None => VStr (class_type_name (class_of self))
  end.

(** [Condition.to_config] *)
Definition base_to_config (self : t) : list (string * value) :=
  [("type_name", type_name self)].

(** [ConditionOnDeviceEvent.to_config]; [None.address] is an
    [AttributeError] *)
Definition device_event_to_config (self : t) : result value :=
  let cfg := base_to_config self in
  match device self with
  | None => Raise AttributeError
  | Some d =>
      match channel self with
      | None => Raise AttributeError
      | Some c =>
          match param self with
          | None => Raise AttributeError
          | Some p =>
              Ok (VDict
                (dict_set
                  (dict_set
                    (dict_set
                      (dict_set cfg "device_address" (VStr (device_address d)))
                      "channel_address" (VStr (channel_address c)))
                    "param_id" (VStr (param_id p)))
                  "event_type" (event_type self)))
          end
      end
  end.

(** [condition.to_config()]; an instance attribute of that name hides the
    method, and calling a JSON value is a [TypeError] *)
Definition to_config (self : t) : result value :=
  match dict_get (attrs self) "to_config" with
  | Some _ => Raise TypeError
  | None =>
      match class_of self with
      | ConditionOnDeviceEvent => device_event_to_config self
      | _ => Ok (VDict (base_to_config self))
      end
  end.

(** [isinstance(condition, cls)]; the four classes derive from [Condition]
    directly *)
Definition isinstance (self : t) (c : cls) : bool := cls_eqb (class_of self) c.

End Condition.

(** ** Schedule *)

Module Schedule.

(** What the attribute [_runner] holds: a [ScriptRunner] object, given by its
    place in the process's table of runners, or a plain value ([None] after
    [__init__]). *)
Inductive runner_attr : Type :=
  | RunnerObj (r : nat)
  | RunnerVal (v : value).

(** A schedule object: the attributes [__init__] creates, and in [attrs] any
    further instance attribute. *)
Record t := mk {
  _manager : manager_attr;
  id : value;
  name : value;
  keep_running : value;
  script : value;
  conditions : list Condition.t;
  last_triggered : value;
  _runner : runner_attr;
  attrs : list (string * value);
}.

(** [Schedule.__init__] *)
Definition init (manager : manager_attr) : t :=
  {| _manager := manager; id := VNone; name := VStr "";
     keep_running := VBool false; script := VStr ""; conditions := [];
     last_triggered := VNone; _runner := RunnerVal VNone; attrs := [] |}.

Definition set_manager (self : t) (m : manager_attr) : t :=
  mk m (id self) (name self) (keep_running self) (script self)
     (conditions self) (last_triggered self) (_runner self) (attrs self).

Definition set_id (self : t) (v : value) : t :=
  mk (_manager self) v (name self) (keep_running self) (script self)
     (conditions self) (last_triggered self) (_runner self) (attrs self).

Definition set_name (self : t) (v : value) : t :=
  mk (_manager self) (id self) v (keep_running self) (script self)
     (conditions self) (last_triggered self) (_runner self) (attrs self).

Definition set_keep_running (self : t) (v : value) : t :=
  mk (_manager self) (id self) (name self) v (script self)
     (conditions self) (last_triggered self) (_runner self) (attrs self).

Definition set_script (self : t) (v : value) : t :=
  mk (_manager self) (id self) (name self) (keep_running self) v
     (conditions self) (last_triggered self) (_runner self) (attrs self).

Definition set_conditions (self : t) (cs : list Condition.t) : t :=
  mk (_manager self) (id self) (name self) (keep_running self) (script self)
     cs (last_triggered self) (_runner self) (attrs self).

Definition set_last_triggered (self : t) (v : value) : t :=
  mk (_manager self) (id self) (name self) (keep_running self) (script self)
     (conditions self) v (_runner self) (attrs self).

Definition set_runner (self : t) (r : runner_attr) : t :=
  mk (_manager self) (id self) (name self) (keep_running self) (script self)
     (conditions self) (last_triggered self) r (attrs self).

Definition set_attrs (self : t) (a : list (string * value)) : t :=
  mk (_manager self) (id self) (name self) (keep_running self) (script self)
     (conditions self) (last_triggered self) (_runner self) a.

(** [setattr(self, key, val)] for the keys [from_config] passes, that is
    every key but [conditions].  [is_running] is a property without a
    setter.  (Names of special attributes such as [__dict__] are not modelled
    apart; the theorems that depend on it exclude them.) *)
Definition setattr (self : t) (key : string) (val : value) : result t :=
  if String.eqb key "is_running" then Raise AttributeError
  else if String.eqb key "_manager" then Ok (set_manager self (ManagerVal val))
  else if String.eqb key "id" then Ok (set_id self val)
  else if String.eqb key "name" then Ok (set_name self val)
  else if String.eqb key "keep_running" then Ok (set_keep_running self val)
  else if String.eqb key "script" then Ok (set_script self val)
  else if String.eqb key "last_triggered" then Ok (set_last_triggered self val)
  else if String.eqb key "_runner" then Ok (set_runner self (RunnerVal val))
  else Ok (set_attrs self (dict_set (attrs self) key val)).

(** Looking up a method on the object: an instance attribute of the same
    name hides it, and calling a JSON value is a [TypeError]. *)
Definition method (self : t) (m : string) : result unit :=
  match dict_get (attrs self) m with
  | Some _ => Raise TypeError
  | None => Ok tt
  end.

(** the property [Schedule.is_running]:
    [self._runner and self._runner.is_alive()] *)
Definition is_running (runners : list ScriptRunner.t) (self : t)
    : result bool :=
  match _runner self with
  | RunnerVal v => if truthy v then Raise AttributeError else Ok false
  | RunnerObj r =>
      match runners !! r with
      | Some runner => Ok (ScriptRunner.is_alive runner)
      | None => Ok false
      end
  end.

(** [schedule.add_runner(runner)] *)
Definition add_runner (self : t) (r : nat) : result t :=
  let* _ := method self "add_runner" in
  Ok (set_runner self (RunnerObj r)).

(** [self.add_condition(condition)] *)
Definition add_condition (self : t) (condition : Condition.t) : result t :=
  let* _ := method self "add_condition" in
  let num := Z.of_nat (length (conditions self)) in
  let condition := Condition.setattr condition "id" (VInt num) in
  Ok (set_conditions self (conditions self ++ [condition])).

(** [schedule.clear_conditions()] *)
Definition clear_conditions (self : t) : result t :=
  let* _ := method self "clear_conditions" in
  Ok (set_conditions self []).

(** the loop over [val] in the [conditions] branch of [from_config] *)
Fixpoint load_conditions (ccu : option Catalog) (self : t)
    (cfgs : list value) : result t :=
  match cfgs with
  | [] => Ok self
  | condition_cfg :: rest =>
      let* type_name := py_getitem condition_cfg "type_name" in
      match Condition.get type_name with
      | None => Raise (PMUserError type_name)
      | Some cls =>
          let condition := Condition.init cls (_manager self) in
          let* condition := Condition.from_config ccu condition condition_cfg in
          let* self := add_condition self condition in
          load_conditions ccu self rest
      end
  end.

(** the loop over [cfg.items()] in [from_config] *)
Fixpoint from_config_items (ccu : option Catalog) (self : t)
    (items : list (string * value)) : result t :=
  match items with
  | [] => Ok self
  | (key, val) :: rest =>
      let* self :=
        (if negb (String.eqb key "conditions") then setattr self key val
         else (let* cfgs := py_iter val in load_conditions ccu self cfgs)) in
      from_config_items ccu self rest
  end.

(** [Schedule.from_config]; [ccu] is [manager.ccu] *)
Definition from_config (ccu : option Catalog) (self : t) (cfg : value)
    : result t :=
  let* items := py_items cfg in
  from_config_items ccu self items.

(** [[ c.to_config() for c in self.conditions ]] *)
Fixpoint conditions_to_config (cs : list Condition.t) : result (list value) :=
  match cs with
  | [] => Ok []
  | c :: cs' =>
      let* x := Condition.to_config c in
      let* xs := conditions_to_config cs' in
      Ok (x :: xs)
  end.

(** [schedule.to_config()] *)
Definition to_config (self : t) : result value :=
  let* _ := method self "to_config" in
  let* cs := conditions_to_config (conditions self) in
  Ok (VDict [("name", name self);
             ("keep_running", keep_running self);
             ("script", script self);
             ("conditions", VList cs)]).

End Schedule.

(** ** Scheduler *)

Module Scheduler.

Record t := mk {
  _schedules : list Schedule.t;
  _on_startup_executed : bool;
  _on_ccu_init_executed : bool;
}.

(** Lines written through [self.logger]. *)
Inductive log_entry : Type :=
  | InfoAlreadyRunning (name : value)
  | ErrorInScheduler (e : exn).

(** What the scheduler shares with the rest of the process: the
    [ScriptRunner] threads created so far, and the log. *)
Record process := mkProcess {
  runners : list ScriptRunner.t;
  logged : list log_entry;
}.

Definition log (p : process) (e : log_entry) : process :=
  {| runners := runners p; logged := logged p ++ [e] |}.

(** the fields of [Scheduler.__init__], before [self.load()] *)
Definition init : t :=
  {| _schedules := []; _on_startup_executed := false;
     _on_ccu_init_executed := false |}.

Definition set_schedules (self : t) (l : list Schedule.t) : t :=
  {| _schedules := l; _on_startup_executed := _on_startup_executed self;
     _on_ccu_init_executed := _on_ccu_init_executed self |}.



(** the test [_schedules_with_condition_type] makes on one schedule *)
Definition matched (cls : Condition.cls) (schedule : Schedule.t) : bool :=
  existsb (fun condition => Condition.isinstance condition cls)
          (Schedule.conditions schedule).

(** [Scheduler._schedules_with_condition_type] *)
Definition _schedules_with_condition_type (self : t) (cls : Condition.cls)
    : list Schedule.t :=
  filter (fun s => matched cls s = true) (_schedules self).

(** [Scheduler.execute], called at time [now].  The schedule is changed in
    place, so the changed object is returned along with the process. *)
Definition execute (now : timestamp) (p : process) (schedule : Schedule.t)
    : result (process * Schedule.t) :=
  let* running := Schedule.is_running (runners p) schedule in
  if running then
    Ok (log p (InfoAlreadyRunning (Schedule.name schedule)), schedule)
  else
    let runner := ScriptRunner.init (Schedule.script schedule) now in
    let* schedule := Schedule.add_runner schedule (length (runners p)) in
    Ok ({| runners := runners p ++ [ScriptRunner.start runner];
           logged := logged p |}, schedule).

(** [Scheduler.exists] *)
Definition exists_ (self : t) (schedule_id : Z) : bool :=
  match py_index (_schedules self) schedule_id with
  | Some _ => true
  | None => false
  end.

(** [Scheduler.get] *)
Definition get (self : t) (schedule_id : Z) : result Schedule.t :=
  match py_index (_schedules self) schedule_id with
  | Some i =>
      match _schedules self !! i with
      | Some s => Ok s
      | None => Raise IndexError
      end
  | None => Raise IndexError
  end.

(** the integer a value stands for when used as a list index *)
Definition as_index (v : value) : result Z :=
  match v with
  | VInt z => Ok z
  | VBool b => Ok (if b then 1 else 0)
  | _ => Raise TypeError
  end.

(** [Scheduler.add]; returns the scheduler and the schedule, whose [id] it
    may have set *)
Definition add (self : t) (schedule : Schedule.t) : result (t * Schedule.t) :=
  match Schedule.id schedule with
  | VNone =>
      let num := Z.of_nat (length (_schedules self)) in
      let schedule := Schedule.set_id schedule (VInt num) in
      Ok (set_schedules self (_schedules self ++ [schedule]), schedule)
  | v =>
      let* z := as_index v in
      match py_index (_schedules self) z with
      | Some i => Ok (set_schedules self (<[i := schedule]> (_schedules self)),
                      schedule)
      | None => Raise IndexError
      end
  end.

(** [Scheduler.remove] *)
Definition remove (self : t) (schedule_id : Z) : t :=
  match py_index (_schedules self) schedule_id with
  | Some i => set_schedules self (delete i (_schedules self))
  | None => self
  end.

(** What [open(...)] and [json.load] give [Scheduler.load]. *)
Inductive store_read : Type :=
  | ReadOk (v : value)
  | ReadIOError (errno : Z)
  | ReadInvalid.

(** the inner [try] of [load] *)
Definition read_store (rd : store_read) : result value :=
  match rd with
  | ReadOk v => Ok v
  | ReadIOError errno => if errno =? 2 then Ok (VList []) else Raise (IOError errno)
  | ReadInvalid => Raise ValueError
  end.

(** the loop of [load] over the records of the store *)
Fixpoint load_schedules (ccu : option Catalog) (self : t) (cfgs : list value)
    : result t :=
  match cfgs with
  | [] => Ok self
  | schedule_cfg :: rest =>
      let schedule := Schedule.init ManagerObj in
      let* schedule := Schedule.from_config ccu schedule schedule_cfg in
      let* r := add self schedule in
      load_schedules ccu (fst r) rest
  end.

(** [Scheduler.load]: any exception is logged and answered with
    [sys.exit(1)] *)
Definition load (ccu : option Catalog) (self : t) (rd : store_read)
    : outcome t :=
  match (let* schedule_config := read_store rd in
         let* cfgs := py_iter schedule_config in
         load_schedules ccu self cfgs) with
  | Ok self' => Done self'
  | Raise e => Exit 1
  end.

(** [[ schedule.to_config() for schedule in self._schedules ]], as the loop
    of [save] builds it *)
Fixpoint schedules_to_config (l : list Schedule.t) : result (list value) :=
  match l with
  | [] => Ok []
  | s :: l' =>
      let* x := Schedule.to_config s in
      let* xs := schedules_to_config l' in
      Ok (x :: xs)
  end.

(** [Scheduler.save]; the result is the JSON document written to the store *)
Definition save (self : t) : result value :=
  let* schedule_config := schedules_to_config (_schedules self) in
  Ok (VList schedule_config).

(** One call of [execute] made by [run]: the class looked for and the
    position of the schedule in [_schedules]. *)
Record call := mkCall { call_cls : Condition.cls; call_pos : nat }.



(** State of the scheduler thread, with the calls of [execute] made so far. *)
Record state := mkState {
  st_scheduler : t;
  st_process : process;
  st_calls : list call;
}.






Definition end_runner (now : timestamp) (rs : list ScriptRunner.t)
    (x : nat * option Z) : list ScriptRunner.t :=
  match rs !! fst x with
  | Some r => <[fst x := ScriptRunner.terminated r (snd x) now]> rs
  | None => rs
  end.



End Scheduler.

(** ** Manager and the event log page *)

Module Manager.

(** The dictionary [_on_value_updated] hands to [Events.add_event]
    (the key [value] is the field [raw_value]). *)
Record event := mkEvent {
  time : timestamp;
  time_changed : timestamp;
  param : ParameterObj;
  raw_value : value;
  formated_value : string;
}.

(** The parameter object the CCU reports as updated, with what
    [_on_value_updated] reads from it. *)
Record updated := mkUpdated {
  updated_param : ParameterObj;
  last_updated : timestamp;
  last_changed : timestamp;
  current_value : value;
  as_text : string;            (* ["%s" % updated_param] *)
}.

Record t := mk {
  ccu : option Catalog;
  _events_initialized : bool;
  events : Events.t event;
  scheduler : Scheduler.t;
  process : Scheduler.process;
}.

(** [Manager._on_value_updated] *)
Definition _on_value_updated (self : t) (u : updated) : t :=
  {| ccu := ccu self;
     _events_initialized := _events_initialized self;
     events :=
       Events.add_event (events self)
         {| time := last_updated u;
            time_changed := last_changed u;
            param := updated_param u;
            raw_value := current_value u;
            formated_value := as_text u |};
     scheduler := scheduler self;
     process := process self |}.

(** The event type [PageEventLog.process] shows for a logged event. *)
Definition event_ty (e : event) : string :=
  if time e =? time_changed e then "changed" else "updated".

End Manager.

(** * Vocabulary of the properties, and examples *)

(** The position a Python index denotes: [i] itself, or counted from the end
    when [i] is negative. *)
Definition position {A} (l : list A) (i : Z) : nat :=
  Z.to_nat (if i <? 0 then Z.of_nat (length l) + i else i).


(** Positions, counted from [i], of the schedules that
    [_schedules_with_condition_type] yields. *)
Fixpoint matched_positions (cls : Condition.cls) (i : nat)
    (l : list Schedule.t) : list nat :=
  match l with
  | [] => []
  | s :: rest =>
      if Scheduler.matched cls s then i :: matched_positions cls (S i) rest
      else matched_positions cls (S i) rest
  end.



(** A store with two schedules to run on startup and one to run when the
    CCU is connected; three turns of the loop, the connection coming up in
    the second. *)
Definition example_store : value :=
  VList
    [VDict [("name", VStr "a"); ("keep_running", VBool false);
            ("script", VStr "a.py");
            ("conditions", VList [VDict [("type_name", VStr "on_startup")]])];
     VDict [("name", VStr "b"); ("keep_running", VBool false);
            ("script", VStr "b.py");
            ("conditions",
             VList [VDict [("type_name", VStr "on_ccu_initialized")]])];
     VDict [("name", VStr "c"); ("keep_running", VBool false);
            ("script", VStr "c.py");
            ("conditions", VList [VDict [("type_name", VStr "on_startup")]])]].



Definition store_with_unknown_type : value :=
  VList
    [VDict [("name", VStr "a"); ("keep_running", VBool false);
            ("script", VStr "a.py");
            ("conditions", VList [VDict [("type_name", VStr "on_startup")]])];
     VDict [("name", VStr "b"); ("keep_running", VBool false);
            ("script", VStr "b.py");
            ("conditions",
             VList [VDict [("type_name", VStr "on_startup")];
                    VDict [("type_name", VStr "on_full_moon")]])]].

(** A store naming a device the catalog does not have: the load goes
    through, the save of what was loaded does not. *)
Definition store_with_stale_device : value :=
  VList
    [VDict [("name", VStr "a"); ("keep_running", VBool false);
            ("script", VStr "a.py");
            ("conditions",
             VList [VDict [("type_name", VStr "on_device_event");
                           ("device_address", VStr "KEQ0970393");
                           ("channel_address", VStr "KEQ0970393:1");
                           ("param_id", VStr "STATE");
                           ("event_type", VStr "changed")]])]].

(** The triple (device address, channel address, parameter id) as the
    catalog resolves it. *)
Definition resolve (devices : Catalog) (a ca id : value)
    : option (Device * Channel * ParameterObj) :=
  match query_get devices a with
  | None => None
  | Some d =>
      match channel_by_address d ca with
      | Ok c =>
          match values_get c id with
          | Some p => Some (d, c, p)
          | None => None
          end
      | Raise _ => None
      end
  end.






(** The stale record of [store_with_stale_device], against a catalog that
    has another device only. *)
Definition other_catalog : Catalog :=
  [mkDevice "LEQ1234567" "Window"
     [mkChannel "LEQ1234567:1" "Contact"
        [("STATE", mkParameterObj "STATE" "State" "LEQ1234567:1")]]].

Definition stale_condition_cfg : value :=
  VDict [("type_name", VStr "on_device_event");
         ("device_address", VStr "KEQ0970393");
         ("channel_address", VStr "KEQ0970393:1");
         ("param_id", VStr "STATE");
         ("event_type", VStr "changed")].

(** What an instance attribute of a schedule holds. *)
Inductive attr_value : Type :=
  | AVal (v : value)
  | ARunner (r : nat)
  | AManager
  | AConditions (cs : list Condition.t).

(** The instance attribute [a] of a schedule object, [None] when the object
    has no such attribute. *)
Definition instance_attr (self : Schedule.t) (a : string) : option attr_value :=
  if String.eqb a "_manager" then
    Some (match Schedule._manager self with
          | ManagerObj => AManager
          | ManagerVal v => AVal v
          end)
  else if String.eqb a "id" then Some (AVal (Schedule.id self))
  else if String.eqb a "name" then Some (AVal (Schedule.name self))
  else if String.eqb a "keep_running" then Some (AVal (Schedule.keep_running self))
  else if String.eqb a "script" then Some (AVal (Schedule.script self))
  else if String.eqb a "conditions" then
    Some (AConditions (Schedule.conditions self))
  else if String.eqb a "last_triggered" then
    Some (AVal (Schedule.last_triggered self))
  else if String.eqb a "_runner" then
    Some (match Schedule._runner self with
          | Schedule.RunnerObj r => ARunner r
          | Schedule.RunnerVal v => AVal v
          end)
  else option_map AVal (dict_get (Schedule.attrs self) a).



(** The condition holds a device, channel and parameter, and the catalog
    resolves their address, address and id to these very objects. *)
Definition resolved (devices : Catalog) (c : Condition.t) : Prop :=
  exists d ch p,
    Condition.device c = Some d /\ Condition.channel c = Some ch
    /\ Condition.param c = Some p
    /\ resolve devices (VStr (device_address d)) (VStr (channel_address ch))
                       (VStr (param_id p)) = Some (d, ch, p).

(** A condition as the constructors, [set_submitted_vars] and [from_config]
    leave it when its references resolve: no instance attribute hides
    [to_config] or changes [type_name], and the device, channel and parameter
    of an on-device-event condition are those of the catalog. *)
Definition saveable (devices : Catalog) (c : Condition.t) : Prop :=
  dict_get (Condition.attrs c) "to_config" = None
  /\ Condition.type_name c
     = VStr (Condition.class_type_name (Condition.class_of c))
  /\ match Condition.class_of c with
     | Condition.ConditionOnDeviceEvent => resolved devices c
     | _ =>
         Condition.device c = None /\ Condition.channel c = None
         /\ Condition.param c = None /\ Condition.event_type c = VNone
     end.

(** Same discriminant and same variant-specific fields. *)
Definition cond_equiv (c c' : Condition.t) : Prop :=
  Condition.class_of c = Condition.class_of c'
  /\ Condition.type_name c = Condition.type_name c'
  /\ Condition.device c = Condition.device c'
  /\ Condition.channel c = Condition.channel c'
  /\ Condition.param c = Condition.param c'
  /\ Condition.event_type c = Condition.event_type c'.

(** A schedule with a startup condition and a condition on the parameter
    [STATE] of the one device of [other_catalog]. *)
Definition state_param : ParameterObj :=
  mkParameterObj "STATE" "State" "LEQ1234567:1".

Definition contact_channel : Channel :=
  mkChannel "LEQ1234567:1" "Contact" [("STATE", state_param)].

Definition window_device : Device :=
  mkDevice "LEQ1234567" "Window" [contact_channel].

Definition window_condition : Condition.t :=
  Condition.mk Condition.ConditionOnDeviceEvent ManagerObj
    [("id", VInt 1)] (Some window_device) (Some contact_channel)
    (Some state_param) (VStr "changed").

Definition window_schedule : Schedule.t :=
  Schedule.mk ManagerObj (VInt 0) (VStr "window") (VBool true)
    (VStr "window.py")
    [Condition.setattr (Condition.init Condition.ConditionOnStartup ManagerObj)
                       "id" (VInt 0);
     window_condition]
    VNone (Schedule.RunnerVal VNone) [].

(** ** Further vocabulary: positional ids, saving a schedule *)

(** The [id] attribute of every condition is its position in the list. *)
Definition ids_positional (cs : list Condition.t) : Prop :=
  forall i c,
    cs !! i = Some c ->
    dict_get (Condition.attrs c) "id" = Some (VInt (Z.of_nat i)).

(** Successive calls of [schedule.add_condition], as the loops of
    [from_config] and of the edit page make them. *)
Fixpoint add_conditions (self : Schedule.t) (cs : list Condition.t)
    : result Schedule.t :=
  match cs with
  | [] => Ok self
  | c :: cs' =>
      let* self := Schedule.add_condition self c in
      add_conditions self cs'
  end.

(** The [id] attribute of every schedule is its position in the
    collection. *)
Definition ids_match_positions (l : list Schedule.t) : Prop :=
  forall i s, l !! i = Some s -> Schedule.id s = VInt (Z.of_nat i).

(** [Schedule.save]: [self._manager.scheduler.add(self)], then
    [self._manager.scheduler.save()].  The inner result is what the second
    call returns or raises, the scheduler being by then as [add] left it. *)
Definition Schedule_save (scheduler : Scheduler.t) (self : Schedule.t)
    : result (Scheduler.t * Schedule.t * result value) :=
  let* _ := Schedule.method self "save" in
  match Schedule._manager self with
  | ManagerVal _ => Raise AttributeError
  | ManagerObj =>
      let* r := Scheduler.add scheduler self in
      Ok (fst r, snd r, Scheduler.save (fst r))
  end.

(** Same name, keep-running flag and script, and equivalent conditions. *)
Definition sched_equiv (s s' : Schedule.t) : Prop :=
  Schedule.name s = Schedule.name s'
  /\ Schedule.keep_running s = Schedule.keep_running s'
  /\ Schedule.script s = Schedule.script s'
  /\ Forall2 cond_equiv (Schedule.conditions s) (Schedule.conditions s').

(** A schedule [Scheduler.save] can write: [to_config] is callable on it
    and its conditions are saveable. *)
Definition writable (devices : Catalog) (s : Schedule.t) : Prop :=
  dict_get (Schedule.attrs s) "to_config" = None
  /\ Forall (saveable devices) (Schedule.conditions s).


(** ** Conditions on the edit page *)

(** What [page._vars.getvalue] returns for each name: [None] or the text
    submitted (each name being submitted at most once).  The texts are taken
    to be ASCII, where the unicode and the byte strings of Python 2 compare
    and hash alike. *)
Definition form_vars := string -> option string.

(** A submitted text counts as given when it is not empty ([if x:]). *)
Definition given (x : option string) : option string :=
  match x with
  | Some s => if String.eqb s "" then None else Some s
  | None => None
  end.

(** [ConditionOnDeviceEvent._event_types] *)
Definition _event_types : list (string * string) :=
  [("updated", "Value updated"); ("changed", "Value changed")].

(** [ConditionOnDeviceEvent.set_submitted_vars].  The caller catches
    [PMUserError] and goes on with the condition, so the condition is
    returned as the call left it together with the exception, if any. *)
Definition device_event_set_submitted_vars (ccu : option Catalog)
    (self : Condition.t) (vars : form_vars) (varprefix : string)
    : Condition.t * option exn :=
  match given (vars (varprefix ++ "device_address")%string) with
  | None => (self, None)
  | Some device_address =>
      match Condition.devices_of self ccu with
      | Raise e => (self, Some e)
      | Ok devices =>
          let self := Condition.set_device self
                        (query_get devices (VStr device_address)) in
          match Condition.device self with
          | None =>
              (self, Some (PMUserError (VStr "Unable to find the given device.")))
          | Some d =>
              match given (vars (varprefix ++ "channel_address")%string) with
              | None => (self, None)
              | Some channel_address =>
                  match channel_by_address d (VStr channel_address) with
                  | Raise KeyError =>
                      (self, Some (PMUserError
                                     (VStr "Unable to find the given channel.")))
                  | Raise e => (self, Some e)
                  | Ok c =>
                      let self := Condition.set_channel self (Some c) in
                      match given (vars (varprefix ++ "param_id")%string) with
                      | None => (self, None)
                      | Some param_id =>
                          let self := Condition.set_param self
                                        (values_get c (VStr param_id)) in
                          match Condition.param self with
                          | None =>
                              (self, Some (PMUserError
                                 (VStr "Unable to find the given channel.")))
                          | Some _ =>
                              match given (vars (varprefix ++ "event_type")%string) with
                              | None => (self, None)
                              | Some event_type =>
                                  match dict_get _event_types event_type with
                                  | None =>
                                      (self, Some (PMUserError
                                         (VStr "Invalid event type given.")))
                                  | Some _ =>
                                      (Condition.set_event_type self
                                         (VStr event_type), None)
                                  end
                              end
                          end
                      end
                  end
              end
          end
      end
  end.

(** [condition.set_submitted_vars(page, varprefix)], by the class of the
    object; the base class does nothing *)
Definition set_submitted_vars (ccu : option Catalog) (self : Condition.t)
    (vars : form_vars) (varprefix : string) : Condition.t * option exn :=
  match Condition.class_of self with
  | Condition.ConditionOnDeviceEvent =>
      device_event_set_submitted_vars ccu self vars varprefix
  | _ => (self, None)
  end.

(** the class attribute [type_title] *)
Definition class_type_title (c : Condition.cls) : string :=
  match c with
  | Condition.ConditionOnStartup => "on manager startup"
  | Condition.ConditionOnCCUInitialized => "on connection with CCU initialized"
  | Condition.ConditionOnDeviceEvent => "on device event"
  | Condition.ConditionOnTime => "based on time"
  end.

(** [Condition.display]: [self.type_title], the instance attribute when
    there is one *)
Definition base_display (self : Condition.t) : value :=
  match dict_get (Condition.attrs self) "type_title" with
  | Some v => v
  | None => VStr (class_type_title (Condition.class_of self))
  end.

(** [dict(self._event_types)[self.event_type]] *)
Definition event_type_title (event_type : value) : result string :=
  match event_type with
  | VStr s =>
      match dict_get _event_types s with
      | Some title => Ok title
      | None => Raise KeyError
      end
  | VList _ | VDict _ => Raise TypeError
  | _ => Raise KeyError
  end.

(** [ConditionOnDeviceEvent.display]: the text after the title is built
    first, then appended with [+=] (which extends a list by the characters
    of the text) *)
Definition device_event_display (self : Condition.t) : result value :=
  let txt := base_display self in
  match Condition.device self with
  | None => Raise AttributeError
  | Some d =>
      match Condition.channel self with
      | None => Raise AttributeError
      | Some c =>
          match Condition.param self with
          | None => Raise AttributeError
          | Some p =>
              let* title := event_type_title (Condition.event_type self) in
              let rest := (": " ++ device_name d ++ ", " ++ channel_name c
                           ++ ", " ++ param_title p ++ ", " ++ title)%string in
              match txt with
              | VStr t => Ok (VStr (t ++ rest)%string)
              | VList l => Ok (VList (l ++ chars rest))
              | _ => Raise TypeError
              end
          end
      end
  end.

(** [condition.display()], as the schedule page calls it *)
Definition display (self : Condition.t) : result value :=
  match dict_get (Condition.attrs self) "display" with
  | Some _ => Raise TypeError
  | None =>
      match Condition.class_of self with
      | Condition.ConditionOnDeviceEvent => device_event_display self
      | _ => Ok (base_display self)
      end
  end.

(** The object has no instance attribute besides the [id] that
    [add_condition] gives it, as is the case for every object of a class
    whose [from_config] does not call [setattr]. *)
Definition only_id_attr (c : Condition.t) : Prop :=
  forall k, k <> "id" -> dict_get (Condition.attrs c) k = None.

(** The event type is one the edit form offers, or still unset. *)
Definition valid_event_type (v : value) : Prop :=
  v = VNone \/ v = VStr "updated" \/ v = VStr "changed".

(** Form variables that name the window contact of [other_catalog]. *)
Definition window_vars : form_vars :=
  fun name =>
    if String.eqb name "cond_1_device_address" then Some "LEQ1234567"
    else if String.eqb name "cond_1_channel_address" then Some "LEQ1234567:1"
    else if String.eqb name "cond_1_param_id" then Some "STATE"
    else if String.eqb name "cond_1_event_type" then Some "changed"
    else None.

Definition window_cfg : value :=
  VDict [("type_name", VStr "on_device_event");
         ("device_address", VStr "LEQ1234567");
         ("channel_address", VStr "LEQ1234567:1");
         ("param_id", VStr "STATE");
         ("event_type", VStr "changed")].

(** ** Html *)

(** the double quote character *)
Abbreviation dquote := (Ascii.Ascii false true false false false true false false).

Module Html.

(** [Html.html_escape_table] *)
Definition html_escape_table : list (Ascii.ascii * string) :=
  [("&"%char, "&amp;"); (dquote, "&quot;"); ("'"%char, "&apos;");
   (">"%char, "&gt;"); ("<"%char, "&lt;")].

(** [table.get(c, c)] *)
Fixpoint table_get (table : list (Ascii.ascii * string)) (c : Ascii.ascii) : string :=
  match table with
  | [] => String c EmptyString
  | (k, v) :: table' => if Ascii.eqb k c then v else table_get table' c
  end.

(** [Html.escape]: the replacements of the characters, joined *)
Fixpoint escape (text : string) : string :=
  match text with
  | EmptyString => EmptyString
  | String c text' => (table_get html_escape_table c ++ escape text')%string
  end.

(** the characters the table has an entry for *)
Definition escaped (c : Ascii.ascii) : bool :=
  existsb (fun kv => Ascii.eqb (fst kv) c) html_escape_table.

End Html.

(** [c in text] for a character *)
Fixpoint occurs (c : Ascii.ascii) (text : string) : bool :=
  match text with
  | EmptyString => false
  | String c' text' => Ascii.eqb c' c || occurs c text'
  end.

(** ** Static files and page dispatch *)

(** [pat in s] for texts *)
Fixpoint contains (pat s : string) : bool :=
  String.prefix pat s
  || match s with
     | EmptyString => false
     | String _ s' => contains pat s'
     end.

(** [s[n:]] *)
Fixpoint drop_chars (n : nat) (s : string) : string :=
  match n, s with
  | O, _ => s
  | S _, EmptyString => EmptyString
  | S n', String _ s' => drop_chars n' s'
  end.

(** [s.lstrip("/")] *)
Fixpoint lstrip_slash (s : string) : string :=
  match s with
  | String c s' => if Ascii.eqb c "/"%char then lstrip_slash s' else s
  | EmptyString => EmptyString
  end.

(** [s.endswith("/")] *)
Fixpoint ends_with_slash (s : string) : bool :=
  match s with
  | EmptyString => false
  | String c EmptyString => Ascii.eqb c "/"%char
  | String _ s' => ends_with_slash s'
  end.

(** [os.path.join(a, b)] of Python's [posixpath]: an absolute [b] replaces
    [a]; otherwise [b] is appended, after a separator unless [a] is empty or
    ends with one. *)
Definition path_join (a b : string) : string :=
  if String.prefix "/" b then b
  else if String.eqb a "" || ends_with_slash a then (a ++ b)%string
  else (a ++ "/" ++ b)%string.

(** [s.split("/")[0]] *)
Fixpoint before_slash (s : string) : string :=
  match s with
  | EmptyString => EmptyString
  | String c s' =>
      if Ascii.eqb c "/"%char then EmptyString else String c (before_slash s')
  end.

Module StaticFile.

(** [StaticFile.system_path_from_pathinfo]; [script_path] and
    [static_path] are the attributes of [Config] *)
Definition system_path_from_pathinfo (script_path static_path : string)
    (path_info : string) : string :=
  if String.prefix "/scripts/" path_info
  then path_join script_path (drop_chars 9 path_info)
  else path_join static_path (lstrip_slash path_info).

(** [StaticFile.get]: [true] when it returns the class, [false] when it
    returns [None]; [exists_] is [os.path.exists] *)
Definition get (exists_ : string -> bool) (script_path static_path : string)
    (path_info : string) : bool :=
  if contains ".." path_info then false
  else if String.prefix "/css/" path_info || String.prefix "/fonts/" path_info
          || String.prefix "/scripts/" path_info
          || String.prefix "/js/" path_info
  then exists_ (system_path_from_pathinfo script_path static_path path_info)
  else false.

End StaticFile.

Module PageHandler.

(** The page classes, [StaticFile] among them. *)
Inductive page : Type :=
  | PageMain
  | PageRun
  | PageAjaxUpdateOutput
  | PageLogin
  | PageConfiguration
  | PageEventLog
  | PageSchedule
  | PageEditSchedule
  | PageAddSchedule
  | Page404
  | StaticFile.

(** [PageHandler.pages]: the subclasses that have a [url], by that url *)
Definition pages : list (string * page) :=
  [("", PageMain); ("run", PageRun);
   ("ajax_update_output", PageAjaxUpdateOutput); ("login", PageLogin);
   ("config", PageConfiguration); ("event_log", PageEventLog);
   ("schedule", PageSchedule); ("edit_schedule", PageEditSchedule);
   ("add_schedule", PageAddSchedule); ("404", Page404)].

(** [PageHandler.base_url] *)
Definition base_url (path_info : string) : string :=
  before_slash (drop_chars 1 path_info).

(** [PageHandler.get]; [password_set] is [cls.is_password_set()] and
    [authenticated] what [cls._is_authenticated(environ)] returns *)
Definition get (password_set authenticated : bool) (exists_ : string -> bool)
    (script_path static_path : string) (path_info : string) : page :=
  match dict_get pages (base_url path_info) with
  | Some page =>
      if password_set && negb authenticated then PageLogin else page
  | None =>
      if StaticFile.get exists_ script_path static_path path_info
      then StaticFile
      else Page404
  end.

End PageHandler.

(** ** The run page and the abort of a script *)

Module PageRun.

(** The module-level [g_runner] (a reference into the runners the page has
    created, or [None]) and those runners. *)
Record state := mkState {
  g_runner : option nat;
  runners : list ScriptRunner.t;
}.

(** [PageRun._is_running]: [g_runner and g_runner.is_alive()] *)
Definition _is_running (st : state) : bool :=
  match g_runner st with
  | Some r =>
      match runners st !! r with
      | Some runner => ScriptRunner.is_alive runner
      | None => false
      end
  | None => false
  end.

(** [PageRun._execute_script], at time [now] *)
Definition _execute_script (st : state) (script : string)
    (now : timestamp) : state :=
  {| g_runner := Some (length (runners st));
     runners := runners st
                ++ [ScriptRunner.start (ScriptRunner.init (VStr script) now)] |}.

(** [script in self._get_scripts()]; the generator raises [PMUserError]
    when the script directory does not exist *)
Definition script_known (scripts : result (list string)) (script : string)
    : result bool :=
  let* l := scripts in
  Ok (existsb (String.eqb script) l).

(** [PageRun._handle_run]; [scripts] is what [_get_scripts] yields *)
Definition _handle_run (scripts : result (list string)) (vars : form_vars)
    (now : timestamp) (st : state) : result state :=
  match given (vars "script") with
  | None => Raise (PMUserError (VStr "You have to select a script."))
  | Some script =>
      let* known := script_known scripts script in
      if negb known then
        Raise (PMUserError (VStr "You have to select a valid script."))
      else if _is_running st then
        Raise (PMUserError
                 (VStr "There is another script running. Wait for it to complete or stop it to be able to execute another script."))
      else Ok (_execute_script st script now)
  end.

(** A script thread of the page ends (its [run] returns). *)
Definition thread_ends (st : state) (r : nat) (code : option Z)
    (now : timestamp) : state :=
  {| g_runner := g_runner st;
     runners := Scheduler.end_runner now (runners st) (r, code) |}.

(** No runner other than [g_runner] is alive. *)
Definition single_runner (st : state) : Prop :=
  forall r runner,
    runners st !! r = Some runner ->
    ScriptRunner.is_alive runner = true ->
    g_runner st = Some r.

End PageRun.

(** The loop of [ScriptRunner.abort] after [terminate()]: [timer] turns
    left, [k] sleeps done; [poll k] is what [self._p.poll()] returns after
    [k] sleeps.  The result is the number of sleeps at the return. *)
Fixpoint abort_wait (poll : nat -> option Z) (timer k : nat) : nat :=
  match timer with
  | O => k
  | S timer' =>
      match poll k with
      | None => abort_wait poll timer' (S k)
      | Some _ => k
      end
  end.

(** [ScriptRunner.abort]; [p] is the attribute [_p], which exists only once
    [run] has started the child process *)
Definition abort (p : option (nat -> option Z)) : result nat :=
  match p with
  | None => Raise AttributeError
  | Some poll => Ok (abort_wait poll 10 0)
  end.

(** ** RemoteAPI *)

Module RemoteAPI.

Inductive api_exn : Type :=
  | PMException (msg : string).

(** the object: session id, credentials, and the calls made through
    [self.call] so far *)
Record t := mk {
  _session_id : value;
  _credentials : string * string;
  calls : list (string * list (string * value));
}.

(** [RemoteAPI._set_address]: the address stored, or the exception *)
Definition _set_address (address : value) : string + api_exn :=
  match address with
  | VStr a =>
      if negb (String.prefix "https://" a) && negb (String.prefix "http://" a)
      then inl ("http://" ++ a)%string
      else inl a
  | _ => inr (PMException "Please specify the address of the CCU.")
  end.

Section WithCall.
(** What [self.call(method, **kwargs)] returns or raises; its network part
    is outside the model. *)
Context (call : string -> list (string * value) -> value + api_exn).

Definition record_call (self : t) (m : string) (args : list (string * value))
    : t :=
  {| _session_id := _session_id self; _credentials := _credentials self;
     calls := calls self ++ [(m, args)] |}.

Definition set_session_id (self : t) (v : value) : t :=
  {| _session_id := v; _credentials := _credentials self;
     calls := calls self |}.

(** [RemoteAPI.login]: the object as the call left it, and the exception
    if one was raised *)
Definition login (self : t) : t * option api_exn :=
  if truthy (_session_id self) then
    (self, Some (PMException "Already logged in."))
  else
    let args := [("username", VStr (fst (_credentials self)));
                 ("password", VStr (snd (_credentials self)))] in
    let self := record_call self "session_login" args in
    match call "session_login" args with
    | inr e => (self, Some e)
    | inl VNone =>
        (self, Some (PMException "Login failed: Got no session id."))
    | inl response => (set_session_id self response, None)
    end.

(** [RemoteAPI.logout] *)
Definition logout (self : t) : t * option api_exn :=
  if truthy (_session_id self) then
    let args := [("_session_id_", _session_id self)] in
    let self := record_call self "session_logout" args in
    match call "session_logout" args with
    | inr e => (self, Some e)
    | inl _ => (set_session_id self VNone, None)
    end
  else (self, None).

End WithCall.

End RemoteAPI.

(** ** Uploading a script, deleting a schedule *)

Abbreviation newline := ("010"%char).

(** [script.split(b"\n", 1)[0]] *)
Fixpoint first_line (script : string) : string :=
  match script with
  | EmptyString => EmptyString
  | String c script' =>
      if Ascii.eqb c newline then EmptyString
      else String c (first_line script')
  end.

Module PageMain.

(** [PageMain.save_script]: the path it writes to (and makes executable),
    and what it writes; [script_path] is [Config.script_path] *)
Definition save_script (script_path filename script : string)
    : string * string :=
  (path_join script_path filename, script).

Section WithDecode.
(** Whether [value.decode("utf-8")], which [FieldStorage.getvalue] applies
    to the content of a field, succeeds; its [UnicodeDecodeError] is a
    [ValueError]. *)
Context (decodes : string -> bool).

(** [PageMain._handle_upload].  [field] is the form field [script] of the
    upload: the file name the client sent and the bytes of the file, or
    [None] when the form has no such field.  The result is what
    [save_script] writes. *)
Definition _handle_upload (script_path : string)
    (field : option (string * string)) : result (string * string) :=
  match field with
  | None => Raise (PMUserError (VStr "You need to select a script to upload."))
  | Some (filename, script) =>
      if negb (decodes script) then Raise ValueError
      else if String.eqb script "" then
        Raise (PMUserError (VStr "You need to select a script to upload."))
      else
        let first_line := first_line script in
        if negb (String.prefix "#!/usr/bin/python" first_line)
           && negb (String.prefix "#!/usr/bin/env python" first_line)
        then Raise (PMUserError
                      (VStr "The uploaded file does not seem to be a pmatic script."))
        else if 1048576 <? Z.of_nat (String.length script)
        then Raise (PMUserError (VStr "The uploaded file is too large."))
        else Ok (save_script script_path filename script)
  end.

End WithDecode.

End PageMain.

Module PageSchedule.

Section WithInt.
(** What the builtin [int] returns or raises for a text. *)
Context (int : string -> result Z).

(** [PageSchedule._handle_delete]: the scheduler as the call leaves it, and
    the document [scheduler.save()] wrote or the exception raised *)
Definition _handle_delete (vars : form_vars) (scheduler : Scheduler.t)
    : Scheduler.t * result value :=
  match given (vars "schedule_id") with
  | None =>
      (scheduler,
       Raise (PMUserError (VStr "You need to provide a schedule to delete.")))
  | Some schedule_id =>
      match int schedule_id with
      | Raise e => (scheduler, Raise e)
      | Ok schedule_id =>
          if negb (Scheduler.exists_ scheduler schedule_id) then
            (scheduler,
             Raise (PMUserError (VStr "This schedule does not exist.")))
          else
            let scheduler := Scheduler.remove scheduler schedule_id in
            (scheduler, Scheduler.save scheduler)
      end
  end.

End WithInt.

End PageSchedule.

(** ** The password and the login cookie *)

(** the characters [str.strip()] removes: space, tab, line feed, carriage
    return, vertical tab, form feed *)
Definition is_space (c : Ascii.ascii) : bool :=
  existsb (Ascii.eqb c)
    [" "%char; "009"%char; "010"%char; "013"%char; "011"%char; "012"%char].

(** [s.lstrip()] *)
Fixpoint lstrip (s : string) : string :=
  match s with
  | String c s' => if is_space c then lstrip s' else s
  | EmptyString => EmptyString
  end.

(** [s.rstrip()] *)
Fixpoint rstrip (s : string) : string :=
  match s with
  | EmptyString => EmptyString
  | String c s' =>
      match rstrip s' with
      | EmptyString => if is_space c then EmptyString else String c EmptyString
      | r => String c r
      end
  end.

(** [s.strip()] *)
Definition strip (s : string) : string := rstrip (lstrip s).

(** [s.count(c)] for a character *)
Fixpoint count_char (c : Ascii.ascii) (s : string) : nat :=
  match s with
  | EmptyString => O
  | String c' s' =>
      if Ascii.eqb c' c then S (count_char c s') else count_char c s'
  end.

(** the two parts of [s.split(c, 1)] when [c] occurs in [s] *)
Fixpoint before_char (c : Ascii.ascii) (s : string) : string :=
  match s with
  | EmptyString => EmptyString
  | String c' s' =>
      if Ascii.eqb c' c then EmptyString else String c' (before_char c s')
  end.

Fixpoint after_char (c : Ascii.ascii) (s : string) : string :=
  match s with
  | EmptyString => EmptyString
  | String c' s' => if Ascii.eqb c' c then s' else after_char c s'
  end.

(** ["%d" % n] *)
Definition decimal (n : Z) : string := NilZero.string_of_int (Z.to_int n).

(** every character is one of [0123456789abcdef], as in a [hexdigest()] *)
Fixpoint all_hex (s : string) : bool :=
  match s with
  | EmptyString => true
  | String c s' => occurs c "0123456789abcdef" && all_hex s'
  end.

Module PageConfiguration.

Section WithSha256.
(** [sha256(text).hexdigest()] *)
Context (sha256 : string -> string).


End WithSha256.

End PageConfiguration.

Module PageLogin.

Section WithSha256.
Context (sha256 : string -> string).

(** [PageLogin._login]: the value of the cookie [pmatic_auth] it sets;
    [now] is [int(time.time())] *)
Definition _login (secret : string) (now : Z) : string :=
  let salt := decimal now in
  let salted_hash := sha256 (secret ++ salt)%string in
  (salt ++ ":" ++ salted_hash)%string.

(** [PageLogin.action]: the cookie value set; [secret_file] is the content
    of the file [manager.secret] *)
Definition action (secret_file : string) (now : Z) (vars : form_vars)
    : result string :=
  match given (vars "password") with
  | None => Raise (PMUserError (VStr "Invalid password."))
  | Some password =>
      let secret := strip secret_file in
      if negb (String.eqb secret (sha256 password)) then
        Raise (PMUserError (VStr "Invalid password."))
      else Ok (_login secret now)
  end.

(** [PageHandler._is_authenticated], which every page inherits; [cookie]
    is what [_get_auth_cookie_value] returns *)
Definition _is_authenticated (secret_file : string) (cookie : option string)
    : bool :=
  match given cookie with
  | None => false
  | Some value =>
      if negb (count_char ":"%char value =? 1)%nat then false
      else
        let salt := before_char ":"%char value in
        let salted_hash := after_char ":"%char value in
        let secret := strip secret_file in
        let correct_hash := sha256 (secret ++ salt)%string in
        String.eqb salted_hash correct_hash
  end.

End WithSha256.

End PageLogin.

(** ** The edit page of a schedule *)

Module PageEditSchedule.

(** [self._vars.getvalue(name)] as a Python value *)
Definition getvalue (vars : form_vars) (name : string) : value :=
  match vars name with
  | Some text => VStr text
  | None => VNone
  end.

(** [Html.is_checked] *)
Definition is_checked (vars : form_vars) (name : string) : bool :=
  match vars name with
  | Some _ => true
  | None => false
  end.

(** [self._vars.getvalue("submitted") == "1"] *)
Definition submitted (vars : form_vars) : bool :=
  match vars "submitted" with
  | Some text => String.eqb text "1"
  | None => false
  end.

(** ["cond_%d_" % condition_id] *)
Definition varprefix (condition_id : nat) : string :=
  ("cond_" ++ decimal (Z.of_nat condition_id) ++ "_")%string.

(** the loop over [range(num_conditions)] in [_set_submitted_vars]: the
    schedule as the loop leaves it, and the exception that ended it, if any *)
Fixpoint submitted_conditions (ccu : option Catalog) (vars : form_vars)
    (schedule : Schedule.t) (ids : list nat) : Schedule.t * option exn :=
  match ids with
  | [] => (schedule, None)
  | condition_id :: rest =>
      match given (vars (varprefix condition_id ++ "type")%string) with
      | None => submitted_conditions ccu vars schedule rest
      | Some condition_type =>
          match Condition.get (VStr condition_type) with
          | None =>
              (schedule,
               Some (PMUserError
                       (VStr ("Invalid condition type "
                              ++ String dquote condition_type
                              ++ String dquote " given.")%string)))
          | Some cls =>
              let condition := Condition.init cls ManagerObj in
              match set_submitted_vars ccu condition vars
                                       (varprefix condition_id) with
              | (condition, None) | (condition, Some (PMUserError _)) =>
                  match Schedule.add_condition schedule condition with
                  | Raise e => (schedule, Some e)
                  | Ok schedule =>
                      submitted_conditions ccu vars schedule rest
                  end
              | (_, Some e) => (schedule, Some e)
              end
          end
      end
  end.

Section WithInt.
(** What the builtin [int] returns or raises for a text. *)
Context (int : string -> result Z).

(** [PageEditSchedule._get_schedule].  The schedule returned is the object
    the collection holds, so it comes with its place in [_schedules]: what
    the page does to it is done to the collection. *)
Definition _get_schedule (vars : form_vars) (scheduler : Scheduler.t)
    : result (nat * Schedule.t) :=
  match vars "schedule_id" with
  | None =>
      Raise (PMUserError (VStr "You need to provide a <tt>schedule_id</tt>."))
  | Some schedule_id =>
      let* schedule_id := int schedule_id in
      if negb (Scheduler.exists_ scheduler schedule_id) then
        Raise (PMUserError
                 (VStr "The schedule you are trying to edit does not exist."))
      else
        let* schedule := Scheduler.get scheduler schedule_id in
        Ok (position (Scheduler._schedules scheduler) schedule_id, schedule)
  end.

(** [PageEditSchedule._set_submitted_vars]: the schedule as the call leaves
    it, and the exception raised, if any.  [scripts] is what [_get_scripts]
    yields. *)
Definition _set_submitted_vars (ccu : option Catalog)
    (scripts : result (list string)) (vars : form_vars)
    (schedule : Schedule.t) (submit : bool) : Schedule.t * option exn :=
  if submitted vars then
      let schedule := Schedule.set_name schedule (getvalue vars "name") in
      if submit && negb (truthy (Schedule.name schedule)) then
        (schedule, Some (PMUserError (VStr "You have to provide a name.")))
      else
        let schedule :=
          Schedule.set_keep_running schedule
            (VBool (is_checked vars "keep_running")) in
        let script := getvalue vars "script" in
        match (match given (vars "script") with
               | Some s =>
                   let* known := PageRun.script_known scripts s in
                   Ok (negb known)
               | None => Ok false
               end) with
        | Raise e => (schedule, Some e)
        | Ok true =>
            (schedule,
             Some (PMUserError (VStr "The given script does not exist.")))
        | Ok false =>
            if submit && negb (truthy script) then
              (schedule,
               Some (PMUserError (VStr "You have to select a script.")))
            else
              let schedule := Schedule.set_script schedule script in
              match (match vars "num_conditions" with
                     | Some text => int text
                     | None => Raise TypeError
                     end) with
              | Raise e => (schedule, Some e)
              | Ok num_conditions =>
                  match Schedule.clear_conditions schedule with
                  | Raise e => (schedule, Some e)
                  | Ok schedule =>
                      submitted_conditions ccu vars schedule
                        (seq 0 (Z.to_nat num_conditions))
                  end
              end
        end
  else (schedule, None).

(** The schedule the page worked on, back at its place. *)
Definition put_back (scheduler : Scheduler.t) (place : nat)
    (schedule : Schedule.t) : Scheduler.t :=
  Scheduler.set_schedules scheduler
    (<[place := schedule]> (Scheduler._schedules scheduler)).

(** [PageEditSchedule.action]: the scheduler as the call leaves it, and the
    document [scheduler.save()] wrote or the exception raised *)
Definition action (ccu : option Catalog) (scripts : result (list string))
    (vars : form_vars) (scheduler : Scheduler.t)
    : Scheduler.t * result value :=
  match _get_schedule vars scheduler with
  | Raise e => (scheduler, Raise e)
  | Ok (place, schedule) =>
      match _set_submitted_vars ccu scripts vars schedule true with
      | (schedule, Some e) => (put_back scheduler place schedule, Raise e)
      | (schedule, None) =>
          let scheduler := put_back scheduler place schedule in
          match Schedule_save scheduler schedule with
          | Raise e => (scheduler, Raise e)
          | Ok (scheduler, _, saved) => (scheduler, saved)
          end
      end
  end.

(** [PageEditSchedule.process] as far as it changes the scheduler, that is
    up to [self._set_submitted_vars(schedule, submit=False)]; the rest
    writes the form. *)
Definition process (ccu : option Catalog) (scripts : result (list string))
    (vars : form_vars) (scheduler : Scheduler.t)
    : Scheduler.t * option exn :=
  match _get_schedule vars scheduler with
  | Raise e => (scheduler, Some e)
  | Ok (place, schedule) =>
      match _set_submitted_vars ccu scripts vars schedule false with
      | (schedule, e) => (put_back scheduler place schedule, e)
      end
  end.

End WithInt.

End PageEditSchedule.

(** The classes selected in the condition rows [ids] of the edit form, in
    the order of the rows; a row without a type gives none. *)
Definition selected_classes (vars : form_vars) (ids : list nat)
    : list Condition.cls :=
  omap (fun condition_id =>
          match given (vars (PageEditSchedule.varprefix condition_id
                             ++ "type")%string) with
          | Some condition_type => Condition.get (VStr condition_type)
          | None => None
          end)
       ids.

(** A submitted edit form for schedule 0, with two condition rows of which
    the second has a type, and an [int] that reads the numbers it holds. *)
Definition edit_vars : form_vars :=
  fun name =>
    if String.eqb name "schedule_id" then Some "0"
    else if String.eqb name "submitted" then Some "1"
    else if String.eqb name "name" then Some "night"
    else if String.eqb name "script" then Some "night.py"
    else if String.eqb name "num_conditions" then Some "2"
    else if String.eqb name "cond_1_type" then Some "on_startup"
    else None.

Definition edit_int (text : string) : result Z :=
  if String.eqb text "0" then Ok 0
  else if String.eqb text "2" then Ok 2
  else Raise ValueError.

(** The same form with the name left out. *)
Definition edit_vars_without_name : form_vars :=
  fun name => if String.eqb name "name" then None else edit_vars name.

(** * Properties *)

(** ** The event log *)

Section EventLog.
Context {E : Type}.
Implicit Types (ev : Events.t E) (l : list E).

Lemma add_event_total ev e :
  Events.num_events_total (Events.add_event ev e)
  = S (Events.num_events_total ev).
Proof.
  unfold Events.add_event, Events.num_events_total.
  destruct (1000 <? _)%nat; reflexivity.
Qed.

(** The buffer after one [add_event], whatever its size before. *)
Lemma add_event_events ev e :
  (length (Events.events ev) <= 1000)%nat ->
  Events.events (Events.add_event ev e)
  = drop (length (Events.events ev ++ [e]) - 1000) (Events.events ev ++ [e]).
Proof.
  unfold Events.add_event, Events.events. intros Hlen.
  destruct (Nat.ltb_spec 1000 (length (Events._events ev ++ [e]))) as [Hgt|Hle];
    cbn [Events._events].
  - rewrite length_app in *. cbn [length] in *.
    replace (length (Events._events ev) + 1 - 1000)%nat with 1%nat by lia.
    destruct (Events._events ev ++ [e]); reflexivity.
  - replace (length (Events._events ev ++ [e]) - 1000)%nat with 0%nat by lia.
    reflexivity.
Qed.

Lemma add_event_bounded ev e :
  (length (Events.events ev) <= 1000)%nat ->
  (length (Events.events (Events.add_event ev e)) <= 1000)%nat.
Proof.
  intros Hlen. rewrite add_event_events by assumption.
  rewrite length_drop. lia.
Qed.

(** The buffer holds the last 1000 of everything it was given, in the order
    of arrival; the counter has counted them all. *)
Lemma add_all_spec l : forall ev,
  (length (Events.events ev) <= 1000)%nat ->
  Events.events (Events.add_all ev l)
  = drop (length (Events.events ev ++ l) - 1000) (Events.events ev ++ l)
  /\ Events.num_events_total (Events.add_all ev l)
     = (Events.num_events_total ev + length l)%nat.
Proof.
  induction l as [|e l IH]; intros ev Hlen; unfold Events.add_all;
    cbn [fold_left].
  - rewrite app_nil_r. split; [|cbn [length]; lia].
    replace (length (Events.events ev) - 1000)%nat with 0%nat by lia.
    reflexivity.
  - destruct (IH (Events.add_event ev e) (add_event_bounded ev e Hlen))
      as [Hev Htot].
    unfold Events.add_all in Hev, Htot. rewrite Hev, Htot.
    rewrite add_event_total. cbn [length]. split; [|lia].
    rewrite add_event_events by assumption.
    set (k := (length (Events.events ev ++ [e]) - 1000)%nat).
    assert (Hk : (k <= length (Events.events ev ++ [e]))%nat) by (unfold k; lia).
    rewrite <- (drop_app_le _ l k) by exact Hk.
    rewrite <- (app_assoc (Events.events ev) [e] l). cbn [app].
    rewrite drop_drop. f_equal.
    rewrite length_drop. unfold k.
    rewrite !length_app. cbn [length]. rewrite length_app in Hk.
    cbn [length] in Hk. lia.
Qed.

End EventLog.

(** C4. Starting from an empty event log, 1001 calls of [add_event] leave
    exactly 1000 entries, namely all but the first one in the order they were
    added, and [num_events_total] is 1001; every call of [add_event], evicting
    or not, raises the counter by one. *)
Theorem events_keep_last_1000 {E : Type} (l : list E) :
  length l = 1001%nat ->
  let ev := Events.add_all Events.init l in
  length (Events.events ev) = 1000%nat
  /\ Events.events ev = tail l
  /\ Events.num_events_total ev = 1001%nat
  /\ (forall (ev' : Events.t E) e,
        Events.num_events_total (Events.add_event ev' e)
        = S (Events.num_events_total ev')).
Proof.
  intros Hl ev.
  destruct (add_all_spec l Events.init) as [Hev Htot]; [cbn; lia|].
  fold ev in Hev, Htot. cbn [Events.events Events._events Events.init app] in Hev.
  rewrite Hl in Hev, Htot.
  replace (1001 - 1000)%nat with 1%nat in Hev by lia.
  assert (Hd : drop 1 l = tail l) by (destruct l; reflexivity).
  rewrite Hd in Hev.
  repeat split.
  - rewrite Hev. destruct l; cbn in *; lia.
  - exact Hev.
  - rewrite Htot. reflexivity.
  - intros ev' e. apply add_event_total.
Qed.

Lemma events_keep_last_1000_witness :
  let l := seq 0 1001 in
  let ev := Events.add_all Events.init l in
  length l = 1001%nat
  /\ length (Events.events ev) = 1000%nat
  /\ Events.events ev = seq 1 1000
  /\ Events.num_events_total ev = 1001%nat.
Proof.
  intros l ev.
  assert (Hl : length l = 1001%nat) by (vm_compute; reflexivity).
  destruct (events_keep_last_1000 l Hl) as (H1 & H2 & H3 & _).
  split; [exact Hl|]. split; [exact H1|]. split; [|exact H3].
  etransitivity; [exact H2|]. vm_compute. reflexivity.
Defined.

(** ** The schedule collection *)

Lemma py_index_in_range {A} (l : list A) (i : Z) :
  - Z.of_nat (length l) <= i < Z.of_nat (length l) ->
  py_index l i = Some (position l i) /\ (position l i < length l)%nat.
Proof.
  intros Hi. unfold py_index, position.
  destruct (Z.ltb_spec i 0) as [Hneg|Hpos].
  - replace (0 <=? i) with false by (symmetry; apply Z.leb_gt; lia).
    cbn [andb].
    replace (- Z.of_nat (length l) <=? i) with true
      by (symmetry; apply Z.leb_le; lia).
    replace (i <? 0) with true by (symmetry; apply Z.ltb_lt; lia).
    cbn [andb]. split; [reflexivity|lia].
  - replace (0 <=? i) with true by (symmetry; apply Z.leb_le; lia).
    replace (i <? Z.of_nat (length l)) with true
      by (symmetry; apply Z.ltb_lt; lia).
    cbn [andb]. split; [reflexivity|lia].
Qed.

Lemma py_index_out_of_range {A} (l : list A) (i : Z) :
  ~ (- Z.of_nat (length l) <= i < Z.of_nat (length l)) ->
  py_index l i = None.
Proof.
  intros Hi. unfold py_index.
  destruct (Z.leb_spec 0 i) as [Hpos|Hneg]; cbn [andb].
  - replace (i <? Z.of_nat (length l)) with false
      by (symmetry; apply Z.ltb_ge; lia).
    replace (i <? 0) with false by (symmetry; apply Z.ltb_ge; lia).
    rewrite andb_false_r. reflexivity.
  - replace (- Z.of_nat (length l) <=? i) with false
      by (symmetry; apply Z.leb_gt; lia).
    reflexivity.
Qed.

Lemma exists_iff (self : Scheduler.t) (schedule_id : Z) :
  let n := Z.of_nat (length (Scheduler._schedules self)) in
  Scheduler.exists_ self schedule_id = true <-> - n <= schedule_id < n.
Proof.
  intros n. unfold Scheduler.exists_. split.
  - intros H.
    destruct (decide (- n <= schedule_id < n)) as [Hin|Hout]; [exact Hin|].
    rewrite (py_index_out_of_range _ _ Hout) in H. discriminate.
  - intros Hin.
    destruct (py_index_in_range (Scheduler._schedules self) schedule_id Hin)
      as [-> _].
    reflexivity.
Qed.




(** The sharp edge of positional ids: [remove] moves entries down but leaves
    their [id] attribute as it was, so saving the last of three schedules
    after the first was removed fails. *)
Lemma stale_id_after_remove :
  let s0 := Schedule.set_id (Schedule.init ManagerObj) (VInt 0) in
  let s1 := Schedule.set_id (Schedule.init ManagerObj) (VInt 1) in
  let s2 := Schedule.set_id (Schedule.init ManagerObj) (VInt 2) in
  let self := Scheduler.set_schedules Scheduler.init [s0; s1; s2] in
  Scheduler.get (Scheduler.remove self 0) 1 = Ok s2
  /\ Scheduler.add (Scheduler.remove self 0) s2 = Raise IndexError.
Proof. cbn. split; reflexivity. Qed.

(** ** Executing a schedule *)

(** C1, as the code has it.  When the schedule's runner is alive, [execute]
    only writes a log line: the schedule and the runners stay as they are.
    When the schedule is not running (and the method [add_runner] is not
    hidden by an attribute of that name) it creates exactly one new
    [ScriptRunner] for the schedule's script, whose [started] is the time of
    the call, makes it the schedule's runner and starts it; the schedule is
    running afterwards.  [last_triggered] is not written: it keeps the value
    it had. *)
Theorem execute_spec (now : timestamp) (p : Scheduler.process)
    (s : Schedule.t) :
  (forall r runner,
      Schedule._runner s = Schedule.RunnerObj r ->
      Scheduler.runners p !! r = Some runner ->
      ScriptRunner.is_alive runner = true ->
      Scheduler.execute now p s
      = Ok (Scheduler.log p (Scheduler.InfoAlreadyRunning (Schedule.name s)), s))
  /\ (Schedule.is_running (Scheduler.runners p) s = Ok false ->
      dict_get (Schedule.attrs s) "add_runner" = None ->
      let new := ScriptRunner.start (ScriptRunner.init (Schedule.script s) now) in
      let r := length (Scheduler.runners p) in
      let p' := {| Scheduler.runners := Scheduler.runners p ++ [new];
                   Scheduler.logged := Scheduler.logged p |} in
      let s' := Schedule.set_runner s (Schedule.RunnerObj r) in
      Scheduler.execute now p s = Ok (p', s')
      /\ length (Scheduler.runners p') = S (length (Scheduler.runners p))
      /\ Scheduler.runners p' !! r = Some new
      /\ ScriptRunner.started new = now
      /\ Schedule.is_running (Scheduler.runners p') s' = Ok true
      /\ Schedule.last_triggered s' = Schedule.last_triggered s).
Proof.
  split.
  - intros r runner Hr Hlook Halive.
    unfold Scheduler.execute, Schedule.is_running.
    rewrite Hr, Hlook, Halive. reflexivity.
  - intros Hidle Hmeth new r p' s'.
    assert (Hlook : Scheduler.runners p' !! r = Some new).
    { unfold p', r. cbn [Scheduler.runners].
      rewrite lookup_app_r by lia. rewrite Nat.sub_diag. reflexivity. }
    split; [|split; [|split; [|split; [|split]]]].
    + unfold Scheduler.execute. rewrite Hidle. cbn [bind].
      unfold Schedule.add_runner, Schedule.method. rewrite Hmeth. reflexivity.
    + unfold p'. cbn [Scheduler.runners]. rewrite length_app. cbn. lia.
    + exact Hlook.
    + reflexivity.
    + unfold Schedule.is_running, s'. cbn [Schedule._runner Schedule.set_runner].
      rewrite Hlook. reflexivity.
    + reflexivity.
Qed.

Lemma execute_spec_witness :
  let s := Schedule.set_script (Schedule.init ManagerObj) (VStr "backup.py") in
  let p := Scheduler.mkProcess [] [] in
  exists p' s',
    Scheduler.execute 42 p s = Ok (p', s')
    /\ length (Scheduler.runners p') = 1%nat
    /\ Schedule.is_running (Scheduler.runners p') s' = Ok true
    /\ Scheduler.execute 43 p' s'
       = Ok (Scheduler.log p' (Scheduler.InfoAlreadyRunning (VStr "")), s').
Proof.
  intros s p.
  destruct (execute_spec 42 p s) as [_ Hrun].
  destruct (Hrun eq_refl eq_refl) as (Hex & Hlen & Hlook & _ & Halive & _).
  eexists _, _. split; [exact Hex|]. split; [exact Hlen|].
  split; [exact Halive|].
  destruct (execute_spec 43
              {| Scheduler.runners := Scheduler.runners p ++
                   [ScriptRunner.start (ScriptRunner.init (Schedule.script s) 42)];
                 Scheduler.logged := Scheduler.logged p |}
              (Schedule.set_runner s (Schedule.RunnerObj 0))) as [Hnoop _].
  apply (Hnoop 0%nat _ eq_refl Hlook eq_refl).
Defined.

(** C1 as worded fails in its last part: a schedule launched at time 42 has
    a new runner started at 42, but its [last_triggered] is still [None]. *)
Lemma execute_counterexample :
  let s := Schedule.set_script (Schedule.init ManagerObj) (VStr "backup.py") in
  let p := Scheduler.mkProcess [] [] in
  exists p' s',
    Scheduler.execute 42 p s = Ok (p', s')
    /\ Schedule._runner s' = Schedule.RunnerObj 0
    /\ Scheduler.runners p' !! 0%nat
       = Some (ScriptRunner.start (ScriptRunner.init (VStr "backup.py") 42))
    /\ Schedule.last_triggered s' = VNone
    /\ Schedule.last_triggered s' <> VInt 42.
Proof.
  eexists _, _. cbn. repeat split; discriminate.
Qed.

(** ** The one-shot phases of the scheduler loop *)

Lemma matched_positions_filter cls l : forall i,
  length (matched_positions cls i l)
  = length (Scheduler._schedules_with_condition_type
              (Scheduler.set_schedules Scheduler.init l) cls).
Proof.
  unfold Scheduler._schedules_with_condition_type. cbn [Scheduler._schedules
    Scheduler.set_schedules].
  induction l as [|s l IH]; intros i; [reflexivity|].
  cbn [matched_positions]. rewrite filter_cons.
  destruct (Scheduler.matched cls s) eqn:Hm.
  - rewrite decide_True by reflexivity. cbn [length]. f_equal. apply IH.
  - rewrite decide_False by discriminate. apply IH.
Qed.








Section OneShot.
Import Scheduler.

Abbreviation on_startup := Condition.ConditionOnStartup.
Abbreviation on_ccu_init := Condition.ConditionOnCCUInitialized.
Abbreviation flag_startup st := (_on_startup_executed (st_scheduler st)).
Abbreviation flag_ccu_init st := (_on_ccu_init_executed (st_scheduler st)).





End OneShot.

Section OneShotNoRaise.
Import Scheduler.

Abbreviation on_startup' := Condition.ConditionOnStartup.
Abbreviation on_ccu_init' := Condition.ConditionOnCCUInitialized.






End OneShotNoRaise.




(** ** Loading the store *)

Lemma get_unknown (type_name : value) :
  (forall cls, type_name <> VStr (Condition.class_type_name cls)) ->
  Condition.get type_name = None.
Proof.
  intros Hne. destruct type_name as [| | |s| |]; try reflexivity.
  unfold Condition.get, Condition.subclasses. cbn [find].
  repeat match goal with
  | |- context [String.eqb (Condition.class_type_name ?c) s] =>
      destruct (String.eqb_spec (Condition.class_type_name c) s) as [Heq|_];
      [exfalso; apply (Hne c); rewrite Heq; reflexivity|]
  end.
  reflexivity.
Qed.

Lemma load_conditions_unknown ccu c type_name cfgs : forall self,
  In c cfgs ->
  py_getitem c "type_name" = Ok type_name ->
  Condition.get type_name = None ->
  exists e, Schedule.load_conditions ccu self cfgs = Raise e.
Proof.
  induction cfgs as [|a cfgs IH]; intros self Hin Hget Hnone; [destruct Hin|].
  cbn [Schedule.load_conditions].
  destruct Hin as [->|Hin].
  - rewrite Hget. cbn [bind]. rewrite Hnone. eauto.
  - destruct (py_getitem a "type_name") as [tn|e]; cbn [bind]; [|eauto].
    destruct (Condition.get tn) as [cls|]; [|eauto].
    destruct (Condition.from_config ccu _ a) as [cond|e]; cbn [bind]; [|eauto].
    destruct (Schedule.add_condition self cond) as [self'|e]; cbn [bind];
      [|eauto].
    apply IH; assumption.
Qed.

Lemma from_config_items_unknown ccu c type_name val conds items : forall self,
  In ("conditions", val) items ->
  py_iter val = Ok conds ->
  In c conds ->
  py_getitem c "type_name" = Ok type_name ->
  Condition.get type_name = None ->
  exists e, Schedule.from_config_items ccu self items = Raise e.
Proof.
  induction items as [|[key v] items IH]; intros self Hin Hiter Hc Hget Hnone;
    [destruct Hin|].
  cbn [Schedule.from_config_items].
  destruct Hin as [[= -> ->]|Hin].
  - rewrite String.eqb_refl. cbn [negb].
    rewrite Hiter. cbn [bind].
    destruct (load_conditions_unknown ccu c type_name conds self Hc Hget Hnone)
      as [e ->].
    cbn [bind]. eauto.
  - match goal with
    | |- exists e, (let* self := ?m in _) = _ => destruct m as [self'|e]
    end; cbn [bind]; [|eauto].
    apply IH; assumption.
Qed.

Lemma load_schedules_raise ccu cfg cfgs : forall self,
  In cfg cfgs ->
  (forall s, exists e, Schedule.from_config ccu s cfg = Raise e) ->
  exists e, Scheduler.load_schedules ccu self cfgs = Raise e.
Proof.
  induction cfgs as [|a cfgs IH]; intros self Hin Hraise; [destruct Hin|].
  cbn [Scheduler.load_schedules].
  destruct Hin as [->|Hin].
  - destruct (Hraise (Schedule.init ManagerObj)) as [e ->]. cbn [bind]. eauto.
  - destruct (Schedule.from_config ccu _ a) as [s|e]; cbn [bind]; [|eauto].
    destruct (Scheduler.add self s) as [r|e]; cbn [bind]; [|eauto].
    apply IH; assumption.
Qed.

(** C6. A condition record whose [type_name] is none of the recognized
    ones makes the load fail: the loop over the conditions raises
    [PMUserError] when it gets to the record, [Schedule.from_config] raises
    for the schedule record that holds it, and [Scheduler.load] ends the
    process with exit status 1. *)
Theorem unknown_condition_type_is_fatal (ccu : option Catalog)
    (store : value) (cfgs : list value) (items : list (string * value))
    (val : value) (conds : list value) (c type_name : value) :
  py_iter store = Ok cfgs ->
  In (VDict items) cfgs ->
  In ("conditions", val) items ->
  py_iter val = Ok conds ->
  In c conds ->
  py_getitem c "type_name" = Ok type_name ->
  (forall cls, type_name <> VStr (Condition.class_type_name cls)) ->
  (forall self rest,
      Schedule.load_conditions ccu self (c :: rest)
      = Raise (PMUserError type_name))
  /\ (forall self, exists e,
         Schedule.from_config ccu self (VDict items) = Raise e)
  /\ (forall self,
         Scheduler.load ccu self (Scheduler.ReadOk store) = Exit 1).
Proof.
  intros Hstore Hcfg Hitems Hval Hc Hget Hne.
  pose proof (get_unknown type_name Hne) as Hnone.
  assert (Hfrom : forall self, exists e,
             Schedule.from_config ccu self (VDict items) = Raise e).
  { intros self. unfold Schedule.from_config. cbn [py_items bind].
    eapply from_config_items_unknown; eassumption. }
  split; [|split].
  - intros self rest. cbn [Schedule.load_conditions].
    rewrite Hget. cbn [bind]. rewrite Hnone. reflexivity.
  - exact Hfrom.
  - intros self. unfold Scheduler.load. cbn [Scheduler.read_store bind].
    rewrite Hstore. cbn [bind].
    destruct (load_schedules_raise ccu (VDict items) cfgs self Hcfg Hfrom)
      as [e ->].
    reflexivity.
Qed.

Lemma unknown_condition_type_is_fatal_witness :
  Scheduler.load (Some []) Scheduler.init
                 (Scheduler.ReadOk store_with_unknown_type) = Exit 1.
Proof.
  edestruct (unknown_condition_type_is_fatal (Some []) store_with_unknown_type)
    as (_ & _ & H);
    [ reflexivity
    | right; left; reflexivity
    | do 3 right; left; reflexivity
    | reflexivity
    | right; left; reflexivity
    | reflexivity
    | intros [] Hx; discriminate Hx
    | apply H ].
Defined.

(** ** Saving unresolved conditions *)

Lemma conditions_to_config_raise c cs :
  In c cs ->
  (exists e, Condition.to_config c = Raise e) ->
  exists e, Schedule.conditions_to_config cs = Raise e.
Proof.
  intros Hin [e He]. induction cs as [|a cs IH]; [destruct Hin|].
  cbn [Schedule.conditions_to_config].
  destruct Hin as [->|Hin].
  - rewrite He. cbn [bind]. eauto.
  - destruct (Condition.to_config a); cbn [bind]; [|eauto].
    destruct (IH Hin) as [e' ->]. cbn [bind]. eauto.
Qed.

Lemma schedule_to_config_raise c s :
  In c (Schedule.conditions s) ->
  (exists e, Condition.to_config c = Raise e) ->
  exists e, Schedule.to_config s = Raise e.
Proof.
  intros Hin Hraise. unfold Schedule.to_config.
  destruct (Schedule.method s "to_config"); cbn [bind]; [|eauto].
  destruct (conditions_to_config_raise c _ Hin Hraise) as [e ->].
  cbn [bind]. eauto.
Qed.

Lemma schedules_to_config_raise s l :
  In s l ->
  (exists e, Schedule.to_config s = Raise e) ->
  exists e, Scheduler.schedules_to_config l = Raise e.
Proof.
  intros Hin [e He]. induction l as [|a l IH]; [destruct Hin|].
  cbn [Scheduler.schedules_to_config].
  destruct Hin as [->|Hin].
  - rewrite He. cbn [bind]. eauto.
  - destruct (Schedule.to_config a); cbn [bind]; [|eauto].
    destruct (IH Hin) as [e' ->]. cbn [bind]. eauto.
Qed.

(** C10. An on-device-event condition whose device, channel or parameter is
    [None] has no record: [ConditionOnDeviceEvent.to_config] raises
    [AttributeError], the call [condition.to_config()] raises, and so does
    [Scheduler.save] for every collection with a schedule that holds such a
    condition. *)
Theorem unresolved_condition_breaks_save (c : Condition.t) :
  Condition.class_of c = Condition.ConditionOnDeviceEvent ->
  Condition.device c = None \/ Condition.channel c = None
  \/ Condition.param c = None ->
  Condition.device_event_to_config c = Raise AttributeError
  /\ (exists e, Condition.to_config c = Raise e)
  /\ (forall (self : Scheduler.t) (s : Schedule.t),
         In s (Scheduler._schedules self) ->
         In c (Schedule.conditions s) ->
         exists e, Scheduler.save self = Raise e).
Proof.
  intros Hcls Hnone.
  assert (Hdev : Condition.device_event_to_config c = Raise AttributeError).
  { unfold Condition.device_event_to_config.
    destruct (Condition.device c); [|reflexivity].
    destruct (Condition.channel c); [|reflexivity].
    destruct (Condition.param c); [|reflexivity].
    destruct Hnone as [H|[H|H]]; discriminate H. }
  assert (Hcall : exists e, Condition.to_config c = Raise e).
  { unfold Condition.to_config. rewrite Hcls, Hdev.
    destruct (dict_get (Condition.attrs c) "to_config"); eauto. }
  split; [exact Hdev|]. split; [exact Hcall|].
  intros self s Hs Hc. unfold Scheduler.save.
  destruct (schedules_to_config_raise s _ Hs
              (schedule_to_config_raise c s Hc Hcall)) as [e ->].
  cbn [bind]. eauto.
Qed.

Lemma unresolved_condition_breaks_save_witness :
  exists self,
    Scheduler.load (Some []) Scheduler.init
                   (Scheduler.ReadOk store_with_stale_device) = Done self
    /\ Scheduler.save self = Raise AttributeError.
Proof.
  eexists. split; [vm_compute; reflexivity|].
  match goal with
  | |- Scheduler.save ?self = _ =>
      destruct (unresolved_condition_breaks_save
                  (Condition.setattr
                     (Condition.init Condition.ConditionOnDeviceEvent ManagerObj)
                     "id" (VInt 0))
                  eq_refl (or_introl eq_refl)) as (_ & _ & Hsave);
      destruct (Hsave self
                  (Schedule.set_id
                     (Schedule.set_conditions
                        (Schedule.set_script
                           (Schedule.set_name (Schedule.init ManagerObj)
                                              (VStr "a"))
                           (VStr "a.py"))
                        [Condition.setattr
                           (Condition.init Condition.ConditionOnDeviceEvent
                                           ManagerObj)
                           "id" (VInt 0)])
                     (VInt 0)))
        as [e He]
  end.
  - left. reflexivity.
  - left. reflexivity.
  - vm_compute in He. vm_compute. exact He || reflexivity.
Defined.

(** ** Conditions whose references do not resolve *)

Lemma channel_by_address_raises d a e :
  channel_by_address d a = Raise e -> e = KeyError.
Proof.
  unfold channel_by_address. destruct a; try (intros [= <-]; reflexivity).
  destruct (find _ _); [discriminate|]. intros [= <-]. reflexivity.
Qed.

(** [ConditionOnDeviceEvent.from_config] on a record with the four keys
    never raises; what it leaves in the condition depends on how far the
    catalog resolves the references. *)
Lemma device_event_from_config_total devices c0 cfg a ca id et :
  Condition._manager c0 = ManagerObj ->
  py_getitem cfg "device_address" = Ok a ->
  py_getitem cfg "channel_address" = Ok ca ->
  py_getitem cfg "param_id" = Ok id ->
  py_getitem cfg "event_type" = Ok et ->
  exists c',
    Condition.device_event_from_config (Some devices) c0 cfg = Ok c'
    /\ Condition.class_of c' = Condition.class_of c0
    /\ Condition.attrs c' = Condition.attrs c0
    /\ match resolve devices a ca id with
       | Some (d, c, p) =>
           Condition.device c' = Some d /\ Condition.channel c' = Some c
           /\ Condition.param c' = Some p /\ Condition.event_type c' = et
       | None =>
           (Condition.channel c0 = None ->
            Condition.device c' = None \/ Condition.channel c' = None
            \/ Condition.param c' = None)
           /\ (Condition.param c0 = None -> Condition.param c' = None)
           /\ Condition.event_type c' = Condition.event_type c0
       end.
Proof.
  intros Hm Ha Hca Hid Het.
  unfold Condition.device_event_from_config, Condition.devices_of, resolve.
  rewrite Hm. cbn [bind]. rewrite Ha. cbn [bind].
  cbn [Condition.device Condition.set_device].
  destruct (query_get devices a) as [d|].
  - rewrite Hca. cbn [bind].
    destruct (channel_by_address d ca) as [c|e] eqn:Hch.
    + rewrite Hid. cbn [bind].
      cbn [Condition.param Condition.set_param].
      destruct (values_get c id) as [p|].
      * rewrite Het. cbn [bind]. eexists. split; [reflexivity|].
        cbn. repeat split.
      * eexists. split; [reflexivity|]. cbn. repeat split. right. right.
        reflexivity.
    + rewrite (channel_by_address_raises _ _ _ Hch).
      eexists. split; [reflexivity|]. cbn. repeat split; auto.
  - eexists. split; [reflexivity|]. cbn. repeat split; auto.
Qed.









(** Without a connection to the CCU ([manager.ccu] is [None]) there is no
    catalog to resolve against, and the same record is fatal. *)
Lemma device_event_without_ccu :
  Condition.from_config None
    (Condition.init Condition.ConditionOnDeviceEvent ManagerObj)
    stale_condition_cfg = Raise AttributeError
  /\ Scheduler.load None Scheduler.init
                    (Scheduler.ReadOk store_with_stale_device) = Exit 1.
Proof. split; reflexivity. Qed.

(** ** Keys of a schedule record *)

Lemma dict_get_set_eq {A} (d : list (string * A)) k v :
  dict_get (dict_set d k v) k = Some v.
Proof.
  induction d as [|[k' v'] d IH]; cbn [dict_set dict_get].
  - rewrite String.eqb_refl. reflexivity.
  - destruct (String.eqb_spec k' k) as [->|Hne]; cbn [dict_get].
    + rewrite String.eqb_refl. reflexivity.
    + destruct (String.eqb_spec k' k); [contradiction|exact IH].
Qed.

Lemma dict_get_set_ne {A} (d : list (string * A)) k v a :
  a <> k -> dict_get (dict_set d k v) a = dict_get d a.
Proof.
  intros Hne. induction d as [|[k' v'] d IH]; cbn [dict_set dict_get].
  - destruct (String.eqb_spec k a); [congruence|reflexivity].
  - destruct (String.eqb_spec k' k) as [->|Hk]; cbn [dict_get].
    + destruct (String.eqb_spec k a); [congruence|reflexivity].
    + destruct (String.eqb_spec k' a); [reflexivity|exact IH].
Qed.

Ltac string_cases :=
  repeat match goal with
  | |- context [String.eqb ?x ?y] =>
      destruct (String.eqb_spec x y); subst; try congruence
  | H : context [String.eqb ?x ?y] |- _ =>
      destruct (String.eqb_spec x y); subst; try congruence
  end.

Lemma setattr_other self k v self' a :
  Schedule.setattr self k v = Ok self' ->
  k <> "conditions" -> a <> k ->
  instance_attr self' a = instance_attr self a.
Proof.
  unfold Schedule.setattr. intros Hset Hk Ha.
  string_cases; injection Hset as <-; unfold instance_attr;
    string_cases; try reflexivity.
  cbn [Schedule.attrs Schedule.set_attrs].
  rewrite dict_get_set_ne by congruence. reflexivity.
Qed.

Lemma setattr_same self k v self' :
  Schedule.setattr self k v = Ok self' ->
  k <> "conditions" ->
  instance_attr self' k = Some (AVal v).
Proof.
  unfold Schedule.setattr. intros Hset Hk.
  string_cases; injection Hset as <-; unfold instance_attr;
    string_cases; try reflexivity.
  cbn [Schedule.attrs Schedule.set_attrs].
  rewrite dict_get_set_eq. reflexivity.
Qed.

Lemma add_condition_other self c self' a :
  Schedule.add_condition self c = Ok self' ->
  a <> "conditions" ->
  instance_attr self' a = instance_attr self a.
Proof.
  unfold Schedule.add_condition. destruct (Schedule.method self _);
    cbn [bind]; [|discriminate].
  intros [= <-] Ha. unfold instance_attr. string_cases; reflexivity.
Qed.

Lemma load_conditions_other ccu cfgs : forall self self' a,
  Schedule.load_conditions ccu self cfgs = Ok self' ->
  a <> "conditions" ->
  instance_attr self' a = instance_attr self a.
Proof.
  induction cfgs as [|c cfgs IH]; intros self self' a Hload Ha.
  - injection Hload as <-. reflexivity.
  - cbn [Schedule.load_conditions] in Hload.
    destruct (py_getitem c "type_name") as [tn|]; cbn [bind] in Hload;
      [|discriminate].
    destruct (Condition.get tn) as [cls|]; [|discriminate].
    destruct (Condition.from_config ccu _ c) as [cond|]; cbn [bind] in Hload;
      [|discriminate].
    destruct (Schedule.add_condition self cond) as [self1|] eqn:Hadd;
      cbn [bind] in Hload; [|discriminate].
    rewrite (IH _ _ _ Hload Ha). eapply add_condition_other; eassumption.
Qed.

(** Attributes the record does not name keep their value. *)
Lemma from_config_items_frame ccu items : forall self self' a,
  Schedule.from_config_items ccu self items = Ok self' ->
  ~ In a (map fst items) ->
  instance_attr self' a = instance_attr self a.
Proof.
  induction items as [|[key val] items IH]; intros self self' a Hload Hnot.
  - injection Hload as <-. reflexivity.
  - cbn [Schedule.from_config_items] in Hload. cbn [map fst In] in Hnot.
    assert (Hne : a <> key) by (intros ->; apply Hnot; left; reflexivity).
    assert (Hrest : ~ In a (map fst items)) by (intros H; apply Hnot; right; exact H).
    destruct (String.eqb_spec key "conditions") as [->|Hkey]; cbn [negb] in Hload.
    + destruct (py_iter val) as [cfgs|]; cbn [bind] in Hload; [|discriminate].
      destruct (Schedule.load_conditions ccu self cfgs) as [self1|] eqn:Hconds;
        cbn [bind] in Hload; [|discriminate].
      rewrite (IH _ _ _ Hload Hrest).
      eapply load_conditions_other; eassumption.
    + destruct (Schedule.setattr self key val) as [self1|] eqn:Hset;
        cbn [bind] in Hload; [|discriminate].
      rewrite (IH _ _ _ Hload Hrest).
      eapply setattr_other; eassumption.
Qed.

(** Every key but [conditions] ends up as an attribute of that name. *)
Lemma from_config_items_sets ccu items : forall self self' key val,
  Schedule.from_config_items ccu self items = Ok self' ->
  NoDup (map fst items) ->
  In (key, val) items ->
  key <> "conditions" ->
  instance_attr self' key = Some (AVal val).
Proof.
  induction items as [|[k v] items IH]; intros self self' key val Hload Hnd Hin Hkey;
    [destruct Hin|].
  cbn [Schedule.from_config_items] in Hload. cbn [map fst] in Hnd.
  apply NoDup_cons in Hnd as [Hfresh Hnd].
  rewrite list_elem_of_In in Hfresh.
  destruct Hin as [[= -> ->]|Hin].
  - destruct (String.eqb_spec key "conditions") as [->|_]; [congruence|].
    cbn [negb] in Hload.
    destruct (Schedule.setattr self key val) as [self1|] eqn:Hset;
      cbn [bind] in Hload; [|discriminate].
    rewrite (from_config_items_frame _ _ _ _ _ Hload Hfresh).
    eapply setattr_same; eassumption.
  - match type of Hload with
    | (let* self := ?m in _) = _ => destruct m as [self1|]
    end; cbn [bind] in Hload; [|discriminate].
    eapply IH; eassumption.
Qed.




(** ** Round trip through the configuration *)

Lemma get_class_type_name cls :
  Condition.get (VStr (Condition.class_type_name cls)) = Some cls.
Proof. destruct cls; reflexivity. Qed.

Lemma cond_equiv_set_id c c' v :
  cond_equiv c c' -> cond_equiv c (Condition.setattr c' "id" v).
Proof.
  intros (H1 & H2 & H3 & H4 & H5 & H6).
  unfold cond_equiv, Condition.setattr. cbn [String.eqb Ascii.eqb Bool.eqb].
  cbn [Condition.class_of Condition.device Condition.channel Condition.param
       Condition.event_type Condition.set_attrs].
  repeat split; try assumption.
  rewrite H2. unfold Condition.type_name.
  cbn [Condition.attrs Condition.class_of Condition.set_attrs].
  rewrite dict_get_set_ne by discriminate. reflexivity.
Qed.

(** One condition: its record names its class, and loading the record into
    a new object of that class gives an equivalent condition. *)
Lemma condition_roundtrip devices c :
  saveable devices c ->
  exists cfg c',
    Condition.to_config c = Ok cfg
    /\ py_getitem cfg "type_name"
       = Ok (VStr (Condition.class_type_name (Condition.class_of c)))
    /\ Condition.from_config (Some devices)
         (Condition.init (Condition.class_of c) ManagerObj) cfg = Ok c'
    /\ cond_equiv c c'.
Proof.
  intros (Hcall & Htn & Hfields).
  unfold Condition.to_config. rewrite Hcall.
  destruct (Condition.class_of c) eqn:Hcls.
  1, 2, 4:
    destruct Hfields as (Hd & Hch & Hp & Het);
    eexists _, _; (split; [reflexivity|]);
    unfold Condition.base_to_config; rewrite Htn;
    (split; [reflexivity|]); (split; [reflexivity|]);
    unfold cond_equiv; rewrite Hcls, Htn, Hd, Hch, Hp, Het;
    repeat split.
  destruct Hfields as (d & ch & p & Hd & Hch & Hp & Hres).
  unfold Condition.device_event_to_config, Condition.base_to_config.
  rewrite Hd, Hch, Hp, Htn.
  cbn [dict_set String.eqb Ascii.eqb Bool.eqb].
  set (cfg := VDict _).
  destruct (device_event_from_config_total devices
              (Condition.init Condition.ConditionOnDeviceEvent ManagerObj) cfg
              (VStr (device_address d)) (VStr (channel_address ch))
              (VStr (param_id p)) (Condition.event_type c)
              eq_refl eq_refl eq_refl eq_refl eq_refl)
    as (c' & Hc' & Hcls' & Hattrs' & Hfields').
  rewrite Hres in Hfields'. destruct Hfields' as (Hd' & Hch' & Hp' & Het').
  exists cfg, c'. split; [reflexivity|]. split; [reflexivity|].
  split; [exact Hc'|].
  unfold cond_equiv. rewrite Hcls, Hcls', Hd, Hch, Hp, Hd', Hch', Hp', Het', Htn.
  unfold Condition.type_name. rewrite Hattrs', Hcls'.
  repeat split.
Qed.

Lemma conditions_to_config_total devices cs :
  Forall (saveable devices) cs ->
  exists cfgs, Schedule.conditions_to_config cs = Ok cfgs.
Proof.
  induction 1 as [|c cs Hc _ [cfgs IH]]; [exists []; reflexivity|].
  destruct (condition_roundtrip devices c Hc) as (cfg & _ & Hto & _).
  cbn [Schedule.conditions_to_config]. rewrite Hto, IH. cbn [bind]. eauto.
Qed.

Lemma load_conditions_roundtrip devices cs : forall cfgs self,
  Forall (saveable devices) cs ->
  Schedule.conditions_to_config cs = Ok cfgs ->
  Schedule.attrs self = [] ->
  Schedule._manager self = ManagerObj ->
  exists self' cs',
    Schedule.load_conditions (Some devices) self cfgs = Ok self'
    /\ Schedule.attrs self' = []
    /\ Schedule._manager self' = ManagerObj
    /\ Schedule.conditions self' = Schedule.conditions self ++ cs'
    /\ Forall2 cond_equiv cs cs'.
Proof.
  induction cs as [|c cs IH]; intros cfgs self Hall Hcfg Hattrs Hm.
  - injection Hcfg as <-. exists self, []. cbn. rewrite app_nil_r.
    repeat split; try assumption. constructor.
  - inversion Hall as [|? ? Hc Hrest]; subst.
    destruct (condition_roundtrip devices c Hc)
      as (cfg & c' & Hto & Htn & Hfrom & Heq).
    cbn [Schedule.conditions_to_config] in Hcfg. rewrite Hto in Hcfg.
    cbn [bind] in Hcfg.
    destruct (Schedule.conditions_to_config cs) as [cfgs'|]; cbn [bind] in Hcfg;
      [|discriminate].
    injection Hcfg as <-.
    cbn [Schedule.load_conditions]. rewrite Htn. cbn [bind].
    rewrite get_class_type_name, Hm, Hfrom. cbn [bind].
    unfold Schedule.add_condition, Schedule.method. rewrite Hattrs.
    cbn [dict_get bind].
    set (c'' := Condition.setattr c' "id" _).
    destruct (IH cfgs' (Schedule.set_conditions self
                          (Schedule.conditions self ++ [c''])) Hrest eq_refl
                Hattrs Hm)
      as (self' & cs' & Hload & Ha' & Hm' & Hconds & Hequiv).
    exists self', (c'' :: cs'). split; [exact Hload|].
    split; [exact Ha'|]. split; [exact Hm'|].
    split.
    + rewrite Hconds. cbn [Schedule.conditions Schedule.set_conditions].
      rewrite <- app_assoc. reflexivity.
    + constructor; [|exact Hequiv]. apply cond_equiv_set_id. exact Heq.
Qed.

(** Loading the four entries [to_config] writes, in whatever order the
    dictionary hands them out. *)
Lemma from_config_items_roundtrip devices cs cfgs :
  Forall (saveable devices) cs ->
  Schedule.conditions_to_config cs = Ok cfgs ->
  forall items self,
    Schedule.attrs self = [] ->
    Schedule._manager self = ManagerObj ->
    NoDup (map fst items) ->
    Forall (fun kv => fst kv = "name" \/ fst kv = "keep_running"
                      \/ fst kv = "script" \/ kv = ("conditions", VList cfgs))
           items ->
    exists self',
      Schedule.from_config_items (Some devices) self items = Ok self'
      /\ (In "conditions" (map fst items) ->
          exists cs', Schedule.conditions self' = Schedule.conditions self ++ cs'
                      /\ Forall2 cond_equiv cs cs')
      /\ (~ In "conditions" (map fst items) ->
          Schedule.conditions self' = Schedule.conditions self).
Proof.
  intros Hsave Hcfgs.
  induction items as [|[k v] items IH]; intros self Hattrs Hm Hnd Hall.
  - exists self. split; [reflexivity|]. split; [intros []|reflexivity].
  - cbn [map fst] in Hnd. apply NoDup_cons in Hnd as [Hfresh Hnd].
    rewrite list_elem_of_In in Hfresh.
    inversion Hall as [|? ? Hkv Hrest]; subst. cbn [fst] in Hkv.
    cbn [Schedule.from_config_items map fst In].
    destruct Hkv as [->|[->|[->|[= -> ->]]]].
    1, 2, 3:
      cbn [String.eqb Ascii.eqb Bool.eqb negb Schedule.setattr bind];
      match goal with
      | |- exists self', Schedule.from_config_items _ ?s1 _ = _ /\ _ =>
          destruct (IH s1 Hattrs Hm Hnd Hrest) as (self' & Hload & Hin & Hnot)
      end;
      exists self'; (split; [exact Hload|]);
      (split; [intros [Heq|H]; [discriminate Heq|exact (Hin H)]
              |intros H; apply Hnot; tauto]).
    cbn [String.eqb Ascii.eqb Bool.eqb negb py_iter bind].
    destruct (load_conditions_roundtrip devices cs cfgs self Hsave Hcfgs
                Hattrs Hm) as (self1 & cs' & -> & Ha1 & Hm1 & Hc1 & Hequiv).
    cbn [bind].
    destruct (IH self1 Ha1 Hm1 Hnd Hrest) as (self' & Hload & _ & Hnot).
    exists self'. split; [exact Hload|]. split; [|tauto].
    intros _. exists cs'. rewrite (Hnot Hfresh). split; assumption.
Qed.

Lemma instance_attr_fields self :
  instance_attr self "name" = Some (AVal (Schedule.name self))
  /\ instance_attr self "keep_running" = Some (AVal (Schedule.keep_running self))
  /\ instance_attr self "script" = Some (AVal (Schedule.script self)).
Proof. repeat split. Qed.

(** C9, as the code has it.  For a schedule on which [to_config] is
    callable and whose conditions are saveable in the catalog at hand (the
    references of every on-device-event condition resolve there),
    [to_config] returns a record, and [from_config] of that record on a new
    schedule, in whatever order the record's entries are visited, gives a
    schedule with the same name, keep-running flag and script and, one for
    one, conditions of the same class with the same type name, device,
    channel, parameter and event type. *)
Theorem config_roundtrip (devices : Catalog) (s : Schedule.t) :
  dict_get (Schedule.attrs s) "to_config" = None ->
  Forall (saveable devices) (Schedule.conditions s) ->
  exists items,
    Schedule.to_config s = Ok (VDict items)
    /\ forall items', Permutation items' items ->
       exists s',
         Schedule.from_config (Some devices) (Schedule.init ManagerObj)
                              (VDict items') = Ok s'
         /\ Schedule.name s' = Schedule.name s
         /\ Schedule.keep_running s' = Schedule.keep_running s
         /\ Schedule.script s' = Schedule.script s
         /\ Forall2 cond_equiv (Schedule.conditions s) (Schedule.conditions s').
Proof.
  intros Hcall Hall.
  destruct (conditions_to_config_total devices _ Hall) as [cfgs Hcfgs].
  unfold Schedule.to_config, Schedule.method. rewrite Hcall, Hcfgs. cbn [bind].
  eexists. split; [reflexivity|].
  intros items' Hperm.
  assert (Hnd : NoDup (map fst items')).
  { rewrite Hperm. cbn. repeat constructor; rewrite list_elem_of_In; cbn;
      intuition discriminate. }
  assert (Hkeys :
    Forall (fun kv => fst kv = "name" \/ fst kv = "keep_running"
                      \/ fst kv = "script" \/ kv = ("conditions", VList cfgs))
           items').
  { rewrite Hperm. repeat constructor; cbn; tauto. }
  destruct (from_config_items_roundtrip devices _ cfgs Hall Hcfgs items'
              (Schedule.init ManagerObj) eq_refl eq_refl Hnd Hkeys)
    as (s' & Hload & Hin & _).
  exists s'. unfold Schedule.from_config. cbn [py_items bind].
  split; [exact Hload|].
  assert (Hval : forall key val,
    In (key, val) [("name", Schedule.name s);
                   ("keep_running", Schedule.keep_running s);
                   ("script", Schedule.script s); ("conditions", VList cfgs)] ->
    key <> "conditions" -> instance_attr s' key = Some (AVal val)).
  { intros key val Hk Hne.
    eapply from_config_items_sets; [exact Hload|exact Hnd| |exact Hne].
    apply (Permutation_in _ (Permutation_sym Hperm)). exact Hk. }
  destruct (instance_attr_fields s') as (Hn & Hk & Hs).
  split; [|split; [|split]].
  - specialize (Hval "name" (Schedule.name s)). rewrite Hn in Hval.
    assert (H : Some (AVal (Schedule.name s')) = Some (AVal (Schedule.name s)))
      by (apply Hval; [cbn; tauto|discriminate]).
    congruence.
  - specialize (Hval "keep_running" (Schedule.keep_running s)).
    rewrite Hk in Hval.
    assert (H : Some (AVal (Schedule.keep_running s'))
                = Some (AVal (Schedule.keep_running s)))
      by (apply Hval; [cbn; tauto|discriminate]).
    congruence.
  - specialize (Hval "script" (Schedule.script s)). rewrite Hs in Hval.
    assert (H : Some (AVal (Schedule.script s'))
                = Some (AVal (Schedule.script s)))
      by (apply Hval; [cbn; tauto|discriminate]).
    congruence.
  - destruct Hin as (cs' & Hconds & Hequiv).
    + apply (Permutation_in _ (Permutation_sym
                                 (Permutation_map fst Hperm))).
      cbn. tauto.
    + rewrite Hconds. exact Hequiv.
Qed.

Lemma config_roundtrip_witness :
  exists items,
    Schedule.to_config window_schedule = Ok (VDict items)
    /\ exists s',
         Schedule.from_config (Some other_catalog) (Schedule.init ManagerObj)
                              (VDict (rev items)) = Ok s'
         /\ Schedule.name s' = VStr "window"
         /\ Schedule.keep_running s' = VBool true
         /\ Schedule.script s' = VStr "window.py"
         /\ Forall2 cond_equiv (Schedule.conditions window_schedule)
                               (Schedule.conditions s').
Proof.
  destruct (config_roundtrip other_catalog window_schedule) as (items & Hto & Hfrom).
  - reflexivity.
  - repeat constructor.
    exists window_device, contact_channel, state_param.
    repeat split.
  - exists items. split; [exact Hto|].
    apply Hfrom. symmetry. apply Permutation_rev.
Defined.

(** C9 as worded fails for a schedule holding an on-device-event condition
    whose references are unresolved (as [from_config] leaves it for a stale
    record): its class is a recognized one, yet [to_config] raises, so there
    is no record to load back. *)
Lemma config_roundtrip_counterexample :
  let c := Condition.init Condition.ConditionOnDeviceEvent ManagerObj in
  let s := Schedule.set_conditions (Schedule.init ManagerObj) [c] in
  Condition.get (Condition.type_name c) = Some (Condition.class_of c)
  /\ Condition.from_config (Some other_catalog) c stale_condition_cfg = Ok c
  /\ Schedule.to_config s = Raise AttributeError.
Proof. vm_compute. repeat split. Qed.

(** ** Device events *)

(** C2, as the code has it.  On a device event [_on_value_updated] appends
    one entry to the event log and does nothing else: the scheduler with its
    schedules and the runners of the process are as before, so no condition
    is evaluated and no schedule executed.  The kind of a logged event is
    derived where the log is shown: [changed] when its time equals its time
    of change, [updated] otherwise. *)
Theorem on_value_updated_logs_only (self : Manager.t) (u : Manager.updated) :
  let e := {| Manager.time := Manager.last_updated u;
              Manager.time_changed := Manager.last_changed u;
              Manager.param := Manager.updated_param u;
              Manager.raw_value := Manager.current_value u;
              Manager.formated_value := Manager.as_text u |} in
  let self' := Manager._on_value_updated self u in
  Manager.events self' = Events.add_event (Manager.events self) e
  /\ Events.num_events_total (Manager.events self')
     = S (Events.num_events_total (Manager.events self))
  /\ Manager.scheduler self' = Manager.scheduler self
  /\ Manager.process self' = Manager.process self
  /\ (Manager.event_ty e = "changed"
      <-> Manager.last_updated u = Manager.last_changed u)
  /\ (Manager.event_ty e = "updated"
      <-> Manager.last_updated u <> Manager.last_changed u).
Proof.
  intros e self'. split; [reflexivity|]. split; [apply add_event_total|].
  split; [reflexivity|]. split; [reflexivity|].
  unfold Manager.event_ty, e. cbn [Manager.time Manager.time_changed].
  destruct (Z.eqb_spec (Manager.last_updated u) (Manager.last_changed u));
    split; split; intros; try reflexivity; try assumption;
    try discriminate; congruence.
Qed.

(** C2 as worded fails: the schedule below has a condition on the very
    parameter and kind of the event that arrives, and after
    [_on_value_updated] it still has no runner and the process has started
    none. *)
Lemma on_value_updated_counterexample :
  let self := Manager.mk (Some other_catalog) true Events.init
                (Scheduler.mk [window_schedule] true true)
                (Scheduler.mkProcess [] []) in
  let u := Manager.mkUpdated state_param 7 7 (VBool true) "True" in
  let self' := Manager._on_value_updated self u in
  (exists e, Events.events (Manager.events self') = [e]
             /\ Condition.param window_condition = Some (Manager.param e)
             /\ Condition.event_type window_condition
                = VStr (Manager.event_ty e))
  /\ map Schedule._runner (Scheduler._schedules (Manager.scheduler self'))
     = [Schedule.RunnerVal VNone]
  /\ Scheduler.runners (Manager.process self') = [].
Proof.
  cbn. split; [|split; reflexivity].
  eexists. split; [reflexivity|]. split; reflexivity.
Qed.

(** * Further properties *)

(** ** Condition ids *)

Lemma ids_positional_snoc cs c v :
  ids_positional cs ->
  v = VInt (Z.of_nat (length cs)) ->
  ids_positional (cs ++ [Condition.setattr c "id" v]).
Proof.
  intros Hcs -> i c' Hlook.
  destruct (decide (i < length cs)%nat) as [Hlt|Hge].
  - rewrite lookup_app_l in Hlook by exact Hlt. apply Hcs. exact Hlook.
  - rewrite lookup_app_r in Hlook by lia.
    destruct (i - length cs)%nat as [|n] eqn:Hi; [|destruct n; discriminate].
    injection Hlook as <-.
    unfold Condition.setattr. cbn [String.eqb Ascii.eqb Bool.eqb].
    cbn [Condition.attrs Condition.set_attrs].
    rewrite dict_get_set_eq. f_equal. f_equal. lia.
Qed.







Lemma add_conditions_spec cs : forall self,
  dict_get (Schedule.attrs self) "add_condition" = None ->
  add_conditions self cs
  = Ok (Schedule.set_conditions self
          (Schedule.conditions self
           ++ imap (fun i c =>
                      Condition.setattr c "id"
                        (VInt (Z.of_nat (length (Schedule.conditions self) + i))))
                   cs)).
Proof.
  induction cs as [|c cs IH]; intros self Hm; cbn [add_conditions imap].
  - rewrite app_nil_r. destruct self; reflexivity.
  - unfold Schedule.add_condition, Schedule.method. rewrite Hm. cbn [bind].
    rewrite IH by exact Hm.
    cbn [Schedule.conditions Schedule.set_conditions].
    rewrite <- app_assoc. cbn [app]. rewrite Nat.add_0_r.
    f_equal. unfold Schedule.set_conditions. cbn. f_equal. f_equal. f_equal.
    apply imap_ext. intros i x _. cbn. rewrite length_app. cbn [length].
    do 4 f_equal. lia.
Qed.

(** X2. Rebuilding the condition list, as every save of the edit form does:
    after [clear_conditions] and one [add_condition] per condition, the
    schedule holds exactly the conditions added, in that order, each with
    its position as [id]; whatever ids they carried before are gone. *)
Theorem rebuild_conditions (self : Schedule.t) (cs : list Condition.t) :
  dict_get (Schedule.attrs self) "clear_conditions" = None ->
  dict_get (Schedule.attrs self) "add_condition" = None ->
  exists self0 self',
    Schedule.clear_conditions self = Ok self0
    /\ add_conditions self0 cs = Ok self'
    /\ Schedule.conditions self'
       = imap (fun i c => Condition.setattr c "id" (VInt (Z.of_nat i))) cs
    /\ length (Schedule.conditions self') = length cs
    /\ ids_positional (Schedule.conditions self').
Proof.
  intros Hclear Hadd.
  unfold Schedule.clear_conditions, Schedule.method. rewrite Hclear. cbn [bind].
  eexists _, _. split; [reflexivity|].
  rewrite add_conditions_spec by exact Hadd.
  cbn [Schedule.conditions Schedule.set_conditions app length Nat.add].
  split; [reflexivity|]. split; [reflexivity|].
  split; [apply length_imap|].
  intros i c Hlook.
  cbn [Schedule.conditions Schedule.set_conditions app] in Hlook.
  rewrite list_lookup_imap in Hlook.
  destruct (cs !! i) as [c0|]; [|discriminate]. injection Hlook as <-.
  unfold Condition.setattr. cbn [String.eqb Ascii.eqb Bool.eqb].
  cbn [Condition.attrs Condition.set_attrs]. apply dict_get_set_eq.
Qed.

Lemma rebuild_conditions_witness :
  exists self0 self',
    Schedule.clear_conditions window_schedule = Ok self0
    /\ add_conditions self0 [window_condition] = Ok self'
    /\ map (fun c => dict_get (Condition.attrs c) "id") (Schedule.conditions self')
       = [Some (VInt 0)].
Proof.
  destruct (rebuild_conditions window_schedule [window_condition] eq_refl eq_refl)
    as (self0 & self' & H0 & H1 & Hcs & _).
  exists self0, self'. split; [exact H0|]. split; [exact H1|].
  rewrite Hcs. reflexivity.
Defined.

(** ** Looking up, adding and removing schedules *)

(** X3. [get] and [exists] agree: [get] returns a schedule exactly for the
    ids [exists] accepts, namely the one at the position the id denotes, and
    raises [IndexError] for every other id. *)
Theorem get_agrees_with_exists (self : Scheduler.t) (id : Z) :
  let l := Scheduler._schedules self in
  (Scheduler.exists_ self id = true ->
   exists s, Scheduler.get self id = Ok s /\ l !! position l id = Some s)
  /\ (Scheduler.exists_ self id = false ->
      Scheduler.get self id = Raise IndexError).
Proof.
  intros l. split.
  - intros Hex. apply exists_iff in Hex.
    destruct (py_index_in_range l id Hex) as [Hidx Hlt].
    destruct (lookup_lt_is_Some_2 l _ Hlt) as [s Hs].
    exists s. split; [|exact Hs].
    unfold Scheduler.get. fold l. rewrite Hidx, Hs. reflexivity.
  - unfold Scheduler.exists_, Scheduler.get. fold l.
    destruct (py_index l id); [discriminate|reflexivity].
Qed.

Lemma get_agrees_with_exists_witness :
  let self := Scheduler.set_schedules Scheduler.init [window_schedule] in
  Scheduler.get self (-1) = Ok window_schedule
  /\ Scheduler.get self 1 = Raise IndexError.
Proof.
  intros self.
  destruct (get_agrees_with_exists self (-1)) as [Hyes _].
  destruct (get_agrees_with_exists self 1) as [_ Hno].
  split; [|apply Hno; reflexivity].
  destruct (Hyes eq_refl) as (s & Hget & Hlook).
  rewrite Hget. f_equal. injection Hlook as <-. reflexivity.
Defined.

Lemma py_index_last {A} (l : list A) (x : A) :
  py_index (l ++ [x]) (Z.of_nat (length l)) = Some (length l)
  /\ py_index (l ++ [x]) (-1) = Some (length l).
Proof.
  unfold py_index. rewrite length_app. cbn [length].
  split.
  - replace (0 <=? Z.of_nat (length l)) with true
      by (symmetry; apply Z.leb_le; lia).
    replace (Z.of_nat (length l) <? Z.of_nat (length l + 1)) with true
      by (symmetry; apply Z.ltb_lt; lia).
    cbn [andb]. f_equal. lia.
  - replace (- Z.of_nat (length l + 1) <=? -1) with true
      by (symmetry; apply Z.leb_le; lia).
    cbn [Z.leb Z.ltb Z.compare andb]. f_equal. lia.
Qed.

Lemma delete_last {A} (l : list A) (x : A) : delete (length l) (l ++ [x]) = l.
Proof. rewrite (delete_middle l [] x). apply app_nil_r. Qed.

(** X4. How [add], [get] and [remove] compose.  Adding a schedule without
    id gives it the id [len], after which [get] of that id returns it,
    [exists] of that id is true and every smaller id still yields what it
    yielded before; removing that id again, or the id [-1], gives back the
    collection as it was. *)
Theorem add_then_get_then_remove (self : Scheduler.t) (s : Schedule.t) :
  Schedule.id s = VNone ->
  let n := Z.of_nat (length (Scheduler._schedules self)) in
  exists self' s',
    Scheduler.add self s = Ok (self', s')
    /\ Schedule.id s' = VInt n
    /\ Scheduler.get self' n = Ok s'
    /\ Scheduler.exists_ self' n = true
    /\ (forall i, 0 <= i < n -> Scheduler.get self' i = Scheduler.get self i)
    /\ Scheduler.remove self' n = self
    /\ Scheduler.remove self' (-1) = self.
Proof.
  intros Hid n. unfold Scheduler.add. rewrite Hid.
  set (l := Scheduler._schedules self). fold l in n.
  set (s' := Schedule.set_id s (VInt (Z.of_nat (length l)))).
  eexists _, s'. split; [reflexivity|]. split; [reflexivity|].
  destruct (py_index_last l s') as [Hn Hm1].
  split; [|split; [|split; [|split]]].
  - unfold Scheduler.get. cbn [Scheduler._schedules Scheduler.set_schedules].
    unfold n. rewrite Hn. rewrite lookup_app_r by lia.
    rewrite Nat.sub_diag. reflexivity.
  - unfold Scheduler.exists_.
    cbn [Scheduler._schedules Scheduler.set_schedules]. unfold n.
    rewrite Hn. reflexivity.
  - intros i Hi. unfold Scheduler.get.
    cbn [Scheduler._schedules Scheduler.set_schedules]. fold l.
    assert (Hidx : forall x, py_index (l ++ [x]) i = Some (Z.to_nat i)
                             /\ py_index l i = Some (Z.to_nat i)).
    { intros x. unfold py_index. rewrite length_app. cbn [length].
      replace (0 <=? i) with true by (symmetry; apply Z.leb_le; lia).
      replace (i <? Z.of_nat (length l + 1)) with true
        by (symmetry; apply Z.ltb_lt; unfold n in Hi; lia).
      replace (i <? Z.of_nat (length l)) with true
        by (symmetry; apply Z.ltb_lt; unfold n in Hi; lia).
      split; reflexivity. }
    destruct (Hidx s') as [-> ->].
    rewrite lookup_app_l by (unfold n in Hi; lia). reflexivity.
  - unfold Scheduler.remove.
    cbn [Scheduler._schedules Scheduler.set_schedules]. unfold n.
    rewrite Hn, delete_last. destruct self; reflexivity.
  - unfold Scheduler.remove.
    cbn [Scheduler._schedules Scheduler.set_schedules].
    rewrite Hm1, delete_last. destruct self; reflexivity.
Qed.

Lemma add_then_get_then_remove_witness :
  let self := Scheduler.set_schedules Scheduler.init [window_schedule] in
  let s := Schedule.init ManagerObj in
  exists self' s',
    Scheduler.add self s = Ok (self', s')
    /\ Schedule.id s' = VInt 1
    /\ Scheduler.get self' 1 = Ok s'
    /\ Scheduler.remove self' 1 = self.
Proof.
  intros self s.
  destruct (add_then_get_then_remove self s eq_refl)
    as (self' & s' & Hadd & Hid & Hget & _ & _ & Hrm & _).
  exists self', s'. repeat split; assumption.
Defined.

Lemma from_config_keeps_id ccu items self self' :
  Schedule.from_config ccu self (VDict items) = Ok self' ->
  ~ In "id" (map fst items) ->
  Schedule.id self' = Schedule.id self.
Proof.
  intros Hload Hnot. unfold Schedule.from_config in Hload.
  cbn [py_items bind] in Hload.
  pose proof (from_config_items_frame _ _ _ _ "id" Hload Hnot) as Hframe.
  unfold instance_attr in Hframe. cbn [String.eqb Ascii.eqb Bool.eqb] in Hframe.
  congruence.
Qed.





(** X6. What [remove] does to the ids.  In a collection whose ids are
    positions, removing the entry at position [k] leaves every later
    schedule with an [id] one above its new position.  Saving such a
    schedule through [add] therefore replaces its successor, or raises
    [IndexError] when it is the last one. *)
Theorem remove_leaves_stale_ids (self : Scheduler.t) (k : nat) :
  let l := Scheduler._schedules self in
  ids_match_positions l ->
  (k < length l)%nat ->
  let self' := Scheduler.remove self (Z.of_nat k) in
  let l' := Scheduler._schedules self' in
  forall j s,
    (k <= j)%nat -> l' !! j = Some s ->
    Schedule.id s = VInt (Z.of_nat (S j))
    /\ Scheduler.add self' s
       = if (S j <? length l')%nat
         then Ok (Scheduler.set_schedules self' (<[S j := s]> l'), s)
         else Raise IndexError.
Proof.
  intros l Hids Hk self' l' j s Hj Hlook.
  assert (Hl' : l' = delete k l).
  { unfold l', self', Scheduler.remove. fold l.
    destruct (py_index_in_range l (Z.of_nat k)) as [-> _]; [lia|].
    cbn [Scheduler._schedules Scheduler.set_schedules].
    unfold position. replace (Z.of_nat k <? 0) with false
      by (symmetry; apply Z.ltb_ge; lia).
    rewrite Nat2Z.id. reflexivity. }
  assert (Hid : Schedule.id s = VInt (Z.of_nat (S j))).
  { apply Hids. rewrite Hl' in Hlook.
    rewrite list_lookup_delete_ge in Hlook by exact Hj. exact Hlook. }
  split; [exact Hid|].
  unfold Scheduler.add. rewrite Hid. cbn [Scheduler.as_index bind].
  fold l'.
  destruct (Nat.ltb_spec (S j) (length l')) as [Hlt|Hge].
  - destruct (py_index_in_range l' (Z.of_nat (S j))) as [-> _]; [lia|].
    unfold position. replace (Z.of_nat (S j) <? 0) with false
      by (symmetry; apply Z.ltb_ge; lia).
    rewrite Nat2Z.id. reflexivity.
  - rewrite py_index_out_of_range by lia. reflexivity.
Qed.

Lemma remove_leaves_stale_ids_witness :
  exists self0,
    Scheduler.load (Some []) Scheduler.init (Scheduler.ReadOk example_store)
    = Done self0
    /\ let self' := Scheduler.remove self0 0 in
       map Schedule.id (Scheduler._schedules self') = [VInt 1; VInt 2]
       /\ forall s, Scheduler._schedules self' !! 1%nat = Some s ->
                    Scheduler.add self' s = Raise IndexError.
Proof.
  eexists. split; [vm_compute; reflexivity|].
  split; [reflexivity|].
  intros s Hs.
  match goal with
  | |- Scheduler.add (Scheduler.remove ?self0 0) s = _ =>
      destruct (remove_leaves_stale_ids self0 0%nat) with (j := 1%nat) (s := s)
        as [_ Hadd]
  end.
  - intros i x Hx. destruct i as [|[|[|i]]]; try discriminate Hx;
      injection Hx as <-; reflexivity.
  - cbn. lia.
  - lia.
  - exact Hs.
  - exact Hadd.
Defined.

(** ** Saving and loading the whole collection *)

(** One schedule through [to_config] and back into a new schedule, the
    entries taken in the order [to_config] wrote them. *)
Lemma schedule_through_config devices s :
  writable devices s ->
  exists cfg s',
    Schedule.to_config s = Ok cfg
    /\ Schedule.from_config (Some devices) (Schedule.init ManagerObj) cfg = Ok s'
    /\ Schedule.id s' = VNone
    /\ sched_equiv s s'.
Proof.
  intros [Hcall Hall].
  destruct (conditions_to_config_total devices _ Hall) as [cfgs Hcfgs].
  unfold Schedule.to_config, Schedule.method. rewrite Hcall, Hcfgs. cbn [bind].
  set (items := [("name", Schedule.name s);
                 ("keep_running", Schedule.keep_running s);
                 ("script", Schedule.script s); ("conditions", VList cfgs)]).
  assert (Hnd : NoDup (map fst items)).
  { cbn. repeat constructor; rewrite list_elem_of_In; cbn;
      intuition discriminate. }
  destruct (from_config_items_roundtrip devices _ cfgs Hall Hcfgs items
              (Schedule.init ManagerObj) eq_refl eq_refl Hnd)
    as (s' & Hload & Hin & _); [repeat constructor; cbn; tauto|].
  exists (VDict items), s'. split; [reflexivity|].
  split; [exact Hload|].
  assert (Hval : forall key val,
    In (key, val) items -> key <> "conditions" ->
    instance_attr s' key = Some (AVal val)).
  { intros key val Hk Hne. eapply from_config_items_sets; eassumption. }
  split.
  - rewrite (from_config_keeps_id (Some devices) items _ _ Hload);
      [reflexivity|].
    cbn. intuition discriminate.
  - destruct (instance_attr_fields s') as (Hn & Hk & Hs).
    assert (H1 : instance_attr s' "name" = Some (AVal (Schedule.name s)))
      by (apply Hval; [cbn; tauto|discriminate]).
    assert (H2 : instance_attr s' "keep_running"
                 = Some (AVal (Schedule.keep_running s)))
      by (apply Hval; [cbn; tauto|discriminate]).
    assert (H3 : instance_attr s' "script" = Some (AVal (Schedule.script s)))
      by (apply Hval; [cbn; tauto|discriminate]).
    destruct Hin as (cs' & Hconds & Hequiv); [cbn; tauto|].
    unfold sched_equiv. rewrite Hconds.
    repeat split; try congruence. exact Hequiv.
Qed.

Lemma load_schedules_through_config devices l : forall cfgs self,
  Forall (writable devices) l ->
  Scheduler.schedules_to_config l = Ok cfgs ->
  exists l',
    Scheduler.load_schedules (Some devices) self cfgs
    = Ok (Scheduler.set_schedules self (Scheduler._schedules self ++ l'))
    /\ Forall2 sched_equiv l l'
    /\ (forall i s, l' !! i = Some s ->
          Schedule.id s
          = VInt (Z.of_nat (length (Scheduler._schedules self) + i))).
Proof.
  induction l as [|s l IH]; intros cfgs self Hall Hcfg.
  - injection Hcfg as <-. exists []. rewrite app_nil_r.
    split; [destruct self; reflexivity|]. split; [constructor|].
    intros i x H. destruct i; discriminate H.
  - inversion Hall as [|? ? Hs Hrest]; subst.
    destruct (schedule_through_config devices s Hs)
      as (cfg & s' & Hto & Hfrom & Hid & Hequiv).
    cbn [Scheduler.schedules_to_config] in Hcfg. rewrite Hto in Hcfg.
    cbn [bind] in Hcfg.
    destruct (Scheduler.schedules_to_config l) as [cfgs'|]; cbn [bind] in Hcfg;
      [|discriminate].
    injection Hcfg as <-.
    cbn [Scheduler.load_schedules]. rewrite Hfrom. cbn [bind].
    unfold Scheduler.add. rewrite Hid. cbn [bind fst].
    set (s'' := Schedule.set_id s' _).
    destruct (IH cfgs' (Scheduler.set_schedules self
                          (Scheduler._schedules self ++ [s''])) Hrest eq_refl)
      as (l' & Hload & Hl' & Hids).
    exists (s'' :: l'). split; [|split].
    + rewrite Hload. cbn [Scheduler._schedules Scheduler.set_schedules].
      rewrite <- app_assoc. reflexivity.
    + constructor; [|exact Hl'].
      destruct Hequiv as (H1 & H2 & H3 & H4). repeat split; assumption.
    + intros [|i] x Hx.
      * injection Hx as <-. cbn. f_equal. lia.
      * cbn in Hx. rewrite (Hids i x Hx).
        cbn [Scheduler._schedules Scheduler.set_schedules].
        rewrite length_app. cbn [length]. f_equal. lia.
Qed.

Lemma schedules_to_config_total devices l :
  Forall (writable devices) l ->
  exists cfgs, Scheduler.schedules_to_config l = Ok cfgs.
Proof.
  induction 1 as [|s l Hs _ [cfgs IH]]; [exists []; reflexivity|].
  destruct (schedule_through_config devices s Hs) as (cfg & _ & Hto & _).
  cbn [Scheduler.schedules_to_config]. rewrite Hto, IH. cbn [bind]. eauto.
Qed.

(** X7. The store written by [Scheduler.save] can be read back.  For a
    collection of writable schedules, [save] returns a document, and
    [Scheduler.load] of that document into a new scheduler, against the
    same catalog, succeeds and yields as many schedules, each equivalent to
    the one saved at its position and carrying that position as [id]. *)
Theorem save_then_load (devices : Catalog) (self : Scheduler.t) :
  Forall (writable devices) (Scheduler._schedules self) ->
  exists doc self',
    Scheduler.save self = Ok doc
    /\ Scheduler.load (Some devices) Scheduler.init (Scheduler.ReadOk doc)
       = Done self'
    /\ Forall2 sched_equiv (Scheduler._schedules self) (Scheduler._schedules self')
    /\ ids_match_positions (Scheduler._schedules self').
Proof.
  intros Hall.
  destruct (schedules_to_config_total devices _ Hall) as [cfgs Hcfgs].
  destruct (load_schedules_through_config devices _ cfgs Scheduler.init Hall
              Hcfgs) as (l' & Hload & Hequiv & Hids).
  unfold Scheduler.save. rewrite Hcfgs. cbn [bind].
  eexists _, _. split; [reflexivity|].
  unfold Scheduler.load. cbn [Scheduler.read_store py_iter bind].
  rewrite Hload. split; [reflexivity|].
  cbn [Scheduler._schedules Scheduler.set_schedules Scheduler.init app].
  split; [exact Hequiv|].
  intros i s Hs. rewrite (Hids i s Hs). reflexivity.
Qed.

Lemma save_then_load_witness :
  let self := Scheduler.set_schedules Scheduler.init [window_schedule] in
  exists doc self',
    Scheduler.save self = Ok doc
    /\ Scheduler.load (Some other_catalog) Scheduler.init (Scheduler.ReadOk doc)
       = Done self'
    /\ Forall2 sched_equiv (Scheduler._schedules self) (Scheduler._schedules self')
    /\ ids_match_positions (Scheduler._schedules self').
Proof.
  apply (save_then_load other_catalog).
  repeat constructor.
  exists window_device, contact_channel, state_param. repeat split.
Defined.

(** ** The registry of condition classes *)

(** X8. [Condition.get] finds a class exactly by its own [type_name]: it
    returns the class [c] if and only if the name asked for is the string
    [c.type_name]; the four names are distinct, and anything that is not
    one of them (the empty name of the base class included) yields
    [None]. *)
Theorem get_finds_class_by_name (type_name : value) (c : Condition.cls) :
  Condition.get type_name = Some c
  <-> type_name = VStr (Condition.class_type_name c).
Proof.
  split.
  - destruct type_name as [| | |s| |]; try discriminate.
    unfold Condition.get, Condition.subclasses. cbn [find].
    repeat match goal with
    | |- context [String.eqb (Condition.class_type_name ?k) s] =>
        destruct (String.eqb_spec (Condition.class_type_name k) s) as [<-|_];
        [intros [= <-]; reflexivity|]
    end.
    discriminate.
  - intros ->. apply get_class_type_name.
Qed.

(** ** Saving one schedule *)

Lemma unresolved_to_config_raises c :
  Condition.class_of c = Condition.ConditionOnDeviceEvent ->
  Condition.device c = None \/ Condition.channel c = None
  \/ Condition.param c = None ->
  exists e, Condition.to_config c = Raise e.
Proof.
  intros Hcls Hnone. unfold Condition.to_config. rewrite Hcls.
  destruct (dict_get (Condition.attrs c) "to_config"); [eauto|].
  unfold Condition.device_event_to_config.
  destruct (Condition.device c); [|eauto].
  destruct (Condition.channel c); [|eauto].
  destruct (Condition.param c); [|eauto].
  destruct Hnone as [H|[H|H]]; discriminate H.
Qed.

(** X9. [Schedule.save] registers before it writes.  A new schedule (no id
    yet) is appended to the collection under the id [len] first; when the
    write that follows raises, as it does if the schedule holds an
    on-device-event condition with an unresolved reference, the schedule is
    in the collection all the same, and every later [Scheduler.save] raises
    too. *)
Theorem schedule_save_registers_first (scheduler : Scheduler.t)
    (self : Schedule.t) :
  dict_get (Schedule.attrs self) "save" = None ->
  Schedule._manager self = ManagerObj ->
  Schedule.id self = VNone ->
  let n := length (Scheduler._schedules scheduler) in
  let self' := Schedule.set_id self (VInt (Z.of_nat n)) in
  let scheduler' :=
    Scheduler.set_schedules scheduler (Scheduler._schedules scheduler ++ [self']) in
  Schedule_save scheduler self
  = Ok (scheduler', self', Scheduler.save scheduler')
  /\ Scheduler._schedules scheduler' !! n = Some self'
  /\ (forall c,
         In c (Schedule.conditions self) ->
         Condition.class_of c = Condition.ConditionOnDeviceEvent ->
         Condition.device c = None \/ Condition.channel c = None
         \/ Condition.param c = None ->
         exists e, Scheduler.save scheduler' = Raise e).
Proof.
  intros Hm Hmgr Hid n self' scheduler'.
  split; [|split].
  - unfold Schedule_save, Schedule.method. rewrite Hm, Hmgr. cbn [bind].
    unfold Scheduler.add. rewrite Hid. reflexivity.
  - unfold scheduler'. cbn [Scheduler._schedules Scheduler.set_schedules].
    rewrite lookup_app_r by (unfold n; lia). unfold n.
    rewrite Nat.sub_diag. reflexivity.
  - intros c Hc Hcls Hnone. unfold Scheduler.save.
    destruct (schedules_to_config_raise self' (Scheduler._schedules scheduler'))
      as [e ->].
    + unfold scheduler'. cbn [Scheduler._schedules Scheduler.set_schedules].
      apply in_or_app. right. left. reflexivity.
    + apply (schedule_to_config_raise c); [exact Hc|].
      apply unresolved_to_config_raises; assumption.
    + cbn [bind]. eauto.
Qed.

Lemma schedule_save_registers_first_witness :
  let c := Condition.init Condition.ConditionOnDeviceEvent ManagerObj in
  let s := Schedule.set_conditions (Schedule.init ManagerObj) [c] in
  exists scheduler' s',
    Schedule_save Scheduler.init s = Ok (scheduler', s', Raise AttributeError)
    /\ Scheduler._schedules scheduler' = [s']
    /\ Scheduler.save scheduler' = Raise AttributeError.
Proof.
  intros c s.
  destruct (schedule_save_registers_first Scheduler.init s eq_refl eq_refl eq_refl)
    as (Hsave & _ & _).
  eexists _, _. split; [exact Hsave|]. split; reflexivity.
Defined.

(** ** Conditions on the edit page *)

Lemma given_Some x s : given x = Some s -> x = Some s /\ s <> "".
Proof.
  unfold given. destruct x as [t|]; [|discriminate].
  destruct (String.eqb_spec t ""); [discriminate|].
  intros [= <-]. split; [reflexivity|assumption].
Qed.

Lemma given_nonempty s : s <> "" -> given (Some s) = Some s.
Proof.
  intros Hs. unfold given. destruct (String.eqb_spec s ""); [contradiction|].
  reflexivity.
Qed.

(** X10. The edit form and the store loader build the same condition.
    Given the same four values (none of them empty, the event type one of
    the two the form offers), [set_submitted_vars] leaves a new
    on-device-event condition in exactly the state in which [from_config]
    returns it; the form raises an error exactly when the catalog does not
    resolve the references, where the loader returns in silence. *)
Theorem form_and_loader_agree (devices : Catalog) (c0 : Condition.t)
    (vars : form_vars) (varprefix : string) (cfg : value) (a ca id et : string) :
  Condition.class_of c0 = Condition.ConditionOnDeviceEvent ->
  Condition._manager c0 = ManagerObj ->
  a <> "" -> ca <> "" -> id <> "" -> et <> "" ->
  vars (varprefix ++ "device_address")%string = Some a ->
  vars (varprefix ++ "channel_address")%string = Some ca ->
  vars (varprefix ++ "param_id")%string = Some id ->
  vars (varprefix ++ "event_type")%string = Some et ->
  et = "updated" \/ et = "changed" ->
  py_getitem cfg "device_address" = Ok (VStr a) ->
  py_getitem cfg "channel_address" = Ok (VStr ca) ->
  py_getitem cfg "param_id" = Ok (VStr id) ->
  py_getitem cfg "event_type" = Ok (VStr et) ->
  exists c,
    Condition.from_config (Some devices) c0 cfg = Ok c
    /\ fst (set_submitted_vars (Some devices) c0 vars varprefix) = c
    /\ (snd (set_submitted_vars (Some devices) c0 vars varprefix) = None
        <-> exists r, resolve devices (VStr a) (VStr ca) (VStr id) = Some r).
Proof.
  intros Hcls Hm Ha Hca Hid Het Va Vca Vid Vet Hvalid Ca Cca Cid Cet.
  unfold Condition.from_config, set_submitted_vars. rewrite Hcls.
  unfold Condition.device_event_from_config, device_event_set_submitted_vars,
    Condition.devices_of, resolve.
  rewrite Hm, Va, Vca, Vid, Vet, Ca, Cca, Cid, Cet.
  rewrite !given_nonempty by assumption. cbn [bind].
  cbn [Condition.device Condition.set_device].
  destruct (query_get devices (VStr a)) as [d|].
  - destruct (channel_by_address d (VStr ca)) as [c|e] eqn:Hch; cbn [bind].
    + cbn [Condition.param Condition.set_param].
      destruct (values_get c (VStr id)) as [p|].
      * assert (Hev : dict_get _event_types et <> None)
          by (destruct Hvalid as [->| ->]; discriminate).
        destruct (dict_get _event_types et); [|contradiction].
        eexists. split; [reflexivity|]. split; [reflexivity|].
        cbn [snd]. split; eauto.
      * eexists. split; [reflexivity|]. split; [reflexivity|].
        cbn [snd]. split; [discriminate|intros [r Hr]; discriminate].
    + rewrite (channel_by_address_raises _ _ _ Hch).
      eexists. split; [reflexivity|]. split; [reflexivity|].
      cbn [snd]. split; [discriminate|intros [r Hr]; discriminate].
  - eexists. split; [reflexivity|]. split; [reflexivity|].
    cbn [snd]. split; [discriminate|intros [r Hr]; discriminate].
Qed.

Lemma form_and_loader_agree_witness :
  let c0 := Condition.init Condition.ConditionOnDeviceEvent ManagerObj in
  exists c,
    Condition.from_config (Some other_catalog) c0 window_cfg = Ok c
    /\ fst (set_submitted_vars (Some other_catalog) c0 window_vars "cond_1_") = c
    /\ snd (set_submitted_vars (Some other_catalog) c0 window_vars "cond_1_")
       = None
    /\ Condition.param c = Some state_param.
Proof.
  intros c0.
  destruct (form_and_loader_agree other_catalog c0 window_vars "cond_1_"
              window_cfg "LEQ1234567" "LEQ1234567:1" "STATE" "changed")
    as (c & Hfrom & Hform & Herr);
    try reflexivity; try discriminate; [right; reflexivity|].
  exists c. split; [exact Hfrom|]. split; [exact Hform|].
  split; [apply Herr; eexists; reflexivity|].
  vm_compute in Hfrom. injection Hfrom as <-. reflexivity.
Defined.

(** X11. The edit form validates the event type.  Whatever is submitted,
    and whether or not the call ends in an error, [set_submitted_vars]
    leaves a condition whose event type was unset or valid with an event
    type that is unset, [updated] or [changed]. *)
Theorem set_submitted_vars_event_type (ccu : option Catalog)
    (self : Condition.t) (vars : form_vars) (varprefix : string) :
  valid_event_type (Condition.event_type self) ->
  valid_event_type
    (Condition.event_type (fst (set_submitted_vars ccu self vars varprefix))).
Proof.
  intros Hvalid. unfold set_submitted_vars.
  destruct (Condition.class_of self); try exact Hvalid.
  unfold device_event_set_submitted_vars.
  repeat match goal with
  | |- context [match given ?x with _ => _ end] => destruct (given x)
  | |- context [match Condition.devices_of ?x ?y with _ => _ end] =>
      destruct (Condition.devices_of x y)
  | |- context [match Condition.device ?x with _ => _ end] =>
      destruct (Condition.device x)
  | |- context [match channel_by_address ?x ?y with _ => _ end] =>
      destruct (channel_by_address x y) as [?|[]]
  | |- context [match Condition.param ?x with _ => _ end] =>
      destruct (Condition.param x)
  | |- context [match dict_get _event_types ?x with _ => _ end] =>
      destruct (dict_get _event_types x) eqn:Hev
  end; cbn [fst]; try exact Hvalid.
  unfold _event_types in Hev. cbn [dict_get] in Hev.
  cbn [Condition.event_type Condition.set_event_type].
  unfold valid_event_type.
  match goal with
  | |- _ \/ VStr ?x = _ \/ _ =>
      destruct (String.eqb_spec "updated" x) as [<-|_];
        [right; left; reflexivity|];
      destruct (String.eqb_spec "changed" x) as [<-|_];
        [right; right; reflexivity|discriminate]
  end.
Qed.

Lemma set_submitted_vars_event_type_witness :
  let c0 := Condition.init Condition.ConditionOnDeviceEvent ManagerObj in
  let vars := fun name =>
    if String.eqb name "cond_1_event_type" then Some "deleted"
    else window_vars name in
  set_submitted_vars (Some other_catalog) c0 vars "cond_1_"
  = (Condition.set_param
       (Condition.set_channel
          (Condition.set_device c0 (Some window_device))
          (Some contact_channel))
       (Some state_param),
     Some (PMUserError (VStr "Invalid event type given.")))
  /\ valid_event_type
       (Condition.event_type
          (fst (set_submitted_vars (Some other_catalog) c0 vars "cond_1_"))).
Proof.
  intros c0 vars. split; [reflexivity|].
  apply set_submitted_vars_event_type. left. reflexivity.
Defined.

(** X12. What the schedule page can display.  For an on-device-event
    condition (with no instance attribute besides its [id]) [display]
    returns a text if and only if device, channel and parameter are set and
    the event type is [updated] or [changed]; in every other state, the one
    a stale record is loaded into among them, it raises. *)
Theorem display_needs_resolved_condition (c : Condition.t) :
  Condition.class_of c = Condition.ConditionOnDeviceEvent ->
  only_id_attr c ->
  (exists txt, display c = Ok txt)
  <-> (Condition.device c <> None /\ Condition.channel c <> None
       /\ Condition.param c <> None
       /\ (Condition.event_type c = VStr "updated"
           \/ Condition.event_type c = VStr "changed")).
Proof.
  intros Hcls Hattrs. unfold display, device_event_display, base_display.
  rewrite (Hattrs "display") by discriminate.
  rewrite (Hattrs "type_title") by discriminate.
  rewrite Hcls.
  destruct (Condition.device c) as [d|];
    [|split; [intros [? H]; discriminate H|intros [H _]; contradiction]].
  destruct (Condition.channel c) as [ch|];
    [|split; [intros [? H]; discriminate H|intros (_ & H & _); contradiction]].
  destruct (Condition.param c) as [p|];
    [|split; [intros [? H]; discriminate H
             |intros (_ & _ & H & _); contradiction]].
  unfold event_type_title.
  destruct (Condition.event_type c) as [| | |s| |];
    try (split; [intros [? H]; discriminate H
                |intros (_ & _ & _ & [H|H]); discriminate H]).
  unfold _event_types. cbn [dict_get].
  destruct (String.eqb_spec "updated" s) as [<-|Hu].
  - cbn [bind]. split; [intros _; repeat split; try discriminate; tauto|eauto].
  - destruct (String.eqb_spec "changed" s) as [<-|Hc].
    + cbn [bind]. split; [intros _; repeat split; try discriminate; tauto|eauto].
    + cbn [bind]. split; [intros [? H]; discriminate H|].
      intros (_ & _ & _ & [[= H]|[= H]]); congruence.
Qed.

Lemma display_needs_resolved_condition_witness :
  display window_condition
  = Ok (VStr "on device event: Window, Contact, State, Value changed")
  /\ display (Condition.init Condition.ConditionOnDeviceEvent ManagerObj)
     = Raise AttributeError.
Proof.
  assert (Hattrs : only_id_attr window_condition).
  { intros k Hk. unfold window_condition. cbn [Condition.attrs dict_get].
    destruct (String.eqb_spec "id" k); [congruence|reflexivity]. }
  destruct (display_needs_resolved_condition window_condition eq_refl Hattrs)
    as [_ Hback].
  destruct Hback as [txt Htxt].
  - repeat split; try discriminate. right. reflexivity.
  - split; [|reflexivity]. rewrite Htxt. vm_compute in Htxt. symmetry.
    exact Htxt.
Defined.

(** ** Escaping text for HTML *)

Lemma append_cons x a b : (String x a ++ b)%string = String x (a ++ b)%string.
Proof. reflexivity. Qed.

Lemma append_nil b : (EmptyString ++ b)%string = b.
Proof. reflexivity. Qed.

Ltac unfold_append := rewrite ?append_cons, ?append_nil.

Lemma occurs_app c a b : occurs c (a ++ b)%string = occurs c a || occurs c b.
Proof.
  induction a as [|x a IH]; unfold_append; cbn [occurs]; [reflexivity|].
  rewrite IH, orb_assoc. reflexivity.
Qed.

Ltac ascii_cases c :=
  unfold Html.html_escape_table; cbn [Html.table_get];
  destruct (Ascii.eqb_spec "&"%char c) as [?|?];
  [|destruct (Ascii.eqb_spec dquote c) as [?|?];
    [|destruct (Ascii.eqb_spec "'"%char c) as [?|?];
      [|destruct (Ascii.eqb_spec ">"%char c) as [?|?];
        [|destruct (Ascii.eqb_spec "<"%char c) as [?|?]]]]].

(** X13. Escaped text is safe to embed: whatever the text, the result of
    [Html.escape] holds no [<], no [>], no double quote and no single
    quote. *)
Theorem escape_leaves_no_markup (text : string) (c : Ascii.ascii) :
  c = "<"%char \/ c = ">"%char \/ c = dquote \/ c = "'"%char ->
  occurs c (Html.escape text) = false.
Proof.
  intros Hc. induction text as [|x text IH]; [reflexivity|].
  cbn [Html.escape]. rewrite occurs_app, IH, orb_false_r.
  ascii_cases x; subst;
    try (destruct Hc as [->|[->|[->| ->]]]; reflexivity).
  cbn [occurs]. rewrite orb_false_r.
  destruct (Ascii.eqb_spec x c) as [->|_]; [|reflexivity].
  destruct Hc as [->|[->|[->| ->]]]; congruence.
Qed.

Lemma escape_leaves_no_markup_witness :
  Html.escape "<b>Tom & 'Jerry'</b>"
  = "&lt;b&gt;Tom &amp; &apos;Jerry&apos;&lt;/b&gt;"
  /\ occurs "<"%char (Html.escape "<b>Tom & 'Jerry'</b>") = false.
Proof.
  split; [reflexivity|].
  apply escape_leaves_no_markup. left. reflexivity.
Defined.

(** X14. [Html.escape] loses nothing: two texts with the same escaped form
    are the same text. *)
Theorem escape_injective (a b : string) :
  Html.escape a = Html.escape b -> a = b.
Proof.
  revert b. induction a as [|x a IH]; intros [|y b] H.
  - reflexivity.
  - exfalso. cbn [Html.escape] in H. revert H.
    ascii_cases y; unfold_append; discriminate.
  - exfalso. cbn [Html.escape] in H. revert H.
    ascii_cases x; unfold_append; discriminate.
  - cbn [Html.escape] in H. revert H.
    ascii_cases x; ascii_cases y; subst; unfold_append; intros H;
      try discriminate H;
      try (injection H as H; f_equal; apply IH; exact H);
      try (injection H as ? H; subst; f_equal; apply IH; exact H);
      try (injection H as ? ?; subst; congruence).
Qed.

Lemma string_length_app a b :
  String.length (a ++ b)%string = (String.length a + String.length b)%nat.
Proof.
  induction a as [|x a IH]; unfold_append; cbn [String.length Nat.add];
    [reflexivity|].
  rewrite IH. reflexivity.
Qed.

Lemma escape_length text :
  (String.length text <= String.length (Html.escape text))%nat
  /\ (String.length (Html.escape text) = String.length text ->
      forall c, Html.escaped c = true -> occurs c text = false).
Proof.
  induction text as [|x text [IHle IHeq]]; [split; [cbn; lia|reflexivity]|].
  cbn [Html.escape]. rewrite string_length_app. cbn [String.length].
  assert (Hx : (1 <= String.length (Html.table_get Html.html_escape_table x))%nat
               /\ (String.length (Html.table_get Html.html_escape_table x) = 1%nat
                   -> Html.escaped x = false)).
  { unfold Html.escaped. cbn [existsb Html.html_escape_table fst].
    ascii_cases x; subst; cbn [String.length]; (split; [lia|]);
      try discriminate.
    intros _.
    repeat match goal with
    | |- context [Ascii.eqb ?k x] =>
        destruct (Ascii.eqb_spec k x); [congruence|]
    end.
    reflexivity. }
  destruct Hx as [Hx1 Hx2]. split; [lia|].
  intros Hlen c Hc. cbn [occurs].
  rewrite (IHeq ltac:(lia) c Hc), orb_false_r.
  destruct (Ascii.eqb_spec x c) as [->|_]; [|reflexivity].
  rewrite Hx2 in Hc by lia. discriminate.
Qed.

Lemma escape_plain text :
  (forall c, Html.escaped c = true -> occurs c text = false) ->
  Html.escape text = text.
Proof.
  induction text as [|x text IH]; intros Hplain; [reflexivity|].
  cbn [Html.escape]. rewrite IH.
  - assert (Hx : Html.escaped x = false).
    { destruct (Html.escaped x) eqn:Hx; [|reflexivity].
      specialize (Hplain x Hx). cbn [occurs] in Hplain.
      rewrite Ascii.eqb_refl in Hplain. discriminate. }
    unfold Html.escaped in Hx. cbn [existsb Html.html_escape_table fst] in Hx.
    ascii_cases x; subst; try discriminate Hx. reflexivity.
  - intros c Hc. specialize (Hplain c Hc). cbn [occurs] in Hplain.
    apply orb_false_elim in Hplain. tauto.
Qed.

(** X15. Escaping twice is not escaping once.  [Html.escape] returns a text
    unchanged exactly when the text holds none of the five characters of
    the table, and escaping an escaped text changes it again unless the
    original was such a text. *)
Theorem escape_twice (text : string) :
  (Html.escape text = text
   <-> forall c, Html.escaped c = true -> occurs c text = false)
  /\ (Html.escape (Html.escape text) = Html.escape text
      <-> Html.escape text = text).
Proof.
  assert (Hfix : forall t,
    Html.escape t = t
    <-> forall c, Html.escaped c = true -> occurs c t = false).
  { intros t. split; [|apply escape_plain].
    intros Heq. apply (proj2 (escape_length t)). rewrite Heq. reflexivity. }
  split; [apply Hfix|].
  split.
  - intros H. apply escape_injective. exact H.
  - intros H. rewrite H. exact H.
Qed.

(** ** Static files and page dispatch *)

Lemma contains_tail pat c s : contains pat (String c s) = false -> contains pat s = false.
Proof.
  cbn [contains]. intros H. apply orb_false_elim in H. tauto.
Qed.

Lemma contains_drop_chars pat n : forall s,
  contains pat s = false -> contains pat (drop_chars n s) = false.
Proof.
  induction n as [|n IH]; intros s H; [exact H|].
  destruct s as [|c s]; [exact H|]. cbn [drop_chars].
  apply IH. eapply contains_tail. exact H.
Qed.

Lemma contains_lstrip pat s :
  contains pat s = false -> contains pat (lstrip_slash s) = false.
Proof.
  induction s as [|c s IH]; intros H; [exact H|].
  cbn [lstrip_slash]. destruct (Ascii.eqb c "/"); [|exact H].
  apply IH. eapply contains_tail. exact H.
Qed.

Lemma lstrip_not_absolute s : String.prefix "/" (lstrip_slash s) = false.
Proof.
  induction s as [|c s IH]; [reflexivity|].
  cbn [lstrip_slash]. destruct (Ascii.eqb_spec c "/") as [->|Hne]; [exact IH|].
  cbn [String.prefix]. destruct (Ascii.ascii_dec "/" c) as [Heq|_];
    [congruence|reflexivity].
Qed.

(** X16. An absolute path behind [/scripts/] leaves the script directory.
    For every absolute path [q] without [..] that exists on the system, the
    request path [/scripts/] followed by [q] is accepted by
    [StaticFile.get], resolves to [q] itself whatever the configured
    directories are, and is dispatched to [StaticFile] whether or not a
    password is set and the client authenticated. *)
Theorem scripts_url_serves_absolute_paths (exists_ : string -> bool)
    (script_path static_path q : string) :
  String.prefix "/" q = true ->
  contains ".." q = false ->
  exists_ q = true ->
  let path_info := ("/scripts/" ++ q)%string in
  StaticFile.system_path_from_pathinfo script_path static_path path_info = q
  /\ StaticFile.get exists_ script_path static_path path_info = true
  /\ forall password_set authenticated,
       PageHandler.get password_set authenticated exists_ script_path
                       static_path path_info
       = PageHandler.StaticFile.
Proof.
  intros Habs Hdots Hex.
  destruct q as [|c q]; [discriminate Habs|].
  cbn [String.prefix] in Habs.
  destruct (Ascii.ascii_dec "/" c) as [<-|]; [|discriminate Habs].
  intros path_info. subst path_info. unfold_append.
  match goal with
  | |- StaticFile.system_path_from_pathinfo _ _ ?p = _ /\ _ =>
      set (path_info := p)
  end.
  assert (Hsys : StaticFile.system_path_from_pathinfo script_path static_path
                   path_info = String "/" q).
  { unfold StaticFile.system_path_from_pathinfo, path_info, path_join.
    cbn. rewrite Habs. reflexivity. }
  assert (Hc : contains ".." path_info = false).
  { cbn [contains] in Hdots. unfold path_info. exact Hdots. }
  assert (Hget : StaticFile.get exists_ script_path static_path path_info = true).
  { unfold StaticFile.get. rewrite Hsys, Hex, Hc. reflexivity. }
  split; [exact Hsys|]. split; [exact Hget|].
  intros pw auth. unfold PageHandler.get. rewrite Hget. reflexivity.
Qed.

Lemma scripts_url_serves_absolute_paths_witness :
  let exists_ := fun p => String.eqb p "/etc/passwd" in
  StaticFile.system_path_from_pathinfo "/etc/config/addons/pmatic/scripts"
    "/etc/config/addons/pmatic/manager_static" "/scripts//etc/passwd"
  = "/etc/passwd"
  /\ PageHandler.get true false exists_ "/etc/config/addons/pmatic/scripts"
       "/etc/config/addons/pmatic/manager_static" "/scripts//etc/passwd"
     = PageHandler.StaticFile.
Proof.
  intros exists_.
  destruct (scripts_url_serves_absolute_paths exists_
              "/etc/config/addons/pmatic/scripts"
              "/etc/config/addons/pmatic/manager_static" "/etc/passwd"
              eq_refl eq_refl eq_refl) as (Hsys & _ & Hget).
  split; [exact Hsys|apply Hget].
Defined.

(** X17. Where the other accepted paths resolve.  A path [StaticFile.get]
    accepts holds no [..]; outside [/scripts/] it resolves to the static
    directory followed by a relative remainder, and under [/scripts/] with a
    relative remainder to the script directory followed by it; in both
    cases the remainder holds no [..]. *)
Theorem accepted_paths_resolve_inside (exists_ : string -> bool)
    (script_path static_path path_info : string) :
  StaticFile.get exists_ script_path static_path path_info = true ->
  let file_path :=
    StaticFile.system_path_from_pathinfo script_path static_path path_info in
  exists_ file_path = true
  /\ contains ".." path_info = false
  /\ (String.prefix "/scripts/" path_info = false ->
      exists rest, file_path = path_join static_path rest
                   /\ String.prefix "/" rest = false
                   /\ contains ".." rest = false)
  /\ (String.prefix "/scripts/" path_info = true ->
      String.prefix "/" (drop_chars 9 path_info) = false ->
      file_path = path_join script_path (drop_chars 9 path_info)
      /\ contains ".." (drop_chars 9 path_info) = false).
Proof.
  intros Hget file_path. unfold StaticFile.get in Hget.
  destruct (contains ".." path_info) eqn:Hdots; [discriminate|].
  destruct (_ || _ || _ || _) in Hget; [|discriminate].
  split; [exact Hget|]. split; [reflexivity|].
  unfold file_path, StaticFile.system_path_from_pathinfo. split.
  - intros ->. exists (lstrip_slash path_info).
    split; [reflexivity|]. split; [apply lstrip_not_absolute|].
    apply contains_lstrip. exact Hdots.
  - intros -> _. split; [reflexivity|].
    apply contains_drop_chars. exact Hdots.
Qed.

Lemma accepted_paths_resolve_inside_witness :
  let exists_ := fun p =>
    String.eqb p "/etc/config/addons/pmatic/manager_static/css/pmatic.css" in
  StaticFile.get exists_ "/etc/config/addons/pmatic/scripts"
    "/etc/config/addons/pmatic/manager_static" "/css/pmatic.css" = true
  /\ StaticFile.system_path_from_pathinfo "/etc/config/addons/pmatic/scripts"
       "/etc/config/addons/pmatic/manager_static" "/css/pmatic.css"
     = "/etc/config/addons/pmatic/manager_static/css/pmatic.css".
Proof.
  intros exists_.
  destruct (accepted_paths_resolve_inside exists_
              "/etc/config/addons/pmatic/scripts"
              "/etc/config/addons/pmatic/manager_static" "/css/pmatic.css"
              eq_refl) as (_ & _ & Hstatic & _).
  split; [reflexivity|].
  destruct (Hstatic eq_refl) as (rest & Hpath & _). reflexivity.
Defined.

(** X18. The login gate of the dispatcher.  When a password is set and the
    client is not authenticated, [PageHandler.get] returns the login page
    for every url of a page, the pages [login] and [404] included; what it
    returns otherwise is [Page404] or [StaticFile], static files needing no
    login.  When no password is set or the client is authenticated, every
    page url yields its own page. *)
Theorem dispatch_login_gate (password_set authenticated : bool)
    (exists_ : string -> bool) (script_path static_path path_info : string) :
  let page := PageHandler.get password_set authenticated exists_ script_path
                              static_path path_info in
  (password_set = true -> authenticated = false ->
   (page = PageHandler.PageLogin
    <-> exists p, dict_get PageHandler.pages (PageHandler.base_url path_info)
                  = Some p)
   /\ (page = PageHandler.PageLogin \/ page = PageHandler.Page404
       \/ page = PageHandler.StaticFile))
  /\ (password_set = false \/ authenticated = true ->
      forall p,
        dict_get PageHandler.pages (PageHandler.base_url path_info) = Some p ->
        page = p).
Proof.
  intros page. unfold page, PageHandler.get. split.
  - intros -> ->. cbn [andb negb].
    destruct (dict_get PageHandler.pages (PageHandler.base_url path_info))
      as [p|].
    + split; [split; eauto|left; reflexivity].
    + destruct (StaticFile.get _ _ _ _).
      * split; [split; [discriminate|intros [? H]; discriminate H]|tauto].
      * split; [split; [discriminate|intros [? H]; discriminate H]|tauto].
  - intros Hopen p ->.
    destruct Hopen as [-> | ->]; [reflexivity|].
    destruct password_set; reflexivity.
Qed.

Lemma dispatch_login_gate_witness :
  PageHandler.get true false (fun _ => false) "/s" "/m" "/schedule"
  = PageHandler.PageLogin
  /\ PageHandler.get true true (fun _ => false) "/s" "/m" "/schedule"
     = PageHandler.PageSchedule.
Proof.
  destruct (dispatch_login_gate true false (fun _ => false) "/s" "/m"
              "/schedule") as [Hgate _].
  destruct (dispatch_login_gate true true (fun _ => false) "/s" "/m"
              "/schedule") as [_ Hopen].
  split.
  - apply (proj1 (Hgate eq_refl eq_refl)). eexists. reflexivity.
  - apply Hopen; [right; reflexivity|reflexivity].
Defined.

(** ** Running one script from the run page *)

Lemma end_runner_lookup now rs x i runner :
  Scheduler.end_runner now rs x !! i = Some runner ->
  ScriptRunner.is_alive runner = true ->
  rs !! i = Some runner.
Proof.
  unfold Scheduler.end_runner.
  destruct (rs !! fst x) as [old|] eqn:Hold; [|tauto].
  destruct (decide (fst x = i)) as [Heq|Hne].
  - rewrite Heq. rewrite list_lookup_insert_eq
      by (rewrite <- Heq; eapply lookup_lt_Some; exact Hold).
    intros [= <-]. discriminate.
  - rewrite list_lookup_insert_ne by exact Hne. tauto.
Qed.

Lemma execute_script_new st script now :
  PageRun.runners (PageRun._execute_script st script now)
    !! length (PageRun.runners st)
  = Some (ScriptRunner.start (ScriptRunner.init (VStr script) now)).
Proof.
  cbn [PageRun._execute_script PageRun.runners].
  rewrite lookup_app_r by lia. rewrite Nat.sub_diag. reflexivity.
Qed.

(** X19. One script at a time on the run page.  If no runner other than
    [g_runner] is alive, this stays so when a script thread ends and when
    [_handle_run] accepts a request.  While the current script is alive
    [_handle_run] raises, whatever was submitted.  When it accepts, the
    request named a script of the script directory, one runner was created
    for it, and that runner is [g_runner] and alive. *)
Theorem run_page_single_runner (scripts : result (list string))
    (vars : form_vars) (now : timestamp) (st : PageRun.state) :
  PageRun.single_runner st ->
  (forall r code, PageRun.single_runner (PageRun.thread_ends st r code now))
  /\ (PageRun._is_running st = true ->
      exists e, PageRun._handle_run scripts vars now st = Raise e)
  /\ (forall st',
         PageRun._handle_run scripts vars now st = Ok st' ->
         PageRun.single_runner st'
         /\ PageRun._is_running st' = true
         /\ exists script l,
              vars "script" = Some script
              /\ scripts = Ok l /\ In script l
              /\ PageRun.runners st'
                 = PageRun.runners st
                   ++ [ScriptRunner.start
                         (ScriptRunner.init (VStr script) now)]
              /\ PageRun.g_runner st' = Some (length (PageRun.runners st))).
Proof.
  intros Hinv. split; [|split].
  - intros r code i runner Hlook Halive.
    cbn [PageRun.thread_ends PageRun.runners PageRun.g_runner] in *.
    apply (Hinv i runner); [|exact Halive].
    eapply end_runner_lookup; eassumption.
  - intros Hrun. unfold PageRun._handle_run.
    destruct (given (vars "script")) as [script|]; [|eauto].
    destruct (PageRun.script_known scripts script) as [known|e];
      cbn [bind]; [|eauto].
    destruct known; cbn [negb]; [|eauto].
    rewrite Hrun. eauto.
  - intros st' Hrun. unfold PageRun._handle_run in Hrun.
    destruct (given (vars "script")) as [script|] eqn:Hscript; [|discriminate].
    destruct (PageRun.script_known scripts script) as [known|] eqn:Hknown;
      cbn [bind] in Hrun; [|discriminate].
    destruct known; cbn [negb] in Hrun; [|discriminate].
    destruct (PageRun._is_running st) eqn:Halive; [discriminate|].
    injection Hrun as <-.
    pose proof (execute_script_new st script now) as Hnew.
    split; [|split].
    + intros i runner Hlook Hlive.
      destruct (decide (i < length (PageRun.runners st))%nat) as [Hlt|Hge].
      * exfalso.
        cbn [PageRun._execute_script PageRun.runners] in Hlook.
        rewrite lookup_app_l in Hlook by exact Hlt.
        pose proof (Hinv i runner Hlook Hlive) as Hg.
        unfold PageRun._is_running in Halive. rewrite Hg, Hlook in Halive.
        congruence.
      * apply lookup_lt_Some in Hlook.
        cbn [PageRun._execute_script PageRun.runners PageRun.g_runner]
          in Hlook |- *.
        rewrite length_app in Hlook. cbn [length] in Hlook.
        f_equal. lia.
    + unfold PageRun._is_running.
      cbn [PageRun._execute_script PageRun.g_runner PageRun.runners]
        in Hnew |- *.
      rewrite Hnew. reflexivity.
    + apply given_Some in Hscript as [Hv _].
      unfold PageRun.script_known in Hknown.
      destruct scripts as [l|]; cbn [bind] in Hknown; [|discriminate].
      injection Hknown as Hex. apply existsb_exists in Hex as (x & Hin & Heq).
      apply String.eqb_eq in Heq. subst x.
      exists script, l. repeat split; assumption.
Qed.

Lemma run_page_single_runner_witness :
  let st := PageRun.mkState (Some 0%nat)
              [ScriptRunner.start (ScriptRunner.init (VStr "a.py") 0)] in
  PageRun.single_runner st
  /\ exists e,
       PageRun._handle_run (Ok ["a.py"; "b.py"])
         (fun name => if String.eqb name "script" then Some "b.py" else None)
         5 st
       = Raise e.
Proof.
  assert (Hinv : PageRun.single_runner
                   (PageRun.mkState (Some 0%nat)
                      [ScriptRunner.start
                         (ScriptRunner.init (VStr "a.py") 0)])).
  { intros [|r] runner Hlook Halive; [reflexivity|].
    destruct r; discriminate Hlook. }
  split; [exact Hinv|].
  apply (run_page_single_runner (Ok ["a.py"; "b.py"])
           (fun name => if String.eqb name "script" then Some "b.py" else None)
           5 _ Hinv).
  reflexivity.
Defined.

(** ** Aborting a script *)

Lemma abort_wait_spec poll timer k :
  (k <= abort_wait poll timer k <= k + timer)%nat
  /\ (forall j, (k <= j < abort_wait poll timer k)%nat -> poll j = None)
  /\ ((abort_wait poll timer k < k + timer)%nat ->
      poll (abort_wait poll timer k) <> None).
Proof.
  revert k. induction timer as [|timer IH]; intros k; cbn [abort_wait].
  - repeat split; intros; lia.
  - destruct (poll k) as [code|] eqn:Hpoll.
    + repeat split; try lia. intros _. congruence.
    + destruct (IH (S k)) as (Hle & Hnone & Hstop).
      split; [lia|]. split.
      * intros j Hj. destruct (decide (j = k)) as [->|Hne]; [exact Hpoll|].
        apply Hnone. lia.
      * intros Hlt. apply Hstop. lia.
Qed.

(** X20. [ScriptRunner.abort] waits for the child at most ten sleeps: it
    returns after [n <= 10] sleeps, every poll before the last one said the
    child was still running, and when it returns early the child has
    ended.  After ten sleeps it returns whether or not the child has
    ended.  Called before [run] has created the child process, it fails
    with an [AttributeError]. *)
Theorem abort_waits_at_most_ten_sleeps (poll : nat -> option Z) :
  abort None = Raise AttributeError
  /\ exists n,
       abort (Some poll) = Ok n
       /\ (n <= 10)%nat
       /\ (forall j, (j < n)%nat -> poll j = None)
       /\ ((n < 10)%nat -> poll n <> None)
       /\ ((forall j, (j < 10)%nat -> poll j = None) -> n = 10%nat).
Proof.
  split; [reflexivity|].
  exists (abort_wait poll 10 0). cbn [abort].
  destruct (abort_wait_spec poll 10 0) as (Hle & Hnone & Hstop).
  split; [reflexivity|]. split; [lia|]. split; [|split].
  - intros j Hj. apply Hnone. lia.
  - intros Hlt. apply Hstop. lia.
  - intros Hall.
    destruct (decide (abort_wait poll 10 0 < 10)%nat) as [Hlt|Hge]; [|lia].
    exfalso. apply Hstop; [lia|]. apply Hall. exact Hlt.
Qed.

(** ** The address and the session of [RemoteAPI] *)

Lemma prefix_append p a : String.prefix p (p ++ a)%string = true.
Proof.
  induction p as [|c p IH]; unfold_append.
  - destruct a; reflexivity.
  - cbn [String.prefix]. rewrite IH.
    destruct (Ascii.ascii_dec c c); [reflexivity|congruence].
Qed.

(** X21. [RemoteAPI._set_address] accepts exactly the strings.  The
    address it stores starts with [http://] or [https://]; it is the
    address given when that has one of these prefixes, and the address
    given after [http://] otherwise.  Setting the stored address again
    stores the same. *)
Theorem set_address_has_protocol (address : value) :
  match RemoteAPI._set_address address with
  | inl stored =>
      (String.prefix "http://" stored = true
       \/ String.prefix "https://" stored = true)
      /\ RemoteAPI._set_address (VStr stored) = inl stored
      /\ exists a,
           address = VStr a
           /\ stored
              = if String.prefix "http://" a || String.prefix "https://" a
                then a else ("http://" ++ a)%string
  | inr _ => forall a, address <> VStr a
  end.
Proof.
  destruct address as [| | | a | |]; cbn [RemoteAPI._set_address];
    try (intros a0; discriminate).
  destruct (String.prefix "https://" a) eqn:Hs;
    destruct (String.prefix "http://" a) eqn:Hp; cbn [negb andb orb].
  - split; [left; exact Hp|]. split.
    + cbn [RemoteAPI._set_address]. rewrite Hs. reflexivity.
    + exists a. rewrite Hp. split; reflexivity.
  - split; [right; exact Hs|]. split.
    + cbn [RemoteAPI._set_address]. rewrite Hs. reflexivity.
    + exists a. rewrite Hp, Hs. split; reflexivity.
  - split; [left; exact Hp|]. split.
    + cbn [RemoteAPI._set_address]. rewrite Hp, Hs. reflexivity.
    + exists a. rewrite Hp. split; reflexivity.
  - pose proof (prefix_append "http://" a) as Hnew.
    split; [left; exact Hnew|]. split.
    + cbn [RemoteAPI._set_address]. rewrite Hnew.
      rewrite andb_false_r. reflexivity.
    + exists a. rewrite Hp, Hs. split; reflexivity.
Qed.

(** X22. A session of [RemoteAPI].  When the object holds no session id and
    the CCU answers the login with a session id [sid] (a non-empty string,
    say) and accepts the logout, then [login] followed by [logout] makes
    exactly two calls, [session_login] with the credentials and
    [session_logout] with [sid], and leaves the session id [None]; a second
    [login] in between is refused with [Already logged in.] and a second
    [logout] afterwards does nothing, neither of them making a call. *)
Theorem login_then_logout
    (call : string -> list (string * value) -> value + RemoteAPI.api_exn)
    (self : RemoteAPI.t) (sid answer : value) :
  truthy (RemoteAPI._session_id self) = false ->
  call "session_login"
       [("username", VStr (fst (RemoteAPI._credentials self)));
        ("password", VStr (snd (RemoteAPI._credentials self)))]
    = inl sid ->
  truthy sid = true ->
  call "session_logout" [("_session_id_", sid)] = inl answer ->
  let logged_in := fst (RemoteAPI.login call self) in
  let logged_out := fst (RemoteAPI.logout call logged_in) in
  RemoteAPI.login call self = (logged_in, None)
  /\ RemoteAPI._session_id logged_in = sid
  /\ RemoteAPI.login call logged_in
     = (logged_in, Some (RemoteAPI.PMException "Already logged in."))
  /\ RemoteAPI.logout call logged_in = (logged_out, None)
  /\ RemoteAPI._session_id logged_out = VNone
  /\ RemoteAPI.calls logged_out
     = RemoteAPI.calls self
       ++ [("session_login",
            [("username", VStr (fst (RemoteAPI._credentials self)));
             ("password", VStr (snd (RemoteAPI._credentials self)))]);
           ("session_logout", [("_session_id_", sid)])]
  /\ RemoteAPI.logout call logged_out = (logged_out, None).
Proof.
  intros Hnone Hlogin Hsid Hlogout.
  assert (Hin : RemoteAPI.login call self
                = (RemoteAPI.set_session_id
                     (RemoteAPI.record_call self "session_login"
                        [("username",
                          VStr (fst (RemoteAPI._credentials self)));
                         ("password",
                          VStr (snd (RemoteAPI._credentials self)))])
                     sid, None)).
  { unfold RemoteAPI.login. rewrite Hnone. cbv zeta. rewrite Hlogin.
    destruct sid; try reflexivity. discriminate Hsid. }
  rewrite Hin. cbn [fst].
  set (s1 := RemoteAPI.set_session_id _ sid).
  assert (Hout : RemoteAPI.logout call s1
                 = (RemoteAPI.set_session_id
                      (RemoteAPI.record_call s1 "session_logout"
                         [("_session_id_", sid)])
                      VNone, None)).
  { unfold RemoteAPI.logout.
    change (RemoteAPI._session_id s1) with sid.
    rewrite Hsid. cbv zeta. rewrite Hlogout. reflexivity. }
  rewrite Hout. cbn [fst].
  split; [reflexivity|]. split; [reflexivity|]. split.
  { unfold RemoteAPI.login. change (RemoteAPI._session_id s1) with sid.
    rewrite Hsid. reflexivity. }
  split; [reflexivity|]. split; [reflexivity|]. split.
  { cbn [RemoteAPI.calls RemoteAPI.set_session_id RemoteAPI.record_call s1].
    subst s1. cbn [RemoteAPI.calls RemoteAPI.set_session_id
                   RemoteAPI.record_call RemoteAPI._credentials].
    rewrite <- app_assoc. reflexivity. }
  reflexivity.
Qed.

Lemma login_then_logout_witness :
  let call := fun (m : string) (args : list (string * value)) =>
                if String.eqb m "session_login"
                then @inl value RemoteAPI.api_exn (VStr "kGQ7sTeIyd")
                else inl VNone in
  let self := RemoteAPI.mk VNone ("Admin", "secret") [] in
  RemoteAPI.calls (fst (RemoteAPI.logout call (fst (RemoteAPI.login call self))))
  = [("session_login",
      [("username", VStr "Admin"); ("password", VStr "secret")]);
     ("session_logout", [("_session_id_", VStr "kGQ7sTeIyd")])].
Proof.
  intros call self.
  pose proof (login_then_logout call self (VStr "kGQ7sTeIyd") VNone
                eq_refl eq_refl eq_refl eq_refl) as H.
  cbv zeta in H. exact (proj1 (proj2 (proj2 (proj2 (proj2 (proj2 H)))))).
Defined.

(** X23. A failed logout keeps the session.  When the [session_logout]
    call raises, [logout] raises the same exception and the session id is
    still set, so that a later [logout] tries again; when the object holds
    no session, [logout] makes no call at all. *)
Theorem failed_logout_keeps_session
    (call : string -> list (string * value) -> value + RemoteAPI.api_exn)
    (self : RemoteAPI.t) :
  let after := fst (RemoteAPI.logout call self) in
  (truthy (RemoteAPI._session_id self) = false ->
   RemoteAPI.logout call self = (self, None))
  /\ (forall e,
         truthy (RemoteAPI._session_id self) = true ->
         call "session_logout"
              [("_session_id_", RemoteAPI._session_id self)] = inr e ->
         RemoteAPI.logout call self = (after, Some e)
         /\ RemoteAPI._session_id after = RemoteAPI._session_id self
         /\ RemoteAPI.logout call after
            = (RemoteAPI.record_call after "session_logout"
                 [("_session_id_", RemoteAPI._session_id self)], Some e)).
Proof.
  cbv zeta. split.
  - intros Hnone. unfold RemoteAPI.logout. rewrite Hnone. reflexivity.
  - intros e Hsid Hcall.
    assert (Hout : RemoteAPI.logout call self
                   = (RemoteAPI.record_call self "session_logout"
                        [("_session_id_", RemoteAPI._session_id self)],
                      Some e)).
    { unfold RemoteAPI.logout. rewrite Hsid. cbv zeta. rewrite Hcall.
      reflexivity. }
    rewrite Hout. cbn [fst]. split; [reflexivity|]. split; [reflexivity|].
    unfold RemoteAPI.logout at 1.
    cbn [RemoteAPI._session_id RemoteAPI.record_call].
    rewrite Hsid. cbv zeta.
    cbn [RemoteAPI._session_id RemoteAPI.record_call]. rewrite Hcall.
    reflexivity.
Qed.

Lemma failed_logout_keeps_session_witness :
  let call := fun (m : string) (args : list (string * value)) =>
                @inr value RemoteAPI.api_exn
                  (RemoteAPI.PMException "Request terminated.") in
  let self := RemoteAPI.mk (VStr "kGQ7sTeIyd") ("Admin", "secret") [] in
  RemoteAPI._session_id (fst (RemoteAPI.logout call self))
  = VStr "kGQ7sTeIyd".
Proof.
  intros call self.
  destruct (failed_logout_keeps_session call self) as [_ H].
  destruct (H (RemoteAPI.PMException "Request terminated.")
              eq_refl eq_refl) as (_ & Hsid & _).
  exact Hsid.
Defined.

(** The escaping of two texts agrees only when the texts do. *)
Lemma escape_injective_witness : "a<b" = "a<b".
Proof. apply escape_injective. reflexivity. Defined.

(** ** Uploading a script *)

Lemma prefix_first_line p : forall s,
  occurs newline p = false ->
  String.prefix p (first_line s) = String.prefix p s.
Proof.
  induction p as [|a p IH]; intros s Hp.
  - destruct s as [|c s]; [reflexivity|]. cbn [first_line].
    destruct (Ascii.eqb c newline); reflexivity.
  - cbn [occurs] in Hp. apply orb_false_elim in Hp as [Ha Hp].
    destruct s as [|c s]; [reflexivity|]. cbn [first_line].
    destruct (Ascii.eqb_spec c newline) as [->|Hc].
    + cbn [String.prefix].
      destruct (Ascii.ascii_dec a newline) as [->|_]; [|reflexivity].
      rewrite Ascii.eqb_refl in Ha. discriminate.
    + cbn [String.prefix]. rewrite (IH s Hp). reflexivity.
Qed.

(** X24. What an upload is checked for.  [_handle_upload] accepts a file
    exactly when its content decodes as UTF-8, begins with
    [#!/usr/bin/python] or [#!/usr/bin/env python] and is at most 1048576
    bytes long (the test of the first line being a test of the beginning of
    the file); it then writes the content to the script directory joined
    with the file name as the client sent it.  The name is not checked:
    under an absolute name the file is written at that path. *)
Theorem upload_checks_the_beginning (decodes : string -> bool)
    (script_path filename script : string) :
  let shebang := String.prefix "#!/usr/bin/python" script
                 || String.prefix "#!/usr/bin/env python" script in
  let accepted := decodes script = true
                  /\ shebang = true
                  /\ Z.of_nat (String.length script) <= 1048576 in
  (forall written,
      PageMain._handle_upload decodes script_path (Some (filename, script))
      = Ok written
      <-> accepted /\ written = (path_join script_path filename, script))
  /\ (String.prefix "/" filename = true ->
      accepted ->
      PageMain._handle_upload decodes script_path (Some (filename, script))
      = Ok (filename, script)).
Proof.
  intros shebang accepted. subst accepted.
  assert (Hup : PageMain._handle_upload decodes script_path
                  (Some (filename, script))
                = if negb (decodes script) then Raise ValueError
                  else if shebang
                  then if 1048576 <? Z.of_nat (String.length script)
                       then Raise (PMUserError
                                     (VStr "The uploaded file is too large."))
                       else Ok (path_join script_path filename, script)
                  else if String.eqb script ""
                       then Raise (PMUserError
                              (VStr "You need to select a script to upload."))
                       else Raise (PMUserError
                              (VStr "The uploaded file does not seem to be a pmatic script."))).
  { unfold PageMain._handle_upload, PageMain.save_script. subst shebang.
    destruct (decodes script); cbn [negb]; [|reflexivity].
    destruct (String.eqb_spec script "") as [->|Hne]; [reflexivity|].
    rewrite !prefix_first_line by reflexivity.
    destruct (String.prefix "#!/usr/bin/python" script);
      destruct (String.prefix "#!/usr/bin/env python" script); reflexivity. }
  split.
  - intros written. rewrite Hup.
    destruct (decodes script); cbn [negb];
      [|split; [discriminate|intros [[Habs _] _]; discriminate Habs]].
    destruct shebang.
    + destruct (Z.ltb_spec 1048576 (Z.of_nat (String.length script)))
        as [Hbig|Hsmall].
      * split; [discriminate|]. intros [(_ & _ & Hle) _]. lia.
      * split.
        -- intros [= <-]. repeat split. exact Hsmall.
        -- intros [_ ->]. reflexivity.
    + split.
      * destruct (String.eqb script ""); discriminate.
      * intros [(_ & Habs & _) _]. discriminate Habs.
  - intros Habs (Hdec & Hshebang & Hlen). rewrite Hup, Hdec, Hshebang.
    cbn [negb].
    destruct (Z.ltb_spec 1048576 (Z.of_nat (String.length script)));
      [lia|].
    unfold path_join. rewrite Habs. reflexivity.
Qed.

Lemma upload_checks_the_beginning_witness :
  PageMain._handle_upload (fun _ => true) "/etc/config/addons/pmatic/scripts"
    (Some ("/etc/cron.d/job", "#!/usr/bin/python"))
  = Ok ("/etc/cron.d/job", "#!/usr/bin/python").
Proof.
  apply (upload_checks_the_beginning (fun _ => true)
           "/etc/config/addons/pmatic/scripts"
           "/etc/cron.d/job" "#!/usr/bin/python"); [reflexivity|].
  repeat split. cbn. lia.
Defined.

(** ** Deleting a schedule from the schedule page *)

Lemma remove_schedules (self : Scheduler.t) (i : Z) :
  Scheduler.exists_ self i = true ->
  Scheduler._schedules (Scheduler.remove self i)
  = delete (position (Scheduler._schedules self) i) (Scheduler._schedules self).
Proof.
  intros Hex. apply exists_iff in Hex.
  destruct (py_index_in_range (Scheduler._schedules self) i Hex) as [Hidx _].
  unfold Scheduler.remove. rewrite Hidx. reflexivity.
Qed.

Lemma save_reloads devices (self : Scheduler.t) :
  Forall (writable devices) (Scheduler._schedules self) ->
  exists doc reloaded,
    Scheduler.save self = Ok doc
    /\ Scheduler.load (Some devices) Scheduler.init (Scheduler.ReadOk doc)
       = Done reloaded
    /\ Forall2 sched_equiv (Scheduler._schedules self)
                           (Scheduler._schedules reloaded)
    /\ ids_match_positions (Scheduler._schedules reloaded).
Proof.
  intros Hall.
  destruct (schedules_to_config_total devices _ Hall) as [cfgs Hcfgs].
  destruct (load_schedules_through_config devices _ cfgs Scheduler.init Hall
              Hcfgs) as (l' & Hload & Hequiv & Hids).
  unfold Scheduler.save. rewrite Hcfgs. cbn [bind].
  eexists _, _. split; [reflexivity|].
  unfold Scheduler.load. cbn [Scheduler.read_store py_iter bind].
  rewrite Hload. split; [reflexivity|].
  cbn [Scheduler._schedules Scheduler.set_schedules Scheduler.init app].
  split; [exact Hequiv|].
  intros i s Hs. rewrite (Hids i s Hs). reflexivity.
Qed.

(** X25. Deleting on the schedule page.  For a submitted id that [int]
    reads as [i]: when [i] is out of range the request is refused and
    nothing changes; otherwise the schedule at the position [i] denotes (from
    the end when [i] is negative) is taken out of the collection first and
    the collection saved afterwards, so that the schedule is gone from
    memory also when the save raises.  When the schedules are writable the
    save succeeds, and loading the document written yields the remaining
    schedules in their order, with their new positions as ids. *)
Theorem delete_page (int : string -> result Z) (devices : Catalog)
    (vars : form_vars) (scheduler : Scheduler.t) (text : string) (i : Z) :
  vars "schedule_id" = Some text ->
  text <> "" ->
  int text = Ok i ->
  let l := Scheduler._schedules scheduler in
  let r := PageSchedule._handle_delete int vars scheduler in
  (Scheduler.exists_ scheduler i = false ->
   r = (scheduler, Raise (PMUserError (VStr "This schedule does not exist."))))
  /\ (Scheduler.exists_ scheduler i = true ->
      Scheduler._schedules (fst r) = delete (position l i) l
      /\ S (length (Scheduler._schedules (fst r))) = length l
      /\ snd r = Scheduler.save (fst r)
      /\ (Forall (writable devices) l ->
          exists doc reloaded,
            snd r = Ok doc
            /\ Scheduler.load (Some devices) Scheduler.init
                              (Scheduler.ReadOk doc)
               = Done reloaded
            /\ Forall2 sched_equiv (delete (position l i) l)
                                   (Scheduler._schedules reloaded)
            /\ ids_match_positions (Scheduler._schedules reloaded))).
Proof.
  intros Hvar Hne Hint l r. subst r.
  unfold PageSchedule._handle_delete.
  rewrite Hvar, (given_nonempty _ Hne), Hint.
  split; intros Hex; rewrite Hex; cbn [negb fst snd]; [reflexivity|].
  pose proof (remove_schedules scheduler i Hex) as Hrem. fold l in Hrem.
  split; [exact Hrem|]. split.
  { rewrite Hrem. apply exists_iff in Hex.
    destruct (py_index_in_range l i Hex) as [_ Hlt].
    rewrite length_delete by (apply lookup_lt_is_Some; exact Hlt).
    lia. }
  split; [reflexivity|].
  intros Hall.
  assert (Hall' : Forall (writable devices)
                    (Scheduler._schedules (Scheduler.remove scheduler i))).
  { rewrite Hrem. apply Forall_delete. exact Hall. }
  destruct (save_reloads devices _ Hall')
    as (doc & reloaded & Hsave & Hload & Hequiv & Hids).
  exists doc, reloaded. rewrite Hrem in Hequiv. repeat split; assumption.
Qed.

Lemma delete_page_witness :
  let int := fun text : string =>
               if String.eqb text "-1" then Ok (-1) else Raise ValueError in
  let vars := fun name : string =>
                if String.eqb name "schedule_id" then Some "-1" else None in
  let scheduler :=
    Scheduler.set_schedules Scheduler.init
      [Schedule.init ManagerObj; window_schedule] in
  Scheduler._schedules (fst (PageSchedule._handle_delete int vars scheduler))
  = [Schedule.init ManagerObj].
Proof.
  intros int vars scheduler.
  assert (Hne : "-1" <> "") by discriminate.
  destruct (delete_page int other_catalog vars scheduler "-1" (-1)
              eq_refl Hne eq_refl) as [_ H].
  destruct (H eq_refl) as (Hl & _). exact Hl.
Defined.

(** ** The password and the login cookie *)

Lemma hex_char c :
  occurs c "0123456789abcdef" = true ->
  is_space c = false /\ Ascii.eqb c ":"%char = false.
Proof.
  destruct c as [[] [] [] [] [] [] [] []]; intros H;
    first [discriminate H | split; reflexivity].
Qed.

Lemma all_hex_no_colon d : all_hex d = true -> occurs ":"%char d = false.
Proof.
  induction d as [|c d IH]; [reflexivity|]. cbn [all_hex occurs].
  intros H. apply andb_true_iff in H as [Hc Hd].
  destruct (hex_char c Hc) as [_ ->]. exact (IH Hd).
Qed.





Lemma count_char_none c s : occurs c s = false <-> count_char c s = O.
Proof.
  induction s as [|x s IH]; cbn [occurs count_char]; [tauto|].
  destruct (Ascii.eqb x c); cbn [orb]; [split; discriminate|exact IH].
Qed.

Lemma split_joined c a b :
  occurs c a = false ->
  count_char c (a ++ String c b)%string = S (count_char c b)
  /\ before_char c (a ++ String c b)%string = a
  /\ after_char c (a ++ String c b)%string = b.
Proof.
  induction a as [|x a IH]; unfold_append;
    cbn [occurs count_char before_char after_char].
  - intros _. rewrite Ascii.eqb_refl. repeat split.
  - intros H. apply orb_false_elim in H as [Hx Ha]. rewrite Hx.
    destruct (IH Ha) as (-> & -> & ->). repeat split.
Qed.

Lemma split_once c s :
  count_char c s = 1%nat ->
  s = (before_char c s ++ String c (after_char c s))%string
  /\ occurs c (before_char c s) = false
  /\ occurs c (after_char c s) = false.
Proof.
  induction s as [|x s IH]; cbn [count_char before_char after_char];
    [discriminate|].
  destruct (Ascii.eqb_spec x c) as [->|Hx].
  - intros [= H]. unfold_append. split; [reflexivity|].
    split; [reflexivity|]. apply count_char_none. exact H.
  - intros H. destruct (IH H) as (Heq & Hb & Ha).
    rewrite append_cons, <- Heq. split; [reflexivity|].
    cbn [occurs]. rewrite Hb.
    destruct (Ascii.eqb_spec x c); [contradiction|]. split; [reflexivity|].
    exact Ha.
Qed.

Lemma salted_cookie_authenticates (sha256 : string -> string)
    (secret_file salt : string) :
  (forall x, all_hex (sha256 x) = true) ->
  occurs ":"%char salt = false ->
  PageLogin._is_authenticated sha256 secret_file
    (Some (salt ++ ":" ++ sha256 (strip secret_file ++ salt))%string)
  = true.
Proof.
  intros Hhex Hsalt. unfold PageLogin._is_authenticated.
  rewrite append_cons, append_nil.
  set (h := sha256 (strip secret_file ++ salt)%string).
  destruct (split_joined ":"%char salt h Hsalt) as (Hcount & Hbefore & Hafter).
  assert (Hh : count_char ":"%char h = O)
    by (apply count_char_none, all_hex_no_colon, Hhex).
  rewrite given_nonempty.
  - rewrite Hcount, Hh, Hbefore, Hafter. cbn [Nat.eqb negb].
    apply String.eqb_refl.
  - destruct salt; discriminate.
Qed.



(** X27. What a valid cookie is.  With digests made of hexadecimal digits,
    [_is_authenticated] accepts a cookie exactly when it is a text without
    colon, a colon, and the digest of the stored secret followed by that
    text.  The text may be anything, the time of a login long ago as well as
    the empty text: only the secret file decides. *)
Theorem cookie_is_salted_hash (sha256 : string -> string)
    (secret_file value : string) :
  (forall x, all_hex (sha256 x) = true) ->
  PageLogin._is_authenticated sha256 secret_file (Some value) = true
  <-> exists salt,
        occurs ":"%char salt = false
        /\ value = (salt ++ ":" ++ sha256 (strip secret_file ++ salt))%string.
Proof.
  intros Hhex. split.
  - unfold PageLogin._is_authenticated, given.
    destruct (String.eqb value ""); [discriminate|].
    destruct (Nat.eqb_spec (count_char ":"%char value) 1) as [Hcount|];
      cbn [negb]; [|discriminate].
    intros Heq. apply String.eqb_eq in Heq.
    destruct (split_once _ _ Hcount) as (Hvalue & Hsalt & _).
    exists (before_char ":"%char value). split; [exact Hsalt|].
    rewrite append_cons, append_nil, <- Heq. exact Hvalue.
  - intros (salt & Hsalt & ->).
    apply salted_cookie_authenticates; assumption.
Qed.

Lemma cookie_is_salted_hash_witness :
  let sha256 := fun text : string =>
    "5e884898da28047151d0e56f8dfc6292773603d0d6aabbdd62a11ef721d1542d" in
  PageLogin._is_authenticated sha256 "secret"
    (Some ":5e884898da28047151d0e56f8dfc6292773603d0d6aabbdd62a11ef721d1542d")
  = true.
Proof.
  intros sha256.
  apply (cookie_is_salted_hash sha256 "secret"
           ":5e884898da28047151d0e56f8dfc6292773603d0d6aabbdd62a11ef721d1542d").
  - intros x. reflexivity.
  - exists "". split; reflexivity.
Defined.

(** ** The edit page of a schedule *)

Lemma set_submitted_vars_class ccu c vars prefix :
  Condition.class_of (fst (set_submitted_vars ccu c vars prefix))
  = Condition.class_of c.
Proof.
  unfold set_submitted_vars.
  destruct (Condition.class_of c) eqn:Hc; cbn [fst]; try exact Hc.
  rewrite <- Hc. clear Hc. unfold device_event_set_submitted_vars.
  repeat match goal with
         | |- context [match ?x with _ => _ end] => destruct x
         end;
    reflexivity.
Qed.

Lemma set_conditions_same (s : Schedule.t) :
  Schedule.set_conditions s (Schedule.conditions s) = s.
Proof. destruct s; reflexivity. Qed.

Lemma set_conditions_twice (s : Schedule.t) cs cs' :
  Schedule.set_conditions (Schedule.set_conditions s cs) cs'
  = Schedule.set_conditions s cs'.
Proof. reflexivity. Qed.

Lemma add_condition_fields self c self' :
  Schedule.add_condition self c = Ok self' ->
  self' = Schedule.set_conditions self (Schedule.conditions self')
  /\ Schedule.conditions self'
     = Schedule.conditions self
       ++ [Condition.setattr c "id"
             (VInt (Z.of_nat (length (Schedule.conditions self))))].
Proof.
  unfold Schedule.add_condition.
  destruct (Schedule.method self "add_condition"); cbn [bind]; [|discriminate].
  intros [= <-]. split; reflexivity.
Qed.

Lemma class_of_setattr c k v :
  Condition.class_of (Condition.setattr c k v) = Condition.class_of c.
Proof. unfold Condition.setattr. destruct (String.eqb k "_manager"); reflexivity. Qed.

Lemma selected_classes_cons vars condition_id ids :
  selected_classes vars (condition_id :: ids)
  = match given (vars (PageEditSchedule.varprefix condition_id
                       ++ "type")%string) with
    | Some condition_type =>
        match Condition.get (VStr condition_type) with
        | Some cls => cls :: selected_classes vars ids
        | None => selected_classes vars ids
        end
    | None => selected_classes vars ids
    end.
Proof.
  unfold selected_classes.
  destruct (given (vars (PageEditSchedule.varprefix condition_id
                         ++ "type")%string)) as [condition_type|] eqn:Hgiven;
    cbn [omap list_omap]; rewrite Hgiven; reflexivity.
Qed.

Lemma submitted_conditions_spec ccu vars ids : forall schedule s' e,
  PageEditSchedule.submitted_conditions ccu vars schedule ids = (s', e) ->
  s' = Schedule.set_conditions schedule (Schedule.conditions s')
  /\ (ids_positional (Schedule.conditions schedule) ->
      ids_positional (Schedule.conditions s'))
  /\ (length (Schedule.conditions s')
      <= length (Schedule.conditions schedule) + length ids)%nat
  /\ (e = None ->
      map Condition.class_of (Schedule.conditions s')
      = map Condition.class_of (Schedule.conditions schedule)
        ++ selected_classes vars ids).
Proof.
  assert (Hstop : forall (schedule : Schedule.t) (n : nat),
             schedule = Schedule.set_conditions schedule
                          (Schedule.conditions schedule)
             /\ (ids_positional (Schedule.conditions schedule) ->
                 ids_positional (Schedule.conditions schedule))
             /\ (length (Schedule.conditions schedule)
                 <= length (Schedule.conditions schedule) + n)%nat).
  { intros schedule n. split; [symmetry; apply set_conditions_same|].
    split; [tauto|lia]. }
  induction ids as [|condition_id ids IH]; intros schedule s' e;
    cbn [PageEditSchedule.submitted_conditions].
  - intros [= <- <-]. destruct (Hstop schedule 0%nat) as (H1 & H2 & H3).
    repeat split; try assumption. intros _.
    change (selected_classes vars []) with (@nil Condition.cls).
    rewrite app_nil_r. reflexivity.
  - rewrite selected_classes_cons.
    destruct (given (vars (PageEditSchedule.varprefix condition_id ++ "type")%string))
      as [condition_type|].
    + destruct (Condition.get (VStr condition_type)) as [cls|].
      * destruct (set_submitted_vars ccu (Condition.init cls ManagerObj) vars
                    (PageEditSchedule.varprefix condition_id))
          as [condition e0] eqn:Hset.
        assert (Hcls : Condition.class_of condition = cls).
        { pose proof (set_submitted_vars_class ccu
                        (Condition.init cls ManagerObj) vars
                        (PageEditSchedule.varprefix condition_id)) as H.
          rewrite Hset in H. exact H. }
        assert (Hadd : forall schedule1,
                   Schedule.add_condition schedule condition = Ok schedule1 ->
                   PageEditSchedule.submitted_conditions ccu vars schedule1 ids
                   = (s', e) ->
                   s' = Schedule.set_conditions schedule (Schedule.conditions s')
                   /\ (ids_positional (Schedule.conditions schedule) ->
                       ids_positional (Schedule.conditions s'))
                   /\ (length (Schedule.conditions s')
                       <= length (Schedule.conditions schedule)
                          + length (condition_id :: ids))%nat
                   /\ (e = None ->
                       map Condition.class_of (Schedule.conditions s')
                       = map Condition.class_of (Schedule.conditions schedule)
                         ++ cls :: selected_classes vars ids)).
        { intros schedule1 Hadd Hrest.
          destruct (IH _ _ _ Hrest) as (Hfields & Hids & Hlen & Hclasses).
          destruct (add_condition_fields _ _ _ Hadd) as (Hfields1 & Hconds1).
          split.
          { rewrite Hfields1 in Hfields.
            rewrite set_conditions_twice in Hfields. exact Hfields. }
          split.
          { intros Hpos. apply Hids. rewrite Hconds1.
            apply ids_positional_snoc; [exact Hpos|reflexivity]. }
          split.
          { rewrite Hconds1, length_app in Hlen. cbn [length] in *. lia. }
          intros He. rewrite (Hclasses He), Hconds1, map_app. cbn [map].
          rewrite class_of_setattr, Hcls, <- app_assoc. reflexivity. }
        assert (Hended : forall e1 : exn,
                   (schedule, Some e1) = (s', e) ->
                   s' = Schedule.set_conditions schedule (Schedule.conditions s')
                   /\ (ids_positional (Schedule.conditions schedule) ->
                       ids_positional (Schedule.conditions s'))
                   /\ (length (Schedule.conditions s')
                       <= length (Schedule.conditions schedule)
                          + length (condition_id :: ids))%nat
                   /\ (e = None ->
                       map Condition.class_of (Schedule.conditions s')
                       = map Condition.class_of (Schedule.conditions schedule)
                         ++ cls :: selected_classes vars ids)).
        { intros e1 [= <- <-].
          destruct (Hstop schedule (length (condition_id :: ids)))
            as (H1 & H2 & H3).
          repeat split; try assumption. discriminate. }
        destruct e0 as [ex|].
        -- destruct ex; try apply Hended.
           destruct (Schedule.add_condition schedule condition)
             as [schedule1|e1]; [|apply Hended].
           apply (Hadd schedule1 eq_refl).
        -- destruct (Schedule.add_condition schedule condition)
             as [schedule1|e1]; [|apply Hended].
           apply (Hadd schedule1 eq_refl).
      * intros [= <- <-].
        destruct (Hstop schedule (length (condition_id :: ids)))
          as (H1 & H2 & H3). repeat split; try assumption. discriminate.
    + intros Hrest. destruct (IH _ _ _ Hrest) as (H1 & H2 & H3 & H4).
      repeat split; try assumption. cbn [length]. lia.
Qed.

Lemma get_schedule_place int vars scheduler place schedule :
  PageEditSchedule._get_schedule int vars scheduler = Ok (place, schedule) ->
  Scheduler._schedules scheduler !! place = Some schedule
  /\ (place < length (Scheduler._schedules scheduler))%nat.
Proof.
  unfold PageEditSchedule._get_schedule.
  destruct (vars "schedule_id") as [text|]; [|discriminate].
  destruct (int text) as [i|]; cbn [bind]; [|discriminate].
  destruct (Scheduler.exists_ scheduler i) eqn:Hex; cbn [negb]; [|discriminate].
  apply exists_iff in Hex.
  destruct (py_index_in_range (Scheduler._schedules scheduler) i Hex)
    as [Hidx Hlt].
  unfold Scheduler.get. rewrite Hidx.
  destruct (Scheduler._schedules scheduler
            !! position (Scheduler._schedules scheduler) i) eqn:Hl;
    cbn [bind]; [|discriminate].
  intros [= <- <-]. split; assumption.
Qed.

Lemma set_submitted_vars_name int ccu scripts vars schedule submit :
  PageEditSchedule.submitted vars = true ->
  Schedule.name
    (fst (PageEditSchedule._set_submitted_vars int ccu scripts vars schedule
            submit))
  = PageEditSchedule.getvalue vars "name".
Proof.
  intros Hsub. unfold PageEditSchedule._set_submitted_vars. rewrite Hsub.
  cbv zeta.
  destruct (submit && negb (truthy _)); [reflexivity|].
  destruct (match given (vars "script") with
            | Some s => _
            | None => _
            end) as [[|]|e]; try reflexivity.
  destruct (submit && negb (truthy _)); [reflexivity|].
  destruct (match vars "num_conditions" with
            | Some text => _
            | None => _
            end) as [n|e]; [|reflexivity].
  unfold Schedule.clear_conditions.
  destruct (Schedule.method _ "clear_conditions"); cbn [bind]; [|reflexivity].
  destruct (PageEditSchedule.submitted_conditions _ _ _ _) as [s' e] eqn:Hloop.
  destruct (submitted_conditions_spec _ _ _ _ _ _ Hloop) as (Hfields & _).
  cbn [fst]. rewrite Hfields. reflexivity.
Qed.

Lemma add_keeps_place scheduler schedule place scheduler' s :
  Scheduler._schedules scheduler !! place = Some schedule ->
  Scheduler.add scheduler schedule = Ok (scheduler', s) ->
  Scheduler._schedules scheduler' !! place = Some schedule.
Proof.
  intros Hplace.
  assert (Hindex : forall z,
             match py_index (Scheduler._schedules scheduler) z with
             | Some i =>
                 Ok (Scheduler.set_schedules scheduler
                       (<[i := schedule]> (Scheduler._schedules scheduler)),
                     schedule)
             | None => Raise IndexError
             end = Ok (scheduler', s) ->
             Scheduler._schedules scheduler' !! place = Some schedule).
  { intros z.
    destruct (py_index (Scheduler._schedules scheduler) z) as [i|];
      [|discriminate].
    intros [= <- <-]. cbn [Scheduler._schedules Scheduler.set_schedules].
    destruct (decide (i = place)) as [->|Hne].
    - apply list_lookup_insert_eq. eapply lookup_lt_Some. exact Hplace.
    - rewrite list_lookup_insert_ne by exact Hne. exact Hplace. }
  unfold Scheduler.add.
  destruct (Schedule.id schedule) as [|b|z|text|l|d];
    cbn [Scheduler.as_index bind]; try discriminate; try apply Hindex.
  intros [= <- <-]. cbn [Scheduler._schedules Scheduler.set_schedules].
  rewrite lookup_app_l by (eapply lookup_lt_Some; exact Hplace).
  exact Hplace.
Qed.

Lemma schedule_save_keeps_place scheduler schedule place scheduler' s r :
  Scheduler._schedules scheduler !! place = Some schedule ->
  Schedule_save scheduler schedule = Ok (scheduler', s, r) ->
  Scheduler._schedules scheduler' !! place = Some schedule.
Proof.
  intros Hplace. unfold Schedule_save.
  destruct (Schedule.method schedule "save"); cbn [bind]; [|discriminate].
  destruct (Schedule._manager schedule); [|discriminate].
  destruct (Scheduler.add scheduler schedule) as [[scheduler1 s1]|] eqn:Hadd;
    cbn [bind]; [|discriminate].
  intros [= <- <- <-]. cbn [fst].
  eapply add_keeps_place; eassumption.
Qed.

Lemma put_back_place scheduler place schedule s' :
  Scheduler._schedules scheduler !! place = Some schedule ->
  Scheduler._schedules (PageEditSchedule.put_back scheduler place s') !! place
  = Some s'.
Proof.
  intros Hplace. unfold PageEditSchedule.put_back.
  cbn [Scheduler._schedules Scheduler.set_schedules].
  apply list_lookup_insert_eq. eapply lookup_lt_Some. exact Hplace.
Qed.

(** X28. The edit form writes to the schedule in use.  The schedule the
    edit page works on is the one the scheduler holds.  Once the form is
    marked as submitted, its name field (or [None] when the field is
    missing) is the name of that schedule after the page is shown again
    ([process], nothing being saved) and after a save is asked for
    ([action]), whatever the outcome: a save refused for want of a name has
    already taken the name away. *)
Theorem edit_form_changes_live_schedule (int : string -> result Z)
    (ccu : option Catalog) (scripts : result (list string))
    (vars : form_vars) (scheduler : Scheduler.t) (place : nat)
    (schedule : Schedule.t) :
  PageEditSchedule._get_schedule int vars scheduler = Ok (place, schedule) ->
  PageEditSchedule.submitted vars = true ->
  Scheduler._schedules scheduler !! place = Some schedule
  /\ (exists s',
         Scheduler._schedules
           (fst (PageEditSchedule.process int ccu scripts vars scheduler))
         !! place = Some s'
         /\ Schedule.name s' = PageEditSchedule.getvalue vars "name")
  /\ (exists s',
         Scheduler._schedules
           (fst (PageEditSchedule.action int ccu scripts vars scheduler))
         !! place = Some s'
         /\ Schedule.name s' = PageEditSchedule.getvalue vars "name")
  /\ (truthy (PageEditSchedule.getvalue vars "name") = false ->
      PageEditSchedule.action int ccu scripts vars scheduler
      = (PageEditSchedule.put_back scheduler place
           (Schedule.set_name schedule (PageEditSchedule.getvalue vars "name")),
         Raise (PMUserError (VStr "You have to provide a name.")))).
Proof.
  intros Hget Hsub.
  destruct (get_schedule_place _ _ _ _ _ Hget) as [Hplace Hlt].
  split; [exact Hplace|]. split; [|split].
  - unfold PageEditSchedule.process. rewrite Hget.
    pose proof (set_submitted_vars_name int ccu scripts vars schedule false
                  Hsub) as Hname.
    destruct (PageEditSchedule._set_submitted_vars int ccu scripts vars
                schedule false) as [s' e].
    exists s'. cbn [fst] in *. split; [|exact Hname].
    eapply put_back_place. exact Hplace.
  - unfold PageEditSchedule.action. rewrite Hget.
    pose proof (set_submitted_vars_name int ccu scripts vars schedule true
                  Hsub) as Hname.
    destruct (PageEditSchedule._set_submitted_vars int ccu scripts vars
                schedule true) as [s' e].
    cbn [fst] in Hname. exists s'. split; [|exact Hname].
    pose proof (put_back_place scheduler place schedule s' Hplace) as Hback.
    destruct e as [e|]; [exact Hback|].
    destruct (Schedule_save (PageEditSchedule.put_back scheduler place s') s')
      as [[[scheduler2 s2] r]|e] eqn:Hsave; [|exact Hback].
    cbn [fst]. eapply schedule_save_keeps_place; eassumption.
  - intros Hname. unfold PageEditSchedule.action. rewrite Hget.
    unfold PageEditSchedule._set_submitted_vars. rewrite Hsub. cbv zeta.
    cbn [Schedule.name Schedule.set_name]. rewrite Hname. reflexivity.
Qed.

Lemma edit_form_changes_live_schedule_witness :
  let scheduler := Scheduler.set_schedules Scheduler.init [window_schedule] in
  Schedule.name window_schedule = VStr "window"
  /\ PageEditSchedule.action edit_int None (Ok ["night.py"])
       edit_vars_without_name scheduler
     = (Scheduler.set_schedules Scheduler.init
          [Schedule.set_name window_schedule VNone],
        Raise (PMUserError (VStr "You have to provide a name."))).
Proof.
  intros scheduler. split; [reflexivity|].
  assert (Hget : PageEditSchedule._get_schedule edit_int
                   edit_vars_without_name scheduler
                 = Ok (0%nat, window_schedule)) by reflexivity.
  destruct (edit_form_changes_live_schedule edit_int None (Ok ["night.py"])
              edit_vars_without_name scheduler 0%nat window_schedule
              Hget eq_refl) as (_ & _ & _ & Hrefused).
  exact (Hrefused eq_refl).
Defined.

(** X29. What a validated edit form leaves.  When [_set_submitted_vars]
    returns without exception for a submitted form that is to be saved, the
    form named a non-empty name and a script of the script directory and
    gave a number of condition rows that [int] could read; the schedule has
    that name and script, the keep-running flag of the checkbox, and its
    former id, trigger time and runner; its conditions are rebuilt from the
    form: one per row whose type is selected, of the class selected, in the
    order of the rows, each with its position as [id]. *)
Theorem accepted_edit (int : string -> result Z) (ccu : option Catalog)
    (scripts : result (list string)) (vars : form_vars)
    (schedule schedule' : Schedule.t) :
  PageEditSchedule.submitted vars = true ->
  PageEditSchedule._set_submitted_vars int ccu scripts vars schedule true
  = (schedule', None) ->
  exists name script l text n,
    vars "name" = Some name /\ name <> ""
    /\ vars "script" = Some script /\ scripts = Ok l /\ In script l
    /\ vars "num_conditions" = Some text /\ int text = Ok n
    /\ Schedule.name schedule' = VStr name
    /\ Schedule.script schedule' = VStr script
    /\ Schedule.keep_running schedule'
       = VBool (PageEditSchedule.is_checked vars "keep_running")
    /\ Schedule.id schedule' = Schedule.id schedule
    /\ Schedule.last_triggered schedule' = Schedule.last_triggered schedule
    /\ Schedule._runner schedule' = Schedule._runner schedule
    /\ map Condition.class_of (Schedule.conditions schedule')
       = selected_classes vars (seq 0 (Z.to_nat n))
    /\ ids_positional (Schedule.conditions schedule')
    /\ (length (Schedule.conditions schedule') <= Z.to_nat n)%nat.
Proof.
  intros Hsub. unfold PageEditSchedule._set_submitted_vars. rewrite Hsub.
  cbv zeta. cbn [Schedule.name Schedule.set_name andb].
  unfold PageEditSchedule.getvalue.
  destruct (vars "name") as [name|] eqn:Hname; cbn [truthy negb];
    [|discriminate].
  destruct (String.eqb_spec name "") as [->|Hne]; cbn [negb]; [discriminate|].
  destruct (vars "script") as [script|] eqn:Hscript; cbn [given truthy negb];
    [|discriminate].
  destruct (String.eqb_spec script "") as [->|Hnes]; cbn [negb];
    [discriminate|].
  unfold PageRun.script_known.
  destruct scripts as [l|e]; cbn [bind]; [|discriminate].
  destruct (existsb (String.eqb script) l) eqn:Hknown; cbn [negb];
    [|discriminate].
  destruct (vars "num_conditions") as [text|] eqn:Htext; [|discriminate].
  destruct (int text) as [n|e] eqn:Hn; [|discriminate].
  unfold Schedule.clear_conditions.
  destruct (Schedule.method _ "clear_conditions"); cbn [bind]; [|discriminate].
  intros Hloop.
  destruct (submitted_conditions_spec _ _ _ _ _ _ Hloop)
    as (Hfields & Hids & Hlen & Hclasses).
  cbn [Schedule.conditions Schedule.set_conditions length map app Nat.add]
    in Hids, Hlen, Hclasses.
  rewrite length_seq in Hlen.
  apply existsb_exists in Hknown as (x & Hin & Heq).
  apply String.eqb_eq in Heq. subst x.
  exists name, script, l, text, n.
  repeat (split; [first [assumption | reflexivity
                        | rewrite Hfields; reflexivity]|]).
  split; [exact (Hclasses eq_refl)|]. split; [|exact Hlen].
  apply Hids. intros i c Hi. destruct i; discriminate Hi.
Qed.

Lemma accepted_edit_witness :
  let schedule' :=
    fst (PageEditSchedule._set_submitted_vars edit_int None (Ok ["night.py"])
           edit_vars window_schedule true) in
  Schedule.name schedule' = VStr "night"
  /\ map Condition.class_of (Schedule.conditions schedule')
     = [Condition.ConditionOnStartup].
Proof.
  intros schedule'.
  destruct (accepted_edit edit_int None (Ok ["night.py"]) edit_vars
              window_schedule schedule' eq_refl eq_refl)
    as (name & script & l & text & n & Hname & _ & _ & _ & _ & Htext & Hn
        & Hname' & _ & _ & _ & _ & _ & Hclasses & _).
  split.
  - rewrite Hname'. injection Hname as <-. reflexivity.
  - rewrite Hclasses. injection Htext as <-. injection Hn as <-. reflexivity.
Defined.
